(** * NutriConnect: order lifecycle and mock payment gateway

    A shallow embedding of the order service (models/Order.js, the
    Meal/Student/Order services, middleware/validation.js) and of the mock
    PayDPI client (payment-service/clients/PayDPIClient.js), followed by the
    properties of the order lifecycle that the specification states.

    Modelling conventions
    - JavaScript numbers that the code only adds, subtracts, multiplies and
      compares (prices, quantities, counters, millisecond timestamps) are
      integers of [Z]: the mock tables hold integral amounts and the route
      declares the requested quantity as an integer. This is the arithmetic
      of the code as long as every value is an integer below 2^53 in
      magnitude, where doubles are exact. What the stock counter becomes
      outside that range, and for a quantity that is a string, is given by
      [MealStock], on the values of [Js.value].
    - Request bodies are taken with the types the routes document: strings
      for ids, dates and notes, an integer for the quantity or the amount,
      each possibly absent.
    - The meal and student tables are looked up by the ids they hold; the
      names that every JavaScript object inherits ([Js.inherited]) are not
      ids.
    - ISO timestamp strings ([new Date().toISOString()]) are kept as the
      millisecond instant they denote, which the code recovers with
      [new Date(str)].
    - [undefined]/[null] object fields are [option] values.
    - Status values are the strings the code compares with [===].
    - Every [async] method runs to completion without interleaving; the
      promise plumbing, the simulated delays and the [console.log] calls
      carry no state.
    - The fee of a payment is computed on doubles ([SpecFloat]), as the
      code does.
    - The host's [Date] parser, calendar and time zone are parameters
      ([Js.Host]); the clock is an argument of each call. A call of the order
      service is given one reading for all its [new Date()]s, a poll of the
      payment client one reading per [new Date()], since they are compared
      with each other. [Math.random()] draws are arguments as well. *)

From Stdlib Require Import ZArith Ascii String List Lia Sorted Permutation.
From Stdlib Require Import Decimal DecimalString DecimalFacts DecimalPos DecimalZ.
From Stdlib Require Import SpecFloat.
From stdpp Require Import gmap strings list fin_maps.

Local Open Scope string_scope.
Local Open Scope Z_scope.

(** ** JavaScript built-ins used by the services *)

Module Js.

(** The part of the host the code consults: [new Date(str)] / [Date.parse]
    ([None] is an Invalid Date, i.e. NaN); [midnight], the instant that
    [setHours(0, 0, 0, 0)] moves a Date to, which follows the rules of the
    host's time zone, daylight saving included; and the calendar day
    [toISOString().slice(0, 10)] of an instant. *)
Record Host := {
  dateParse : string -> option Z;
  midnight : Z -> Z;
  isoDay : Z -> string
}.

Definition msPerDay : Z := 86400000.

(** [const today = new Date(); today.setHours(0, 0, 0, 0)]. *)
Definition startOfLocalDay (h : Host) (now : Z) : Z := midnight h now.

(** The midnights of a zone that keeps one offset from UTC, in milliseconds
    east of it, the whole year. *)
Definition fixedZone (offset : Z) (now : Z) : Z :=
  now - (now + offset) mod msPerDay.

(** [a < b] on Date objects: false as soon as one side is NaN. *)
Definition dateLt (a b : option Z) : bool :=
  match a, b with
  | Some x, Some y => x <? y
  | _, _ => false
  end.

(** [Array.prototype.includes] on an array of strings. *)
Definition includes (l : list string) (s : string) : bool :=
  existsb (String.eqb s) l.

(** [Array.prototype.findIndex]; [None] stands for -1. *)
Fixpoint findIndex {A : Type} (p : A -> bool) (l : list A) : option nat :=
  match l with
  | [] => None
  | x :: r => if p x then Some 0%nat else S <$> findIndex p r
  end.

(** [Array.prototype.find]; [None] stands for undefined. *)
Fixpoint find {A : Type} (p : A -> bool) (l : list A) : option A :=
  match l with
  | [] => None
  | x :: r => if p x then Some x else find p r
  end.

(** [n.toString()] for an integer. *)
Definition toString (n : Z) : string :=
  NilEmpty.string_of_int (Z.to_int n).

(** [s.slice(-k)]: the last [k] characters (the whole string if shorter). *)
Definition sliceLast (k : nat) (s : string) : string :=
  substring (String.length s - k) k s.

(** [s.replace(/-/g, '')]. *)
Fixpoint stripDashes (s : string) : string :=
  match s with
  | EmptyString => EmptyString
  | String c r =>
      if Ascii.eqb c "-"%char then stripDashes r else String c (stripDashes r)
  end.

(** [s.includes(sub)] on strings. *)
Definition strIncludes (sub s : string) : bool :=
  match String.index 0 sub s with Some _ => true | None => false end.

(** Truthiness of an optional string: undefined and the empty string are
    falsy. *)
Definition truthyStr (s : option string) : bool :=
  match s with
  | Some x => negb (String.eqb x "")
  | None => false
  end.

(** Truthiness of an optional number: undefined and 0 are falsy. *)
Definition truthyNum (n : option Z) : bool :=
  match n with
  | Some x => negb (x =? 0)
  | None => false
  end.

(** [Array.prototype.sort(cmp)]: the sort is stable, and [cmp a b <= 0] keeps
    [a] before [b]; a comparator result of NaN counts as 0. For a comparator
    that is a consistent ordering this is the one result a stable sort can
    give. For any other comparator, one that answers NaN for some pairs
    among them, the language leaves the order to the engine: the list below
    is then one rearrangement, not necessarily the engine's. *)
Fixpoint insertBy {A : Type} (cmp : A -> A -> Z) (x : A) (l : list A) : list A :=
  match l with
  | [] => [x]
  | y :: r => if cmp x y <=? 0 then x :: y :: r else y :: insertBy cmp x r
  end.

Definition sortBy {A : Type} (cmp : A -> A -> Z) (l : list A) : list A :=
  foldr (insertBy cmp) [] l.

(** [Array.prototype.slice(start, end)] for integer bounds: a negative bound
    counts from the end, and both are clamped to the array. *)
Definition sliceBound (len k : Z) : Z :=
  if k <? 0 then Z.max (len + k) 0 else Z.min k len.

Definition slice {A : Type} (start stop : Z) (l : list A) : list A :=
  let len := Z.of_nat (length l) in
  let k := sliceBound len start in
  let e := sliceBound len stop in
  take (Z.to_nat (e - k)) (drop (Z.to_nat k) l).

(** [s.split(sep)] for a separator of one character. *)
Fixpoint splitOn (sep : ascii) (s : string) : list string :=
  match s with
  | EmptyString => [EmptyString]
  | String c r =>
      if Ascii.eqb c sep then EmptyString :: splitOn sep r
      else match splitOn sep r with
           | w :: ws => String c w :: ws
           | [] => [String c EmptyString]
           end
  end.

(** *** Doubles *)

(** The double nearest to [m * 2^e]. *)
Definition double (m e : Z) : spec_float := binary_normalize 53 1024 m e false.

(** [Math.round(x)] for a finite [x]: the integer nearest to it, the upper
    one of two that are equally near. *)
Definition mathRound (x : spec_float) : option Z :=
  match x with
  | S754_zero _ => Some 0
  | S754_finite s m e =>
      let v := if s then Z.neg m else Z.pos m in
      Some (if 0 <=? e then v * 2 ^ e else (2 * v + 2 ^ (- e)) / 2 ^ (1 - e))
  | _ => None
  end.

(** *** Numbers and values *)

(** The numbers that are whole: a double that holds an integer, an infinity
    or NaN. Sums and differences of such numbers are again of this kind.
    The two zeros are one [Fin 0]: the program cannot tell them apart. *)
Inductive number : Type :=
| Fin (z : Z)
| PosInf
| NegInf
| NaN.

(** The double nearest to the integer [z]: [z] itself below 2^53; beyond, the
    53 leading bits, rounded to nearest with ties to even; an infinity once
    the rounded magnitude reaches 2^1024. *)
Definition roundInt (z : Z) : number :=
  let a := Z.abs z in
  if a <? 2 ^ 53 then Fin z
  else
    let k := Z.log2 a - 52 in
    let m := a / 2 ^ k in
    let r := a mod 2 ^ k in
    let half := 2 ^ (k - 1) in
    let m' := if (half <? r) || ((r =? half) && Z.odd m) then m + 1 else m in
    let a' := m' * 2 ^ k in
    if 2 ^ 1024 <=? a' then (if z <? 0 then NegInf else PosInf)
    else Fin (Z.sgn z * a').

(** The integers on which number arithmetic is exact. *)
Definition safe (z : Z) : Prop := Z.abs z < 2 ^ 53.

Definition numNeg (a : number) : number :=
  match a with
  | Fin z => Fin (- z)
  | PosInf => NegInf
  | NegInf => PosInf
  | NaN => NaN
  end.

(** [a + b] on numbers. *)
Definition numAdd (a b : number) : number :=
  match a, b with
  | NaN, _ | _, NaN => NaN
  | PosInf, NegInf | NegInf, PosInf => NaN
  | PosInf, _ | _, PosInf => PosInf
  | NegInf, _ | _, NegInf => NegInf
  | Fin x, Fin y => roundInt (x + y)
  end.

(** [a - b] on numbers. *)
Definition numSub (a b : number) : number := numAdd a (numNeg b).

(** A primitive value: what [undefined] and JSON's null, booleans, whole
    numbers and strings are in the program. *)
Inductive value : Type :=
| Undefined
| Null
| Bool (b : bool)
| Num (n : number)
| Str (s : string).

(** The two conversions between strings and numbers that are left to the
    language: the number a string denotes ([Number(s)], NaN when it denotes
    none), and the digits [String(z)] of an integer from 2^53 on, where they
    are the shortest that give the double back. *)
Record Coercions := {
  stringToNumber : string -> number;
  longToString : Z -> string
}.

(** [Number(v)]. *)
Definition toNumber (c : Coercions) (v : value) : number :=
  match v with
  | Undefined => NaN
  | Null => Fin 0
  | Bool b => Fin (if b then 1 else 0)
  | Num n => n
  | Str s => stringToNumber c s
  end.

(** [String(n)]. *)
Definition showNumber (c : Coercions) (n : number) : string :=
  match n with
  | Fin z => if Z.abs z <? 2 ^ 53 then toString z else longToString c z
  | PosInf => "Infinity"
  | NegInf => "-Infinity"
  | NaN => "NaN"
  end.

(** [String(v)]. *)
Definition toStr (c : Coercions) (v : value) : string :=
  match v with
  | Undefined => "undefined"
  | Null => "null"
  | Bool b => if b then "true" else "false"
  | Num n => showNumber c n
  | Str s => s
  end.

(** [a - b]: both sides are converted to numbers. *)
Definition minus (c : Coercions) (a b : value) : value :=
  Num (numSub (toNumber c a) (toNumber c b)).

(** [a + b]: a concatenation as soon as one side is a string. *)
Definition plus (c : Coercions) (a b : value) : value :=
  match a, b with
  | Str _, _ | _, Str _ => Str (toStr c a +:+ toStr c b)
  | _, _ => Num (numAdd (toNumber c a) (toNumber c b))
  end.

(** *** Plain objects used as tables *)

(** The property names that every object inherits from [Object.prototype]:
    a lookup [table[key]] under one of them finds the inherited property
    when the table has none of its own. *)
Definition objectPrototypeKeys : list string :=
  ["constructor"; "__defineGetter__"; "__defineSetter__"; "hasOwnProperty";
   "__lookupGetter__"; "__lookupSetter__"; "isPrototypeOf";
   "propertyIsEnumerable"; "toString"; "valueOf"; "__proto__";
   "toLocaleString"].

Definition inherited (key : string) : bool := includes objectPrototypeKeys key.

End Js.

(** ** Errors thrown by the services: an [Error] with [statusCode] and [code] *)

Module Error.
Record t := {
  message : string;
  statusCode : Z;
  code : string
}.
End Error.

(** ** models/Order.js *)

Module Metadata.
Record t := {
  mealName : string;
  nutritionScore : Z;
  orderSource : string;
  apiVersion : string;
  cancelledBy : option string
}.
End Metadata.

(** The [orderData] object handed to [Order.create]. *)
Module OrderData.
Record t := {
  studentId : string;
  mealId : string;
  schoolId : string;
  scheduledDate : string;
  quantity : Z;
  totalAmount : Z;
  subsidyAmount : Z;
  finalAmount : Z;
  dietaryRestrictions : list string;
  specialInstructions : option string;
  pickupTime : option string;
  metadata : Metadata.t
}.
End OrderData.

Module StatusEntry.
Record t := {
  status : string;
  timestamp : Z;
  staffId : string;
  notes : option string
}.
End StatusEntry.

Module Order.

Record t := {
  id : string;
  studentId : string;
  mealId : string;
  schoolId : string;
  scheduledDate : string;
  quantity : Z;
  totalAmount : Z;
  subsidyAmount : Z;
  finalAmount : Z;
  dietaryRestrictions : list string;
  specialInstructions : option string;
  pickupTime : option string;
  metadata : Metadata.t;
  orderDate : Z;
  status : string;
  paymentStatus : string;
  paymentId : option string;
  createdAt : Z;
  updatedAt : Z;
  cancelledAt : option Z;
  cancellationReason : option string;
  updatedBy : option string;
  staffNotes : option string;
  statusHistory : option (list StatusEntry.t)
}.

(** The singleton's fields: [this.orders] and [this.counter]. *)
Record state := {
  orders : list t;
  counter : Z
}.

Definition init : state := {| orders := []; counter := 1000 |}.

Definition newId (c now : Z) : string :=
  "ORD" +:+ Js.toString c +:+ Js.sliceLast 4 (Js.toString now).

Definition create (now : Z) (d : OrderData.t) (st : state) : t * state :=
  let orderId := newId (counter st) now in
  let newOrder := {|
    id := orderId;
    studentId := OrderData.studentId d;
    mealId := OrderData.mealId d;
    schoolId := OrderData.schoolId d;
    scheduledDate := OrderData.scheduledDate d;
    quantity := OrderData.quantity d;
    totalAmount := OrderData.totalAmount d;
    subsidyAmount := OrderData.subsidyAmount d;
    finalAmount := OrderData.finalAmount d;
    dietaryRestrictions := OrderData.dietaryRestrictions d;
    specialInstructions := OrderData.specialInstructions d;
    pickupTime := OrderData.pickupTime d;
    metadata := OrderData.metadata d;
    orderDate := now;
    status := "PENDING";
    paymentStatus := if 0 <? OrderData.finalAmount d then "PENDING" else "PAID";
    paymentId := None;
    createdAt := now;
    updatedAt := now;
    cancelledAt := None;
    cancellationReason := None;
    updatedBy := None;
    staffNotes := None;
    statusHistory := None
  |} in
  (newOrder, {| orders := (orders st ++ [newOrder])%list; counter := counter st + 1 |}).

Definition hasId (orderId : string) (o : t) : bool := String.eqb (id o) orderId.

Definition findById (orderId : string) (st : state) : option t :=
  Js.find (hasId orderId) (orders st).

(** The predicate of [findExistingOrder]. *)
Definition isExisting (sid date : string) (o : t) : bool :=
  String.eqb (studentId o) sid
  && String.eqb (scheduledDate o) date
  && negb (String.eqb (status o) "CANCELLED").

Definition findExistingOrder (sid date : string) (st : state) : option t :=
  Js.find (isExisting sid date) (orders st).

(** Replace [this.orders[i]] by [f] of its current value and return the new
    element; [None] when there is no such order. *)
Definition updateAt (orderId : string) (f : t -> t) (st : state)
  : option t * state :=
  match Js.findIndex (hasId orderId) (orders st) with
  | None => (None, st)
  | Some i =>
      match orders st !! i with
      | None => (None, st)
      | Some o =>
          (Some (f o), {| orders := <[i := f o]> (orders st); counter := counter st |})
      end
  end.

Definition cancelled (now : Z) (reason : option string) (o : t) : t := {|
  id := id o;
  studentId := studentId o;
  mealId := mealId o;
  schoolId := schoolId o;
  scheduledDate := scheduledDate o;
  quantity := quantity o;
  totalAmount := totalAmount o;
  subsidyAmount := subsidyAmount o;
  finalAmount := finalAmount o;
  dietaryRestrictions := dietaryRestrictions o;
  specialInstructions := specialInstructions o;
  pickupTime := pickupTime o;
  metadata := {|
    Metadata.mealName := Metadata.mealName (metadata o);
    Metadata.nutritionScore := Metadata.nutritionScore (metadata o);
    Metadata.orderSource := Metadata.orderSource (metadata o);
    Metadata.apiVersion := Metadata.apiVersion (metadata o);
    Metadata.cancelledBy := Some "student"
  |};
  orderDate := orderDate o;
  status := "CANCELLED";
  paymentStatus := paymentStatus o;
  paymentId := paymentId o;
  createdAt := createdAt o;
  updatedAt := now;
  cancelledAt := Some now;
  cancellationReason := reason;
  updatedBy := updatedBy o;
  staffNotes := staffNotes o;
  statusHistory := statusHistory o
|}.

Definition cancel (now : Z) (orderId : string) (reason : option string)
  (st : state) : option t * state :=
  updateAt orderId (cancelled now reason) st.

Definition withStatus (now : Z) (newStatus staff : string)
  (notes : option string) (o : t) : t := {|
  id := id o;
  studentId := studentId o;
  mealId := mealId o;
  schoolId := schoolId o;
  scheduledDate := scheduledDate o;
  quantity := quantity o;
  totalAmount := totalAmount o;
  subsidyAmount := subsidyAmount o;
  finalAmount := finalAmount o;
  dietaryRestrictions := dietaryRestrictions o;
  specialInstructions := specialInstructions o;
  pickupTime := pickupTime o;
  metadata := metadata o;
  orderDate := orderDate o;
  status := newStatus;
  paymentStatus := paymentStatus o;
  paymentId := paymentId o;
  createdAt := createdAt o;
  updatedAt := now;
  cancelledAt := cancelledAt o;
  cancellationReason := cancellationReason o;
  updatedBy := Some staff;
  staffNotes := notes;
  statusHistory :=
    Some (default [] (statusHistory o) ++
          [ {| StatusEntry.status := newStatus;
               StatusEntry.timestamp := now;
               StatusEntry.staffId := staff;
               StatusEntry.notes := notes |} ])%list
|}.

Definition updateStatus (now : Z) (orderId newStatus staff : string)
  (notes : option string) (st : state) : option t * state :=
  updateAt orderId (withStatus now newStatus staff notes) st.

Definition withPayment (now : Z) (pid : option string) (ps : string) (o : t) : t := {|
  id := id o;
  studentId := studentId o;
  mealId := mealId o;
  schoolId := schoolId o;
  scheduledDate := scheduledDate o;
  quantity := quantity o;
  totalAmount := totalAmount o;
  subsidyAmount := subsidyAmount o;
  finalAmount := finalAmount o;
  dietaryRestrictions := dietaryRestrictions o;
  specialInstructions := specialInstructions o;
  pickupTime := pickupTime o;
  metadata := metadata o;
  orderDate := orderDate o;
  status := status o;
  paymentStatus := ps;
  paymentId := pid;
  createdAt := createdAt o;
  updatedAt := now;
  cancelledAt := cancelledAt o;
  cancellationReason := cancellationReason o;
  updatedBy := updatedBy o;
  staffNotes := staffNotes o;
  statusHistory := statusHistory o
|}.

Definition updatePaymentStatus (now : Z) (orderId ps : string) (st : state)
  : option t * state :=
  updateAt orderId (fun o => withPayment now (paymentId o) ps o) st.

Definition updatePaymentInfo (now : Z) (orderId : string)
  (pid : option string) (ps : string) (st : state) : option t * state :=
  updateAt orderId (withPayment now pid ps) st.

(** *** Queries *)

Definition ofStudent (sid : string) (o : t) : bool := String.eqb (studentId o) sid.

Definition inStatus (s : string) (o : t) : bool := String.eqb (status o) s.

(** The orders of a student, narrowed to a status when one is given: the two
    [filter] calls that [findByStudent] and [countByStudent] share. *)
Definition studentOrders (sid : string) (statusFilter : option string) (st : state)
  : list t :=
  let studentOrders := List.filter (ofStudent sid) (orders st) in
  if Js.truthyStr statusFilter
  then List.filter (inStatus (default "" statusFilter)) studentOrders
  else studentOrders.

(** [(a, b) => new Date(b.orderDate) - new Date(a.orderDate)]. *)
Definition newestFirst (a b : t) : Z := orderDate b - orderDate a.

Definition findByStudent (sid : string) (statusFilter : option string)
  (limit offset : Z) (st : state) : list t :=
  Js.slice offset (offset + limit)
    (Js.sortBy newestFirst (studentOrders sid statusFilter st)).

Definition countByStudent (sid : string) (statusFilter : option string) (st : state)
  : nat :=
  length (studentOrders sid statusFilter st).

Definition isPending (o : t) : bool :=
  Js.includes ["PENDING"; "CONFIRMED"] (status o).

Definition onDate (date : string) (o : t) : bool := String.eqb (scheduledDate o) date.

(** The comparator of [findPendingOrders]: by scheduled date, then by order
    time. The date difference is NaN when a date does not parse; NaN is not
    [=== 0], so it is returned, and the sort reads it as 0. *)
Definition byDateThenOrder (h : Js.Host) (a b : t) : Z :=
  match Js.dateParse h (scheduledDate a), Js.dateParse h (scheduledDate b) with
  | Some x, Some y => if negb (x - y =? 0) then x - y else orderDate a - orderDate b
  | _, _ => 0
  end.

Definition pendingOrders (date : option string) (st : state) : list t :=
  let pendingOrders := List.filter isPending (orders st) in
  if Js.truthyStr date
  then List.filter (onDate (default "" date)) pendingOrders
  else pendingOrders.

Definition findPendingOrders (h : Js.Host) (date : option string) (st : state)
  : list t :=
  Js.sortBy (byDateThenOrder h) (pendingOrders date st).

End Order.

(** ** services/MealService.js *)

Module Meal.
Record t := {
  id : string;
  name : string;
  description : string;
  price : Z;
  subsidyAmount : Z;
  nutritionScore : Z;
  available : bool;
  maxQuantityPerDay : Z;
  currentQuantity : Z
}.

(** [meal.currentQuantity = q], the other fields kept. *)
Definition withQuantity (q : Z) (m : t) : t := {|
  id := id m;
  name := name m;
  description := description m;
  price := price m;
  subsidyAmount := subsidyAmount m;
  nutritionScore := nutritionScore m;
  available := available m;
  maxQuantityPerDay := maxQuantityPerDay m;
  currentQuantity := q
|}.
End Meal.

Module MealService.

(** [this.meals] as set up by the constructor. *)
Definition init : gmap string Meal.t :=
  <["meal_001" := {|
      Meal.id := "meal_001";
      Meal.name := "Rice and Curry";
      Meal.description := "Traditional Sri Lankan rice with mixed vegetables and dhal curry";
      Meal.price := 50;
      Meal.subsidyAmount := 30;
      Meal.nutritionScore := 85;
      Meal.available := true;
      Meal.maxQuantityPerDay := 100;
      Meal.currentQuantity := 95 |}]>
  (<["meal_002" := {|
      Meal.id := "meal_002";
      Meal.name := "Chicken Sandwich";
      Meal.description := "Grilled chicken sandwich with fresh vegetables";
      Meal.price := 80;
      Meal.subsidyAmount := 20;
      Meal.nutritionScore := 75;
      Meal.available := true;
      Meal.maxQuantityPerDay := 50;
      Meal.currentQuantity := 48 |}]> ∅).

Definition getMealById (mealId : string) (meals : gmap string Meal.t)
  : option Meal.t :=
  meals !! mealId.

Definition updateAvailability (mealId : string) (quantity : Z)
  (meals : gmap string Meal.t) : gmap string Meal.t :=
  match meals !! mealId with
  | Some m => <[mealId := Meal.withQuantity (Meal.currentQuantity m - quantity) m]> meals
  | None => meals
  end.

Definition restoreAvailability (mealId : string) (quantity : Z)
  (meals : gmap string Meal.t) : gmap string Meal.t :=
  match meals !! mealId with
  | Some m => <[mealId := Meal.withQuantity (Meal.currentQuantity m + quantity) m]> meals
  | None => meals
  end.

End MealService.

(** ** MealService on the values a quantity can be *)

(** [updateAvailability] and [restoreAvailability] once more, with the
    quantity and the stock counter as the values the operators [-=] and [+=]
    work on. [createOrder] hands the quantity of the request body to the
    first, [cancelOrder] the quantity stored in the order to the second. *)
Module MealStock.

(** An entry of [this.meals]; the stock counter is a string once [+=] has
    concatenated. *)
Record t := {
  id : string;
  name : string;
  description : string;
  price : Z;
  subsidyAmount : Z;
  nutritionScore : Z;
  available : bool;
  maxQuantityPerDay : Z;
  currentQuantity : Js.value
}.

(** [meal.currentQuantity = q], the other fields kept. *)
Definition withQuantity (q : Js.value) (m : t) : t := {|
  id := id m;
  name := name m;
  description := description m;
  price := price m;
  subsidyAmount := subsidyAmount m;
  nutritionScore := nutritionScore m;
  available := available m;
  maxQuantityPerDay := maxQuantityPerDay m;
  currentQuantity := q
|}.

(** A meal whose counter is an integer. *)
Definition ofMeal (m : Meal.t) : t := {|
  id := Meal.id m;
  name := Meal.name m;
  description := Meal.description m;
  price := Meal.price m;
  subsidyAmount := Meal.subsidyAmount m;
  nutritionScore := Meal.nutritionScore m;
  available := Meal.available m;
  maxQuantityPerDay := Meal.maxQuantityPerDay m;
  currentQuantity := Js.Num (Js.Fin (Meal.currentQuantity m))
|}.

(** [this.meals[mealId].currentQuantity -= quantity]. *)
Definition updateAvailability (c : Js.Coercions) (mealId : string)
  (quantity : Js.value) (meals : gmap string t) : gmap string t :=
  match meals !! mealId with
  | Some m =>
      <[mealId := withQuantity (Js.minus c (currentQuantity m) quantity) m]> meals
  | None => meals
  end.

(** [this.meals[mealId].currentQuantity += quantity]. *)
Definition restoreAvailability (c : Js.Coercions) (mealId : string)
  (quantity : Js.value) (meals : gmap string t) : gmap string t :=
  match meals !! mealId with
  | Some m =>
      <[mealId := withQuantity (Js.plus c (currentQuantity m) quantity) m]> meals
  | None => meals
  end.

End MealStock.

(** ** services/StudentService.js *)

Module Student.
Record t := {
  id : string;
  name : string;
  school : string;
  grade : string;
  subsidyEligible : bool;
  dietaryRestrictions : list string;
  parentId : string
}.
End Student.

Module StudentService.

Definition init : gmap string Student.t :=
  <["student123" := {|
      Student.id := "student123";
      Student.name := "Kamal Perera";
      Student.school := "Royal College";
      Student.grade := "10A";
      Student.subsidyEligible := true;
      Student.dietaryRestrictions := ["vegetarian"];
      Student.parentId := "parent456" |}]>
  (<["student124" := {|
      Student.id := "student124";
      Student.name := "Nimal Silva";
      Student.school := "Royal College";
      Student.grade := "9B";
      Student.subsidyEligible := true;
      Student.dietaryRestrictions := [];
      Student.parentId := "parent457" |}]> ∅).

(** [this.students[studentId] || null], for an id that names no property
    that the table inherits ([Js.inherited]): under such a name the code
    finds the inherited property and takes it for a student. *)
Definition getStudentById (studentId : string)
  (students : gmap string Student.t) : option Student.t :=
  students !! studentId.

End StudentService.

(** ** The singletons the order service works on, and its effects *)

Module Services.
Record t := {
  orderModel : Order.state;
  meals : gmap string Meal.t;
  students : gmap string Student.t
}.

Definition init : t := {|
  orderModel := Order.init;
  meals := MealService.init;
  students := StudentService.init
|}.
End Services.

(** A call either returns a value or throws; both leave a store behind. *)
Inductive result (A : Type) : Type :=
| Ok (a : A)
| Throw (e : Error.t).
Arguments Ok {A} a.
Arguments Throw {A} e.

Definition M (A : Type) : Type := Services.t -> result A * Services.t.

Definition ret {A : Type} (a : A) : M A := fun s => (Ok a, s).

Definition throw {A : Type} (e : Error.t) : M A := fun s => (Throw e, s).

Definition bind {A B : Type} (c : M A) (k : A -> M B) : M B :=
  fun s =>
    match c s with
    | (Ok a, s') => k a s'
    | (Throw e, s') => (Throw e, s')
    end.

Notation "x <- c ;; k" := (bind c (fun x => k))
  (at level 100, c at next level, right associativity).
Notation "c ;;; k" := (bind c (fun _ => k))
  (at level 100, right associativity).

(** A call into the order model. *)
Definition onOrders {A : Type} (f : Order.state -> A * Order.state) : M A :=
  fun s =>
    let '(a, st) := f (Services.orderModel s) in
    (Ok a, {| Services.orderModel := st;
              Services.meals := Services.meals s;
              Services.students := Services.students s |}).

Definition readOrders {A : Type} (f : Order.state -> A) : M A :=
  fun s => (Ok (f (Services.orderModel s)), s).

Definition readMeals {A : Type} (f : gmap string Meal.t -> A) : M A :=
  fun s => (Ok (f (Services.meals s)), s).

Definition onMeals (f : gmap string Meal.t -> gmap string Meal.t) : M unit :=
  fun s =>
    (Ok tt, {| Services.orderModel := Services.orderModel s;
               Services.meals := f (Services.meals s);
               Services.students := Services.students s |}).

Definition readStudents {A : Type} (f : gmap string Student.t -> A) : M A :=
  fun s => (Ok (f (Services.students s)), s).

(** ** services/OrderService.js *)

(** The [orderData] argument of [createOrder] (the request body). *)
Module OrderRequest.
Record t := {
  mealId : string;
  scheduledDate : string;
  quantity : option Z;
  pickupTime : option string;
  specialInstructions : option string
}.
End OrderRequest.

Module Reply.
(** [{ success: true, order, message, nextSteps }]; [nextSteps] is only set
    by [createOrder]. *)
Record t := {
  success : bool;
  order : option Order.t;
  message : string;
  nextSteps : list string
}.
End Reply.

(** [{ success, orders, pagination: { total, limit, offset } }]. *)
Module OrdersPage.
Record t := {
  success : bool;
  orders : list Order.t;
  total : nat;
  limit : Z;
  offset : Z
}.
End OrdersPage.

(** [{ success, orders, summary: { total, byDate } }]. *)
Module PendingReport.

(** A property of the plain object [byDate]: a count, or the text that
    [+ 1] makes of a property the object inherits (its wording is the
    engine's). *)
Inductive entry : Type :=
| Count (n : Z)
| Text.

(** [byDate] holds the own properties of the object. *)
Record t := {
  success : bool;
  orders : list Order.t;
  total : nat;
  byDate : gmap string entry
}.
End PendingReport.

Module OrderService.

Definition err (msg : string) (sc : Z) (c : string) : Error.t :=
  {| Error.message := msg; Error.statusCode := sc; Error.code := c |}.

(** The [orderData_processed] object of [createOrder], pricing included. The
    amounts are those of the code for an integer quantity as long as the
    products stay below 2^53 in magnitude; beyond, and for a quantity that
    is not a number, the code's products round, overflow or are NaN. *)
Definition orderData_processed (studentId : string) (orderData : OrderRequest.t)
  (meal : Meal.t) (student : Student.t) : OrderData.t :=
  let quantity := default 1 (OrderRequest.quantity orderData) in
  let totalAmount := Meal.price meal * quantity in
  let subsidyAmount :=
    if Student.subsidyEligible student
    then Meal.subsidyAmount meal * quantity else 0 in
  let finalAmount := Z.max 0 (totalAmount - subsidyAmount) in
  {| OrderData.studentId := studentId;
     OrderData.mealId := OrderRequest.mealId orderData;
     OrderData.schoolId := Student.school student;
     OrderData.scheduledDate := OrderRequest.scheduledDate orderData;
     OrderData.quantity := quantity;
     OrderData.totalAmount := totalAmount;
     OrderData.subsidyAmount := subsidyAmount;
     OrderData.finalAmount := finalAmount;
     OrderData.dietaryRestrictions := Student.dietaryRestrictions student;
     OrderData.specialInstructions := OrderRequest.specialInstructions orderData;
     OrderData.pickupTime := OrderRequest.pickupTime orderData;
     OrderData.metadata := {|
       Metadata.mealName := Meal.name meal;
       Metadata.nutritionScore := Meal.nutritionScore meal;
       Metadata.orderSource := "web_app";
       Metadata.apiVersion := "v1";
       Metadata.cancelledBy := None |}
  |}.

Definition created (newOrder : Order.t) : Reply.t :=
  {| Reply.success := true;
     Reply.order := Some newOrder;
     Reply.message := "Order placed successfully";
     Reply.nextSteps :=
       if 0 <? Order.finalAmount newOrder
       then ["Complete payment to confirm order"]
       else ["Order confirmed - fully subsidized"] |}.

Definition createOrder (h : Js.Host) (now : Z) (studentId : string)
  (orderData : OrderRequest.t) : M Reply.t :=
  let mealId := OrderRequest.mealId orderData in
  let scheduledDate := OrderRequest.scheduledDate orderData in
  let quantity := default 1 (OrderRequest.quantity orderData) in
  let orderDate := Js.dateParse h scheduledDate in
  let today := Js.startOfLocalDay h now in
  if Js.dateLt orderDate (Some today) then
    throw (err "Cannot order meals for past dates" 400 "invalid_date")
  else
  meal <- readMeals (MealService.getMealById mealId) ;;
  match meal with
  | None => throw (err "Selected meal is not available" 404 "meal_not_available")
  | Some meal =>
  if negb (Meal.available meal) then
    throw (err "Selected meal is not available" 404 "meal_not_available")
  else
  student <- readStudents (StudentService.getStudentById studentId) ;;
  match student with
  | None => throw (err "Student not found in system" 401 "student_not_found")
  | Some student =>
  existingOrder <- readOrders (Order.findExistingOrder studentId scheduledDate) ;;
  match existingOrder with
  | Some _ => throw (err "You already have an order for this date" 409 "duplicate_order")
  | None =>
  newOrder <- onOrders
    (Order.create now (orderData_processed studentId orderData meal student)) ;;
  onMeals (MealService.updateAvailability mealId quantity) ;;;
  ret (created newOrder)
  end end end.

Definition getOrderById (orderId studentId : string) : M Reply.t :=
  order <- readOrders (Order.findById orderId) ;;
  match order with
  | None => throw (err "Order not found" 404 "order_not_found")
  | Some o =>
      if negb (String.eqb (Order.studentId o) studentId) then
        throw (err "Order not found" 404 "order_not_found")
      else
        ret {| Reply.success := true; Reply.order := Some o;
               Reply.message := ""; Reply.nextSteps := [] |}
  end.

Definition cancelOrder (now : Z) (orderId studentId : string)
  (reason : option string) : M Reply.t :=
  order <- readOrders (Order.findById orderId) ;;
  match order with
  | None => throw (err "Order not found" 404 "order_not_found")
  | Some order =>
  if negb (String.eqb (Order.studentId order) studentId) then
    throw (err "Order not found" 404 "order_not_found")
  else if negb (Js.includes ["PENDING"; "CONFIRMED"] (Order.status order)) then
    throw (err "Order cannot be cancelled at this stage" 400 "cannot_cancel")
  else
  updatedOrder <- onOrders (Order.cancel now orderId reason) ;;
  (if String.eqb (Order.paymentStatus order) "PAID" && (0 <? Order.finalAmount order)
   then _ <- onOrders (Order.updatePaymentStatus now orderId "REFUNDED") ;; ret tt
   else ret tt) ;;;
  onMeals (MealService.restoreAvailability (Order.mealId order) (Order.quantity order)) ;;;
  ret {| Reply.success := true;
         Reply.order := updatedOrder;
         Reply.message := "Order cancelled successfully";
         Reply.nextSteps := [] |}
  end.

Definition updateOrderStatus (now : Z) (orderId staffId status : string)
  (notes : option string) : M Reply.t :=
  order <- readOrders (Order.findById orderId) ;;
  match order with
  | None => throw (err "Order not found" 404 "order_not_found")
  | Some _ =>
  updatedOrder <- onOrders (Order.updateStatus now orderId status staffId notes) ;;
  ret {| Reply.success := true;
         Reply.order := updatedOrder;
         Reply.message := "Order status updated successfully";
         Reply.nextSteps := [] |}
  end.

(** The [filters] of [getOrdersByStudent], numbers already read by
    [parseInt]. *)
Definition getOrdersByStudent (studentId : string) (statusFilter : option string)
  (limit offset : option Z) : M OrdersPage.t :=
  let limit := default 20 limit in
  let offset := default 0 offset in
  orders <- readOrders (Order.findByStudent studentId statusFilter limit offset) ;;
  total <- readOrders (Order.countByStudent studentId statusFilter) ;;
  ret {| OrdersPage.success := true;
         OrdersPage.orders := orders;
         OrdersPage.total := total;
         OrdersPage.limit := limit;
         OrdersPage.offset := offset |}.

(** [acc[order.scheduledDate] = (acc[order.scheduledDate] || 0) + 1] on the
    plain object [acc]. A count of its own is raised by one. A text stays a
    text. Without a property of its own the key is looked up in
    [Object.prototype]: a key that is not found there starts at 1; a key
    that is found yields an object, which [+ 1] turns into text, and the
    text is stored, except under [__proto__], whose setter drops it. *)
Definition tally (acc : gmap string PendingReport.entry) (o : Order.t)
  : gmap string PendingReport.entry :=
  let key := Order.scheduledDate o in
  match acc !! key with
  | Some (PendingReport.Count n) => <[key := PendingReport.Count (n + 1)]> acc
  | Some PendingReport.Text => <[key := PendingReport.Text]> acc
  | None =>
      if String.eqb key "__proto__" then acc
      else if Js.inherited key then <[key := PendingReport.Text]> acc
      else <[key := PendingReport.Count 1]> acc
  end.

Definition getPendingOrdersForStaff (h : Js.Host) (date : option string)
  : M PendingReport.t :=
  orders <- readOrders (Order.findPendingOrders h date) ;;
  ret {| PendingReport.success := true;
         PendingReport.orders := orders;
         PendingReport.total := length orders;
         PendingReport.byDate := fold_left tally orders ∅ |}.

End OrderService.

(** ** middleware/validation.js *)

Module Validation.

(** The fields of [req.body] the order validator reads, with the types the
    route documents: a quantity that is not a number (a string, an object)
    has no place here. *)
Record OrderBody := {
  mealId : option string;
  scheduledDate : option string;
  quantity : option Z
}.

(** [res.status(code).json({ success, error, message, details |
    validStatuses })]. *)
Record Response := {
  httpStatus : Z;
  success : bool;
  error : string;
  message : string;
  details : list string
}.

(** A middleware either answers the request or calls [next()]. *)
Inductive outcome : Type :=
| Respond (r : Response)
| Next.

(** [if (c) errors.push(msg)]. *)
Definition pushIf (c : bool) (msg : string) (errors : list string) : list string :=
  if c then (errors ++ [msg])%list else errors.

(** [quantity < 1] and [quantity > 10]: comparisons with undefined are
    false. *)
Definition ltNum (q : option Z) (k : Z) : bool :=
  match q with Some x => x <? k | None => false end.
Definition gtNum (q : option Z) (k : Z) : bool :=
  match q with Some x => k <? x | None => false end.

(** [isNaN(Date.parse(scheduledDate))]. *)
Definition parseIsNaN (h : Js.Host) (d : option string) : bool :=
  match d with
  | Some s => match Js.dateParse h s with Some _ => false | None => true end
  | None => true
  end.

Definition orderErrors (h : Js.Host) (body : OrderBody) : list string :=
  let errors := [] in
  let errors := pushIf (negb (Js.truthyStr (mealId body)))
                  "Meal ID is required" errors in
  let errors := pushIf (negb (Js.truthyStr (scheduledDate body)))
                  "Scheduled date is required" errors in
  let errors := pushIf (negb (Js.truthyNum (quantity body)) || ltNum (quantity body) 1)
                  "Valid quantity is required" errors in
  let errors := pushIf (Js.truthyStr (scheduledDate body)
                        && parseIsNaN h (scheduledDate body))
                  "Invalid date format" errors in
  let errors := pushIf (Js.truthyNum (quantity body) && gtNum (quantity body) 10)
                  "Maximum 10 meals per order" errors in
  errors.

Definition validateOrderRequest (h : Js.Host) (body : OrderBody) : outcome :=
  let errors := orderErrors h body in
  if (0 <? length errors)%nat then
    Respond {| httpStatus := 400;
               success := false;
               error := "validation_error";
               message := "Request validation failed";
               details := errors |}
  else Next.

Definition validStatuses : list string :=
  ["CONFIRMED"; "PREPARING"; "READY"; "DELIVERED"].

Definition validateStatusUpdate (status : option string) : outcome :=
  if negb (Js.truthyStr status)
     || negb (Js.includes validStatuses (default "" status)) then
    Respond {| httpStatus := 400;
               success := false;
               error := "validation_error";
               message := "Valid status is required";
               details := validStatuses |}
  else Next.

End Validation.

(** ** payment-service/clients/PayDPIClient.js *)

Module Payment.
Record t := {
  paymentId : string;
  merchantId : string;
  orderId : string;
  amount : Z;
  currency : string;
  description : string;
  status : string;
  fees : Z;
  initiatedAt : Z;
  expiresAt : Z;
  paymentMethods : list string;
  paymentMethod : option string;
  transactionId : option string;
  completedAt : option Z;
  cardLast4 : option string;
  cancelledAt : option Z;
  cancellationReason : option string
}.

(** [payment.status = s]. *)
Definition withStatus (s : string) (p : t) : t := {|
  paymentId := paymentId p;
  merchantId := merchantId p;
  orderId := orderId p;
  amount := amount p;
  currency := currency p;
  description := description p;
  status := s;
  fees := fees p;
  initiatedAt := initiatedAt p;
  expiresAt := expiresAt p;
  paymentMethods := paymentMethods p;
  paymentMethod := paymentMethod p;
  transactionId := transactionId p;
  completedAt := completedAt p;
  cardLast4 := cardLast4 p;
  cancelledAt := cancelledAt p;
  cancellationReason := cancellationReason p
|}.

(** The completion details written when a payment completes. *)
Definition withCompletion (method txn : string) (at_ : Z)
  (card : option string) (p : t) : t := {|
  paymentId := paymentId p;
  merchantId := merchantId p;
  orderId := orderId p;
  amount := amount p;
  currency := currency p;
  description := description p;
  status := status p;
  fees := fees p;
  initiatedAt := initiatedAt p;
  expiresAt := expiresAt p;
  paymentMethods := paymentMethods p;
  paymentMethod := Some method;
  transactionId := Some txn;
  completedAt := Some at_;
  cardLast4 := card;
  cancelledAt := cancelledAt p;
  cancellationReason := cancellationReason p
|}.

(** [payment.cancelledAt = at; payment.cancellationReason = reason]. *)
Definition withCancellation (at_ : Z) (reason : string) (p : t) : t := {|
  paymentId := paymentId p;
  merchantId := merchantId p;
  orderId := orderId p;
  amount := amount p;
  currency := currency p;
  description := description p;
  status := status p;
  fees := fees p;
  initiatedAt := initiatedAt p;
  expiresAt := expiresAt p;
  paymentMethods := paymentMethods p;
  paymentMethod := paymentMethod p;
  transactionId := transactionId p;
  completedAt := completedAt p;
  cardLast4 := cardLast4 p;
  cancelledAt := Some at_;
  cancellationReason := Some reason
|}.
End Payment.

Module PayDPIClient.

(** The thrown object [{ success: false, error: { code, message } }]. *)
Record Failure := {
  code : string;
  message : string
}.

(** [this.payments] and [this.paymentCounter]; the merchant id of
    [this.config]. *)
Record state := {
  payments : gmap string Payment.t;
  paymentCounter : Z;
  merchantId : string
}.

Definition init : state := {|
  payments := ∅;
  paymentCounter := 5000;
  merchantId := "MERCHANT_001"
|}.

Definition setPayment (k : string) (p : Payment.t) (st : state) : state := {|
  payments := <[k := p]> (payments st);
  paymentCounter := paymentCounter st;
  merchantId := merchantId st
|}.

(** The values drawn from [Math.random()] while a payment completes. *)
Record Draws := {
  methodPick : nat;
  txnSuffix : string;
  cardPick : Z
}.

Definition methods : list string :=
  ["CREDIT_CARD"; "DEBIT_CARD"; "DIGITAL_WALLET"; "BANK_TRANSFER"; "QR_CODE"].

Definition getRandomPaymentMethod (r : Draws) : string :=
  default "CREDIT_CARD" (methods !! (methodPick r mod length methods)%nat).

Definition generateTransactionId (r : Draws) : string :=
  "TXN_" +:+ txnSuffix r.

Definition generatePaymentId (h : Js.Host) (now : Z) (st : state) : string :=
  "PAY_" +:+ Js.stripDashes (Js.isoDay h now) +:+ "_"
         +:+ Js.toString (paymentCounter st + 1).

(** [feeRates[primaryMethod] || 0.025], for a method that names no property
    the table inherits; the rates 0.025, 0.01 and 0.015 are the doubles
    nearest to them. *)
Definition feeRate (method : string) : spec_float :=
  let twoAndAHalfPercent := Js.double 3602879701896397 (-57) in
  let onePercent := Js.double 5764607523034235 (-59) in
  let oneAndAHalfPercent := Js.double 1080863910568919 (-56) in
  if String.eqb method "CREDIT_CARD" then twoAndAHalfPercent
  else if String.eqb method "DEBIT_CARD" then twoAndAHalfPercent
  else if String.eqb method "BANK_TRANSFER" then onePercent
  else if String.eqb method "DIGITAL_WALLET" then oneAndAHalfPercent
  else if String.eqb method "QR_CODE" then oneAndAHalfPercent
  else twoAndAHalfPercent.

(** The fee in hundredths of a rupee, [Math.round(amount * feeRate * 100)],
    the two products being those of doubles. (For an amount so large that
    the product is not finite there is no such integer; 0 stands for it.) *)
Definition calculateFees (amount : Z) (paymentMethods : list string) : Z :=
  let primaryMethod :=
    match paymentMethods with
    | m :: _ => if String.eqb m "" then "CREDIT_CARD" else m
    | [] => "CREDIT_CARD"
    end in
  default 0
    (Js.mathRound
       (SFmul 53 1024
          (SFmul 53 1024 (Js.double amount 0) (feeRate primaryMethod))
          (Js.double 100 0))).

Module PaymentData.
Record t := {
  orderId : option string;
  amount : option Z;
  currency : option string;
  description : option string;
  paymentMethods : option (list string);
  expiryMinutes : option Z
}.
End PaymentData.

Module InitiateResponse.
Record t := {
  success : bool;
  paymentId : string;
  status : string;
  redirectUrl : string;
  qrCode : string;
  deepLink : string;
  expiresAt : Z;
  fees : Z
}.
End InitiateResponse.

Definition missing (field : string) : Failure :=
  {| code := "VALIDATION_ERROR";
     message := "Missing required field: " +:+ field |}.

(** One reading of the clock stands for the three of a call. An expiry
    beyond the range of [Date], for which [toISOString] throws once the
    counter has advanced, is not modelled ([ClientSpec.expiryInRange]). *)
Definition initiatePayment (h : Js.Host) (now : Z) (d : PaymentData.t)
  (st : state) : (Failure + InitiateResponse.t) * state :=
  if negb (Js.truthyStr (PaymentData.orderId d)) then (inl (missing "orderId"), st)
  else if negb (Js.truthyNum (PaymentData.amount d)) then (inl (missing "amount"), st)
  else if negb (Js.truthyStr (PaymentData.currency d)) then (inl (missing "currency"), st)
  else if negb (Js.truthyStr (PaymentData.description d)) then
    (inl (missing "description"), st)
  else
    let oid := default "" (PaymentData.orderId d) in
    let amt := default 0 (PaymentData.amount d) in
    let cur := default "" (PaymentData.currency d) in
    let descr := default "" (PaymentData.description d) in
    if amt <=? 0 then
      (inl {| code := "VALIDATION_ERROR"; message := "Invalid amount" |}, st)
    else
      let pid := generatePaymentId h now st in
      let fee :=
        calculateFees amt (default ["CREDIT_CARD"] (PaymentData.paymentMethods d)) in
      let expiryMinutes :=
        if Js.truthyNum (PaymentData.expiryMinutes d)
        then default 60 (PaymentData.expiryMinutes d) else 60 in
      let expires := now + expiryMinutes * 60 * 1000 in
      let payment := {|
        Payment.paymentId := pid;
        Payment.merchantId := merchantId st;
        Payment.orderId := oid;
        Payment.amount := amt;
        Payment.currency := cur;
        Payment.description := descr;
        Payment.status := "INITIATED";
        Payment.fees := fee;
        Payment.initiatedAt := now;
        Payment.expiresAt := expires;
        Payment.paymentMethods :=
          default ["CREDIT_CARD"; "DEBIT_CARD"; "DIGITAL_WALLET"]
                  (PaymentData.paymentMethods d);
        Payment.paymentMethod := None;
        Payment.transactionId := None;
        Payment.completedAt := None;
        Payment.cardLast4 := None;
        Payment.cancelledAt := None;
        Payment.cancellationReason := None |} in
      (inr {| InitiateResponse.success := true;
              InitiateResponse.paymentId := pid;
              InitiateResponse.status := "INITIATED";
              InitiateResponse.redirectUrl := "https://paydpi.gov.lk/payment/" +:+ pid;
              InitiateResponse.qrCode := "https://paydpi.gov.lk/qr/" +:+ pid;
              InitiateResponse.deepLink := "paydpi://payment/" +:+ pid;
              InitiateResponse.expiresAt := expires;
              InitiateResponse.fees := fee |},
       {| payments := <[pid := payment]> (payments st);
          paymentCounter := paymentCounter st + 1;
          merchantId := merchantId st |}).

(** *** Status polling *)

(** The three guarded assignments of [getPaymentStatus], in program order.
    [elapsed] is [now - initiated]. *)
Definition stepProcessing (elapsed : Z) (p : Payment.t) : Payment.t :=
  if String.eqb (Payment.status p) "INITIATED" && (30000 <? elapsed)
  then Payment.withStatus "PROCESSING" p else p.

Definition stepCompleted (elapsed doneAt : Z) (r : Draws) (p : Payment.t)
  : Payment.t :=
  if String.eqb (Payment.status p) "PROCESSING" && (60000 <? elapsed) then
    let method := getRandomPaymentMethod r in
    Payment.withCompletion method (generateTransactionId r) doneAt
      (if Js.strIncludes "CARD" method
       then Some (Js.toString (cardPick r + 1000))
       else Payment.cardLast4 p)
      (Payment.withStatus "COMPLETED" p)
  else p.

Definition stepExpired (checkAt : Z) (p : Payment.t) : Payment.t :=
  if (Payment.expiresAt p <? checkAt) && String.eqb (Payment.status p) "INITIATED"
  then Payment.withStatus "EXPIRED" p else p.

(** The state of the stored payment object after one poll. [now] is the
    clock read that [elapsed] is computed from, [doneAt] the read that
    stamps [completedAt] and [checkAt] the read of the expiry test. *)
Definition advance (now doneAt checkAt : Z) (r : Draws) (p : Payment.t)
  : Payment.t :=
  let elapsed := now - Payment.initiatedAt p in
  stepExpired checkAt (stepCompleted elapsed doneAt r (stepProcessing elapsed p)).

Module StatusResponse.
Record t := {
  success : bool;
  paymentId : string;
  orderId : string;
  status : string;
  amount : Z;
  currency : string;
  initiatedAt : Z;
  fees : Z;
  paymentMethod : option string;
  transactionId : option string;
  completedAt : option Z;
  cardLast4 : option string;
  expiresAt : option Z
}.
End StatusResponse.

Definition notFound : Failure :=
  {| code := "NOT_FOUND"; message := "Payment not found" |}.

Definition getPaymentStatus (now doneAt checkAt : Z) (r : Draws)
  (paymentId : string) (st : state) : (Failure + StatusResponse.t) * state :=
  match payments st !! paymentId with
  | None => (inl notFound, st)
  | Some payment =>
      let payment := advance now doneAt checkAt r payment in
      let completed := String.eqb (Payment.status payment) "COMPLETED" in
      (inr {| StatusResponse.success := true;
              StatusResponse.paymentId := Payment.paymentId payment;
              StatusResponse.orderId := Payment.orderId payment;
              StatusResponse.status := Payment.status payment;
              StatusResponse.amount := Payment.amount payment;
              StatusResponse.currency := Payment.currency payment;
              StatusResponse.initiatedAt := Payment.initiatedAt payment;
              StatusResponse.fees := Payment.fees payment;
              StatusResponse.paymentMethod :=
                if completed then Payment.paymentMethod payment else None;
              StatusResponse.transactionId :=
                if completed then Payment.transactionId payment else None;
              StatusResponse.completedAt :=
                if completed then Payment.completedAt payment else None;
              StatusResponse.cardLast4 :=
                if completed then Payment.cardLast4 payment else None;
              StatusResponse.expiresAt :=
                if Js.includes ["INITIATED"; "PROCESSING"] (Payment.status payment)
                then Some (Payment.expiresAt payment) else None |},
       setPayment paymentId payment st)
  end.

(** *** Cancellation *)

Module CancelResponse.
Record t := {
  success : bool;
  paymentId : string;
  status : string;
  cancelledAt : option Z;
  refundAmount : Z
}.
End CancelResponse.

Definition defaultReason : string := "Customer requested cancellation".

Definition cancelPayment (now : Z) (paymentId : string)
  (reason : option string) (st : state)
  : (Failure + CancelResponse.t) * state :=
  match payments st !! paymentId with
  | None => (inl notFound, st)
  | Some payment =>
      if negb (Js.includes ["INITIATED"; "PROCESSING"] (Payment.status payment)) then
        (inl {| code := "INVALID_STATE";
                message := "Cannot cancel payment in "
                           +:+ Payment.status payment +:+ " status" |}, st)
      else
        let payment := Payment.withStatus "CANCELLED" payment in
        let payment :=
          Payment.withCancellation now (default defaultReason reason) payment in
        (inr {| CancelResponse.success := true;
                CancelResponse.paymentId := Payment.paymentId payment;
                CancelResponse.status := "CANCELLED";
                CancelResponse.cancelledAt := Payment.cancelledAt payment;
                CancelResponse.refundAmount :=
                  if String.eqb (Payment.status payment) "PROCESSING"
                  then Payment.amount payment else 0 |},
         setPayment paymentId payment st)
  end.

End PayDPIClient.

(** ** Refunds of the PayDPI client *)

Module Refund.
(** An entry of [this.refunds]; the [metadata] it carries is never read. *)
Record t := {
  refundId : string;
  paymentId : string;
  amount : Z;
  reason : string;
  status : string;
  initiatedAt : Z;
  estimatedCompletion : Z;
  completedAt : option Z
}.

(** [refund.status = s]. *)
Definition withStatus (s : string) (r : t) : t := {|
  refundId := refundId r;
  paymentId := paymentId r;
  amount := amount r;
  reason := reason r;
  status := s;
  initiatedAt := initiatedAt r;
  estimatedCompletion := estimatedCompletion r;
  completedAt := completedAt r
|}.

(** [refund.completedAt = at]. *)
Definition withCompletedAt (at_ : Z) (r : t) : t := {|
  refundId := refundId r;
  paymentId := paymentId r;
  amount := amount r;
  reason := reason r;
  status := status r;
  initiatedAt := initiatedAt r;
  estimatedCompletion := estimatedCompletion r;
  completedAt := Some at_
|}.
End Refund.

Module PayDPIRefunds.

(** The client with its refund table: [this.refunds] and
    [this.refundCounter] beside the payments. *)
Record state := {
  client : PayDPIClient.state;
  refunds : gmap string Refund.t;
  refundCounter : Z
}.

Definition init : state := {|
  client := PayDPIClient.init;
  refunds := ∅;
  refundCounter := 1000
|}.

Definition generateRefundId (h : Js.Host) (now : Z) (st : state) : string :=
  "REF_" +:+ Js.stripDashes (Js.isoDay h now) +:+ "_"
         +:+ Js.toString (refundCounter st + 1).

Module RefundData.
Record t := {
  paymentId : option string;
  amount : option Z;
  reason : option string
}.
End RefundData.

Module RefundResponse.
Record t := {
  success : bool;
  refundId : string;
  status : string;
  amount : Z;
  estimatedCompletion : Z
}.
End RefundResponse.

Definition failure (c m : string) : PayDPIClient.Failure :=
  {| PayDPIClient.code := c; PayDPIClient.message := m |}.

(** [idAt], [now] and [estAt] are the clock reads of the refund id, of
    [initiatedAt] and of [estimatedCompletion]. *)
Definition initiateRefund (h : Js.Host) (idAt now estAt : Z) (d : RefundData.t)
  (st : state) : (PayDPIClient.Failure + RefundResponse.t) * state :=
  if negb (Js.truthyStr (RefundData.paymentId d)) then
    (inl (PayDPIClient.missing "paymentId"), st)
  else if negb (Js.truthyNum (RefundData.amount d)) then
    (inl (PayDPIClient.missing "amount"), st)
  else if negb (Js.truthyStr (RefundData.reason d)) then
    (inl (PayDPIClient.missing "reason"), st)
  else
    let pid := default "" (RefundData.paymentId d) in
    let amt := default 0 (RefundData.amount d) in
    match PayDPIClient.payments (client st) !! pid with
    | None => (inl (failure "NOT_FOUND" "Original payment not found"), st)
    | Some originalPayment =>
        if negb (String.eqb (Payment.status originalPayment) "COMPLETED") then
          (inl (failure "INVALID_STATE" "Can only refund completed payments"), st)
        else if Payment.amount originalPayment <? amt then
          (inl (failure "INVALID_AMOUNT"
                  "Refund amount cannot exceed original payment amount"), st)
        else
          let refundId := generateRefundId h idAt st in
          let refund := {|
            Refund.refundId := refundId;
            Refund.paymentId := pid;
            Refund.amount := amt;
            Refund.reason := default "" (RefundData.reason d);
            Refund.status := "INITIATED";
            Refund.initiatedAt := now;
            Refund.estimatedCompletion := estAt + 24 * 60 * 60 * 1000;
            Refund.completedAt := None |} in
          (inr {| RefundResponse.success := true;
                  RefundResponse.refundId := refundId;
                  RefundResponse.status := "INITIATED";
                  RefundResponse.amount := amt;
                  RefundResponse.estimatedCompletion :=
                    Refund.estimatedCompletion refund |},
           {| client := client st;
              refunds := <[refundId := refund]> (refunds st);
              refundCounter := refundCounter st + 1 |})
    end.

(** The two guarded assignments of [getRefundStatus], in program order. *)
Definition stepProcessing (elapsed : Z) (r : Refund.t) : Refund.t :=
  if String.eqb (Refund.status r) "INITIATED" && (5000 <? elapsed)
  then Refund.withStatus "PROCESSING" r else r.

Definition stepCompleted (elapsed doneAt : Z) (r : Refund.t) : Refund.t :=
  if String.eqb (Refund.status r) "PROCESSING" && (30000 <? elapsed)
  then Refund.withCompletedAt doneAt (Refund.withStatus "COMPLETED" r) else r.

Definition advance (now doneAt : Z) (r : Refund.t) : Refund.t :=
  let elapsed := now - Refund.initiatedAt r in
  stepCompleted elapsed doneAt (stepProcessing elapsed r).

Module RefundStatus.
Record t := {
  success : bool;
  refundId : string;
  paymentId : string;
  status : string;
  amount : Z;
  initiatedAt : Z;
  completedAt : option Z
}.
End RefundStatus.

Definition getRefundStatus (now doneAt : Z) (refundId : string) (st : state)
  : (PayDPIClient.Failure + RefundStatus.t) * state :=
  match refunds st !! refundId with
  | None => (inl (failure "NOT_FOUND" "Refund not found"), st)
  | Some refund =>
      let refund := advance now doneAt refund in
      (inr {| RefundStatus.success := true;
              RefundStatus.refundId := Refund.refundId refund;
              RefundStatus.paymentId := Refund.paymentId refund;
              RefundStatus.status := Refund.status refund;
              RefundStatus.amount := Refund.amount refund;
              RefundStatus.initiatedAt := Refund.initiatedAt refund;
              RefundStatus.completedAt := Refund.completedAt refund |},
       {| client := client st;
          refunds := <[refundId := refund]> (refunds st);
          refundCounter := refundCounter st |})
  end.

End PayDPIRefunds.

(** ** The payment-request validator of the payment service *)

Module PaymentValidation.

(** The fields of [req.body] that [validatePaymentRequest] reads, with the
    types the route documents: an amount that is not a number has no place
    here. *)
Record Body := {
  orderId : option string;
  amount : option Z
}.

Definition paymentErrors (body : Body) : list string :=
  let errors := [] in
  let errors := Validation.pushIf (negb (Js.truthyStr (orderId body)))
                  "Order ID is required" errors in
  let errors := Validation.pushIf
                  (negb (Js.truthyNum (amount body))
                   || match amount body with Some a => a <=? 0 | None => false end)
                  "Valid amount is required" errors in
  let errors := Validation.pushIf
                  (Js.truthyNum (amount body) && Validation.gtNum (amount body) 10000)
                  "Amount exceeds maximum limit" errors in
  errors.

Definition validatePaymentRequest (body : Body) : Validation.outcome :=
  let errors := paymentErrors body in
  if (0 <? length errors)%nat then
    Validation.Respond
      {| Validation.httpStatus := 400;
         Validation.success := false;
         Validation.error := "validation_error";
         Validation.message := "Payment validation failed";
         Validation.details := errors |}
  else Validation.Next.

End PaymentValidation.

(** ** middleware/auth.js of the order service *)

Module Auth.

(** [req.user]. *)
Record User := {
  id : string;
  role : string;
  school : string
}.

(** [res.status(code).json({ success: false, error, message })]. *)
Record Refusal := {
  status : Z;
  error : string;
  message : string
}.

Definition mockUser : User :=
  {| id := "student123"; role := "STUDENT"; school := "Royal College" |}.

(** [authHeader && authHeader.split(' ')[1]]. *)
Definition token (authHeader : option string) : option string :=
  if Js.truthyStr authHeader
  then Js.splitOn " " (default "" authHeader) !! 1%nat
  else authHeader.

(** The middleware either refuses or sets [req.user] and calls [next()]. The
    token is not verified: the user is the mock student. *)
Definition authenticateToken (authHeader : option string) : Refusal + User :=
  if negb (Js.truthyStr (token authHeader)) then
    inl {| status := 401; error := "unauthorized";
           message := "Access token required" |}
  else inr mockUser.

(** [requireRole(allowedRoles)]: [None] stands for [next()]. *)
Definition requireRole (allowedRoles : list string) (user : option User)
  : option Refusal :=
  match user with
  | Some u =>
      if negb (Js.includes allowedRoles (role u)) then
        Some {| status := 403; error := "forbidden";
                message := "Insufficient permissions" |}
      else None
  | None =>
      Some {| status := 403; error := "forbidden";
              message := "Insufficient permissions" |}
  end.

End Auth.

(** ** routes/orders.js *)

Module Http.

(** What a route sends: a JSON payload with a status, or the error envelope
    [{ success: false, error, message, details }]. *)
Inductive response (A : Type) : Type :=
| Json (status : Z) (payload : A)
| Refused (status : Z) (error message : string) (details : list string).
Arguments Json {A} status payload.
Arguments Refused {A} status error message details.

End Http.

Module OrderRoutes.

(** The body of [POST /api/orders], with the types the route documents.
    For such a body the [console.log] lines of the handlers, which print the
    ids, cannot fail. *)
Record CreateBody := {
  mealId : option string;
  scheduledDate : option string;
  quantity : option Z;
  pickupTime : option string;
  specialInstructions : option string
}.

Definition validated (body : CreateBody) : Validation.OrderBody :=
  {| Validation.mealId := mealId body;
     Validation.scheduledDate := scheduledDate body;
     Validation.quantity := quantity body |}.

(** The body as [createOrder] reads it; the handler runs behind the
    validator, so that the meal id and the date are present. *)
Definition orderData (body : CreateBody) : OrderRequest.t :=
  {| OrderRequest.mealId := default "" (mealId body);
     OrderRequest.scheduledDate := default "" (scheduledDate body);
     OrderRequest.quantity := quantity body;
     OrderRequest.pickupTime := pickupTime body;
     OrderRequest.specialInstructions := specialInstructions body |}.

Definition unauthorized {A : Type} (r : Auth.Refusal) : Http.response A :=
  Http.Refused (Auth.status r) (Auth.error r) (Auth.message r) [].

Definition invalid {A : Type} (r : Validation.Response) : Http.response A :=
  Http.Refused (Validation.httpStatus r) (Validation.error r)
    (Validation.message r) (Validation.details r).

(** The [catch] of a route:
    [res.status(error.statusCode || 500).json({ error: error.code ||
    'server_error', message: error.message || fallback })]. *)
Definition failed {A : Type} (fallback : string) (e : Error.t) : Http.response A :=
  Http.Refused
    (if Error.statusCode e =? 0 then 500 else Error.statusCode e)
    (if String.eqb (Error.code e) "" then "server_error" else Error.code e)
    (if String.eqb (Error.message e) "" then fallback else Error.message e)
    [].

(** Run a handler of the service and send its result with [status]. *)
Definition send {A : Type} (status : Z) (fallback : string) (c : M A)
  (s : Services.t) : Http.response A * Services.t :=
  match c s with
  | (Ok a, s') => (Http.Json status a, s')
  | (Throw e, s') => (failed fallback e, s')
  end.

(** The routes whose [catch] answers 500 / server_error whatever was thrown;
    [res.json] sends status 200. *)
Definition sendOr500 {A : Type} (fallback : string) (c : M A)
  (s : Services.t) : Http.response A * Services.t :=
  match c s with
  | (Ok a, s') => (Http.Json 200 a, s')
  | (Throw _, s') => (Http.Refused 500 "server_error" fallback [], s')
  end.

Definition staffRoles : list string := ["SCHOOL_STAFF"; "ADMIN"].

(** [router.post('/', authenticateToken, validateOrderRequest, handler)]. *)
Definition postOrder (h : Js.Host) (now : Z) (authHeader : option string)
  (body : CreateBody) (s : Services.t) : Http.response Reply.t * Services.t :=
  match Auth.authenticateToken authHeader with
  | inl r => (unauthorized r, s)
  | inr user =>
      match Validation.validateOrderRequest h (validated body) with
      | Validation.Respond r => (invalid r, s)
      | Validation.Next =>
          send 201 "Failed to create order"
            (OrderService.createOrder h now (Auth.id user) (orderData body)) s
      end
  end.

(** [router.get('/:orderId', authenticateToken, handler)]. *)
Definition getOrder (authHeader : option string) (orderId : string)
  (s : Services.t) : Http.response Reply.t * Services.t :=
  match Auth.authenticateToken authHeader with
  | inl r => (unauthorized r, s)
  | inr user =>
      send 200 "Failed to fetch order"
        (OrderService.getOrderById orderId (Auth.id user)) s
  end.

(** [router.patch('/:orderId/cancel', authenticateToken, handler)]. *)
Definition patchCancel (now : Z) (authHeader : option string) (orderId : string)
  (reason : option string) (s : Services.t) : Http.response Reply.t * Services.t :=
  match Auth.authenticateToken authHeader with
  | inl r => (unauthorized r, s)
  | inr user =>
      send 200 "Failed to cancel order"
        (OrderService.cancelOrder now orderId (Auth.id user) reason) s
  end.

(** [router.get('/staff/pending', authenticateToken, requireRole([...]),
    handler)]. *)
Definition getPending (h : Js.Host) (authHeader : option string)
  (date : option string) (s : Services.t)
  : Http.response PendingReport.t * Services.t :=
  match Auth.authenticateToken authHeader with
  | inl r => (unauthorized r, s)
  | inr user =>
      match Auth.requireRole staffRoles (Some user) with
      | Some r => (unauthorized r, s)
      | None =>
          sendOr500 "Failed to fetch pending orders"
            (OrderService.getPendingOrdersForStaff h date) s
      end
  end.

(** [router.patch('/:orderId/status', authenticateToken, requireRole([...]),
    validateStatusUpdate, handler)]. *)
Definition patchStatus (now : Z) (authHeader : option string) (orderId : string)
  (status notes : option string) (s : Services.t)
  : Http.response Reply.t * Services.t :=
  match Auth.authenticateToken authHeader with
  | inl r => (unauthorized r, s)
  | inr user =>
      match Auth.requireRole staffRoles (Some user) with
      | Some r => (unauthorized r, s)
      | None =>
          match Validation.validateStatusUpdate status with
          | Validation.Respond r => (invalid r, s)
          | Validation.Next =>
              send 200 "Failed to update order status"
                (OrderService.updateOrderStatus now orderId (Auth.id user)
                   (default "" status) notes) s
          end
      end
  end.

End OrderRoutes.

(** * Vocabulary of the properties *)

(** ** Payments *)

Module PayDPISpec.

(** The order in which a payment's status may move: INITIATED, then
    PROCESSING, then COMPLETED, with EXPIRED reachable from INITIATED only. *)
Definition forward (s s' : string) : Prop :=
  s' = s
  \/ (s = "INITIATED" /\ (s' = "PROCESSING" \/ s' = "COMPLETED" \/ s' = "EXPIRED"))
  \/ (s = "PROCESSING" /\ s' = "COMPLETED").

(** The clock reads and random draws of one poll. *)
Record Poll := {
  readNow : Z;
  readDone : Z;
  readExpiry : Z;
  drawn : PayDPIClient.Draws
}.

(** The stored payment after a series of polls. *)
Definition pollAll (polls : list Poll) (p : Payment.t) : Payment.t :=
  fold_left
    (fun q k => PayDPIClient.advance (readNow k) (readDone k) (readExpiry k) (drawn k) q)
    polls p.

End PayDPISpec.

(** ** Request validation *)

Module ValidationSpec.
Import Validation.

(** The two quantity tests of the validator, taken together. *)
Definition quantityRejected (q : option Z) : bool :=
  (negb (Js.truthyNum q) || ltNum q 1) || (Js.truthyNum q && gtNum q 10).

End ValidationSpec.

(** ** Orders *)

Module OrderSpec.
Import OrderService.

(** The date test of [createOrder]. *)
Definition inPast (h : Js.Host) (now : Z) (date : string) : bool :=
  Js.dateLt (Js.dateParse h date) (Some (Js.startOfLocalDay h now)).

(** The store left by a successful [createOrder]. *)
Definition afterCreate (now : Z) (studentId : string) (req : OrderRequest.t)
  (meal : Meal.t) (student : Student.t) (s : Services.t) : Services.t :=
  {| Services.orderModel :=
       (Order.create now (orderData_processed studentId req meal student)
          (Services.orderModel s)).2;
     Services.meals :=
       MealService.updateAvailability (OrderRequest.mealId req)
         (default 1 (OrderRequest.quantity req)) (Services.meals s);
     Services.students := Services.students s |}.

Definition cancellable (o : Order.t) : Prop :=
  Order.status o = "PENDING" \/ Order.status o = "CONFIRMED".

(** The order model after a successful cancellation of [o]. *)
Definition cancelledModel (now : Z) (orderId : string) (reason : option string)
  (o : Order.t) (st : Order.state) : Order.state :=
  let st1 := (Order.cancel now orderId reason st).2 in
  if String.eqb (Order.paymentStatus o) "PAID" && (0 <? Order.finalAmount o)
  then (Order.updatePaymentStatus now orderId "REFUNDED" st1).2
  else st1.

Definition afterCancel (now : Z) (orderId : string) (reason : option string)
  (o : Order.t) (s : Services.t) : Services.t :=
  {| Services.orderModel :=
       cancelledModel now orderId reason o (Services.orderModel s);
     Services.meals :=
       MealService.restoreAvailability (Order.mealId o) (Order.quantity o)
         (Services.meals s);
     Services.students := Services.students s |}.

(** The entry that a staff update appends to [statusHistory]. *)
Definition statusEntry (now : Z) (staffId status : string) (notes : option string)
  : StatusEntry.t :=
  {| StatusEntry.status := status;
     StatusEntry.timestamp := now;
     StatusEntry.staffId := staffId;
     StatusEntry.notes := notes |}.

Definition active (o : Order.t) : Prop := Order.status o <> "CANCELLED".

Definition sameSlot (o1 o2 : Order.t) : Prop :=
  Order.studentId o1 = Order.studentId o2
  /\ Order.scheduledDate o1 = Order.scheduledDate o2.

(** At most one non-cancelled order per (studentId, scheduledDate). *)
Definition uniqueActive (l : list Order.t) : Prop :=
  forall i j oi oj,
    l !! i = Some oi -> l !! j = Some oj ->
    sameSlot oi oj -> active oi -> active oj -> i = j.

Definition succeeded {A : Type} (r : result A * Services.t) : bool :=
  match r with (Ok _, _) => true | (Throw _, _) => false end.

(** What an order's status history says about its status: without a history
    the order is as created or cancelled; with one, the history is not empty
    and the status is that of its last entry, unless the order has been
    cancelled since. *)
Definition historyAgrees (o : Order.t) : Prop :=
  match Order.statusHistory o with
  | None => Order.status o = "PENDING" \/ Order.status o = "CANCELLED"
  | Some hist =>
      exists e, last hist = Some e
                /\ (Order.status o = StatusEntry.status e
                    \/ Order.status o = "CANCELLED")
  end.

(** The payment status that [Order.create] derives from the final amount. *)
Definition paymentAgrees (o : Order.t) : Prop :=
  (Order.finalAmount o = 0 /\ Order.paymentStatus o = "PAID")
  \/ (0 < Order.finalAmount o /\ Order.paymentStatus o = "PENDING").

(** A meal with its stock counter blanked: what the service never changes. *)
Definition static (m : Meal.t) : Meal.t := Meal.withQuantity 0 m.

(** *** Runs of the service *)

(** The calls that write to the store. *)
Inductive call : Type :=
| CreateOrder (h : Js.Host) (now : Z) (studentId : string) (orderData : OrderRequest.t)
| CancelOrder (now : Z) (orderId studentId : string) (reason : option string)
| UpdateOrderStatus (now : Z) (orderId staffId status : string) (notes : option string).

Definition perform (c : call) : M Reply.t :=
  match c with
  | CreateOrder h now studentId orderData => createOrder h now studentId orderData
  | CancelOrder now orderId studentId reason => cancelOrder now orderId studentId reason
  | UpdateOrderStatus now orderId staffId status notes =>
      updateOrderStatus now orderId staffId status notes
  end.

(** The clock reading [Date.now()] of a call. *)
Definition clockOf (c : call) : Z :=
  match c with
  | CreateOrder _ now _ _ => now
  | CancelOrder now _ _ _ => now
  | UpdateOrderStatus now _ _ _ _ => now
  end.

(** The stores the service can be in: those obtained from the constructors'
    state by calls whose clock is at least one second past the epoch (so that
    [Date.now()] has the four digits that [Order.create] slices off). *)
Inductive reachable : Services.t -> Prop :=
| reachable_init : reachable Services.init
| reachable_step (c : call) (s : Services.t) :
    reachable s -> 1000 <= clockOf c -> reachable (perform c s).2.

(** Every stored id was built by [Order.newId] from an earlier value of the
    counter. *)
Definition wellNumbered (st : Order.state) : Prop :=
  forall o, In o (Order.orders st) ->
            exists c t, Order.id o = Order.newId c t
                        /\ c < Order.counter st /\ 1000 <= t.

End OrderSpec.

(** ** Queries *)

Module QuerySpec.

(** [a] may stand before [b] in a listing that shows the newest order first. *)
Definition notOlder (a b : Order.t) : Prop := Order.orderDate b <= Order.orderDate a.

(** [a] may stand before [b] in the staff listing: earlier scheduled date, or
    the same date and not ordered later. *)
Definition dueBefore (h : Js.Host) (a b : Order.t) : Prop :=
  exists x y,
    Js.dateParse h (Order.scheduledDate a) = Some x
    /\ Js.dateParse h (Order.scheduledDate b) = Some y
    /\ (x < y \/ (x = y /\ Order.orderDate a <= Order.orderDate b)).

(** The number of orders of a list scheduled for a date. *)
Definition scheduledOn (date : string) (l : list Order.t) : nat :=
  length (List.filter (Order.onDate date) l).

(** What the per-date table of the staff report holds under a key that [n]
    listed orders are scheduled for. *)
Definition tallied (n : nat) (key : string) : option PendingReport.entry :=
  if String.eqb key "__proto__" then None
  else if (n =? 0)%nat then None
  else if Js.inherited key then Some PendingReport.Text
  else Some (PendingReport.Count (Z.of_nat n)).

(** The orders listed by a call of [getOrdersByStudent]. *)
Definition listed (r : result OrdersPage.t * Services.t) : list Order.t :=
  match r.1 with
  | Ok page => OrdersPage.orders page
  | Throw _ => []
  end.

End QuerySpec.

(** ** Sample host, requests and stores used to exercise the theorems *)

(** ** The life of a payment *)

Module ClientSpec.
Import PayDPIClient.

(** The request has every required field and an amount above 0. *)
Definition acceptable (d : PaymentData.t) : bool :=
  Js.truthyStr (PaymentData.orderId d)
  && Js.truthyStr (PaymentData.currency d)
  && Js.truthyStr (PaymentData.description d)
  && (0 <? default 0 (PaymentData.amount d)).

(** The expiry that [initiatePayment] computes lies within the 8.64e15
    milliseconds either side of the epoch that a [Date] can hold. *)
Definition expiryInRange (now : Z) (d : PaymentData.t) : Prop :=
  let expiryMinutes :=
    if Js.truthyNum (PaymentData.expiryMinutes d)
    then default 60 (PaymentData.expiryMinutes d) else 60 in
  Z.abs (now + expiryMinutes * 60 * 1000) <= 8640000000000000.

(** The calls that write [this.payments], with the clock reads and random
    draws of each. *)
Inductive call : Type :=
| Initiate (h : Js.Host) (now : Z) (d : PaymentData.t)
| GetStatus (now doneAt checkAt : Z) (r : Draws) (paymentId : string)
| Cancel (now : Z) (paymentId : string) (reason : option string).

Definition perform (c : call) (st : state) : state :=
  match c with
  | Initiate h now d => (initiatePayment h now d st).2
  | GetStatus now doneAt checkAt r paymentId =>
      (getPaymentStatus now doneAt checkAt r paymentId st).2
  | Cancel now paymentId reason => (cancelPayment now paymentId reason st).2
  end.

Definition performAll (calls : list call) (st : state) : state :=
  fold_left (fun s c => perform c s) calls st.

(** The clients that a run of calls can lead to from the constructor's. *)
Inductive reachable : state -> Prop :=
| reach_init : reachable init
| reach_step c st : reachable st -> reachable (perform c st).

(** The payment can still move: it is INITIATED or PROCESSING. *)
Definition pending (p : Payment.t) : bool :=
  Js.includes ["INITIATED"; "PROCESSING"] (Payment.status p).

(** The fields of a payment that are written once. *)
Definition sameTerms (p q : Payment.t) : Prop :=
  Payment.paymentId q = Payment.paymentId p
  /\ Payment.orderId q = Payment.orderId p
  /\ Payment.amount q = Payment.amount p
  /\ Payment.currency q = Payment.currency p
  /\ Payment.fees q = Payment.fees p
  /\ Payment.initiatedAt q = Payment.initiatedAt p
  /\ Payment.expiresAt q = Payment.expiresAt p.

(** [c] does not occur in [s]. *)
Fixpoint lacks (c : ascii) (s : string) : bool :=
  match s with
  | EmptyString => true
  | String a r => negb (Ascii.eqb a c) && lacks c r
  end.

(** Every stored payment sits under an id that ends in a counter value
    already used. *)
Definition numbered (st : state) : Prop :=
  forall k p,
    payments st !! k = Some p ->
    exists d n, k = "PAY_" +:+ d +:+ "_" +:+ Js.toString n /\ n <= paymentCounter st.

End ClientSpec.

(** ** Refunds *)

Module RefundSpec.
Import PayDPIRefunds.

(** The request passes every check of [initiateRefund]. *)
Definition refundable (d : RefundData.t) (st : state) : bool :=
  Js.truthyStr (RefundData.paymentId d)
  && Js.truthyNum (RefundData.amount d)
  && Js.truthyStr (RefundData.reason d)
  && match PayDPIClient.payments (client st) !! default "" (RefundData.paymentId d) with
     | Some p =>
         String.eqb (Payment.status p) "COMPLETED"
         && (default 0 (RefundData.amount d) <=? Payment.amount p)
     | None => false
     end.

(** The calls on the client, those on payments included. *)
Inductive call : Type :=
| OnPayments (c : ClientSpec.call)
| InitiateRefund (h : Js.Host) (idAt now estAt : Z) (d : RefundData.t)
| GetRefundStatus (now doneAt : Z) (refundId : string).

Definition perform (c : call) (st : state) : state :=
  match c with
  | OnPayments c =>
      {| client := ClientSpec.perform c (client st);
         refunds := refunds st;
         refundCounter := refundCounter st |}
  | InitiateRefund h idAt now estAt d => (initiateRefund h idAt now estAt d st).2
  | GetRefundStatus now doneAt refundId => (getRefundStatus now doneAt refundId st).2
  end.

Inductive reachable : state -> Prop :=
| reach_init : reachable init
| reach_step c st : reachable st -> reachable (perform c st).

(** The refund names a stored payment that is COMPLETED and worth at least
    the refund. *)
Definition backed (st : state) (r : Refund.t) : Prop :=
  exists p,
    PayDPIClient.payments (client st) !! Refund.paymentId r = Some p
    /\ Payment.status p = "COMPLETED"
    /\ Refund.amount r <= Payment.amount p.

(** The refund is in one of its three statuses, and stamped with a
    completion time exactly when it is COMPLETED. *)
Definition coherent (r : Refund.t) : Prop :=
  (Refund.status r = "INITIATED" /\ Refund.completedAt r = None)
  \/ (Refund.status r = "PROCESSING" /\ Refund.completedAt r = None)
  \/ (Refund.status r = "COMPLETED" /\ Refund.completedAt r <> None).

End RefundSpec.

(** ** The life of an order *)

Module LifecycleSpec.

(** The order that [findById] returns once [cancelOrder] is done with it. *)
Definition settled (now : Z) (reason : option string) (o : Order.t) : Order.t :=
  let c := Order.cancelled now reason o in
  if String.eqb (Order.paymentStatus o) "PAID" && (0 <? Order.finalAmount o)
  then Order.withPayment now (Order.paymentId c) "REFUNDED" c
  else c.

(** A call on which the arithmetic of [Z] is that of the code: an order
    for an id that the lookup in the student table does not find among the
    inherited properties, with an integer quantity of at most 2^46 in
    magnitude. With the constructor's prices, 80 at most, every amount is
    then an integer below 2^53. *)
Definition exactCall (c : OrderSpec.call) : Prop :=
  match c with
  | OrderSpec.CreateOrder _ _ studentId orderData =>
      Js.inherited studentId = false
      /\ Z.abs (default 1 (OrderRequest.quantity orderData)) <= 2 ^ 46
  | _ => True
  end.

(** The stores reached from the constructors' state by such calls. *)
Inductive reachableExactly : Services.t -> Prop :=
| exact_init : reachableExactly Services.init
| exact_step (c : OrderSpec.call) (s : Services.t) :
    reachableExactly s -> 1000 <= OrderSpec.clockOf c -> exactCall c ->
    reachableExactly (OrderSpec.perform c s).2.

End LifecycleSpec.

Module ValidatorSpec.

(** The number of messages one test of a validator contributes. *)
Definition count (b : bool) : nat := if b then 1 else 0.

End ValidatorSpec.

(** ** Routes *)

Module RouteSpec.

(** The part of [s] after its first [sep], if [sep] occurs. *)
Fixpoint afterFirst (sep : ascii) (s : string) : option string :=
  match s with
  | EmptyString => None
  | String c r => if Ascii.eqb c sep then Some r else afterFirst sep r
  end.

(** The header holds a space, and the character after its first space is not
    another space. *)
Definition carriesToken (authHeader : option string) : bool :=
  match authHeader with
  | Some s =>
      match afterFirst " " s with
      | Some (String c _) => negb (Ascii.eqb c " ")
      | _ => false
      end
  | None => false
  end.

Definition status {A : Type} (r : Http.response A) : Z :=
  match r with
  | Http.Json st _ => st
  | Http.Refused st _ _ _ => st
  end.

Definition noToken {A : Type} : Http.response A :=
  Http.Refused 401 "unauthorized" "Access token required" [].

Definition forbidden {A : Type} : Http.response A :=
  Http.Refused 403 "forbidden" "Insufficient permissions" [].

End RouteSpec.

(** ** The calendar *)

Module Calendar.

(** Year, month and day of the Gregorian calendar for a number of days since
    1 January 1970. *)
Definition civil (days : Z) : Z * Z * Z :=
  let z := days + 719468 in
  let era := z / 146097 in
  let doe := z - era * 146097 in
  let yoe := (doe - doe / 1460 + doe / 36524 - doe / 146096) / 365 in
  let doy := doe - (365 * yoe + yoe / 4 - yoe / 100) in
  let mp := (5 * doy + 2) / 153 in
  let d := doy - (153 * mp + 2) / 5 + 1 in
  let m := if mp <? 10 then mp + 3 else mp - 9 in
  let y := yoe + era * 400 + (if m <=? 2 then 1 else 0) in
  (y, m, d).

Definition twoDigits (n : Z) : string :=
  if n <? 10 then "0" +:+ Js.toString n else Js.toString n.

(** The date, as yyyy-mm-dd, that a clock set [offset] milliseconds east of
    UTC shows at the instant [t] (for the years 1000 to 9999). *)
Definition wallDate (offset t : Z) : string :=
  let '(y, m, d) := civil ((t + offset) / Js.msPerDay) in
  Js.toString y +:+ "-" +:+ twoDigits m +:+ "-" +:+ twoDigits d.

End Calendar.

(** ** Sample data *)

Module Sample.

(** A host in Sri Lanka (UTC+5:30) whose parser knows two ISO dates. *)
Definition host : Js.Host := {|
  Js.dateParse := fun s =>
    if String.eqb s "2030-01-01" then Some 1893456000000
    else if String.eqb s "2020-01-01" then Some 1577836800000
    else None;
  Js.midnight := Js.fixedZone 19800000;
  Js.isoDay := fun _ => "2025-11-03"
|}.

(** 2025-11-03T00:00:00.123Z. *)
Definition now : Z := 1762128000123.

Definition request (q : Z) : OrderRequest.t := {|
  OrderRequest.mealId := "meal_001";
  OrderRequest.scheduledDate := "2030-01-01";
  OrderRequest.quantity := Some q;
  OrderRequest.pickupTime := None;
  OrderRequest.specialInstructions := None
|}.

Definition body (q : option Z) : Validation.OrderBody := {|
  Validation.mealId := Some "meal_001";
  Validation.scheduledDate := Some "2030-01-01";
  Validation.quantity := q
|}.

Definition paymentData : PayDPIClient.PaymentData.t := {|
  PayDPIClient.PaymentData.orderId := Some "ORD10000123";
  PayDPIClient.PaymentData.amount := Some 60;
  PayDPIClient.PaymentData.currency := Some "LKR";
  PayDPIClient.PaymentData.description := Some "School meal";
  PayDPIClient.PaymentData.paymentMethods := None;
  PayDPIClient.PaymentData.expiryMinutes := None
|}.

(** The client after one [initiatePayment]. *)
Definition client : PayDPIClient.state :=
  (PayDPIClient.initiatePayment host now paymentData PayDPIClient.init).2.

Definition paymentId : string := "PAY_20251103_5001".

Definition draws : PayDPIClient.Draws := {|
  PayDPIClient.methodPick := 1;
  PayDPIClient.txnSuffix := "K3J9X0QPA";
  PayDPIClient.cardPick := 4321
|}.

Definition pastRequest : OrderRequest.t := {|
  OrderRequest.mealId := "meal_001";
  OrderRequest.scheduledDate := "2020-01-01";
  OrderRequest.quantity := Some 1;
  OrderRequest.pickupTime := None;
  OrderRequest.specialInstructions := None
|}.

(** The store after student123 has ordered three meals for 2030-01-01. *)
Definition placed : Services.t :=
  (OrderService.createOrder host now "student123" (request 3) Services.init).2.

Definition placedId : string := "ORD10000123".

(** The same store after the staff has marked that order DELIVERED. *)
Definition delivered : Services.t :=
  (OrderService.updateOrderStatus (now + 1000) placedId "staff1" "DELIVERED" None
     placed).2.

(** The run that breaks the one-active-order invariant: student123 orders for
    2030-01-01, cancels, orders again for the same date, and the staff then
    sets the cancelled order to CONFIRMED. *)
Definition withdrawn : Services.t :=
  (OrderService.cancelOrder (now + 1000) placedId "student123" None placed).2.

Definition reordered : Services.t :=
  (OrderService.createOrder host (now + 2000) "student123" (request 2) withdrawn).2.

Definition reactivated : Services.t :=
  (OrderService.updateOrderStatus (now + 3000) placedId "staff1" "CONFIRMED" None
     reordered).2.

(** Conversions that know the numeral 3; the digits of long integers are
    not consulted by the samples. *)
Definition coercions : Js.Coercions := {|
  Js.stringToNumber := fun s => if String.eqb s "3" then Js.Fin 3 else Js.NaN;
  Js.longToString := Js.toString
|}.

(** The constructor's meal table, on values. *)
Definition stock : gmap string MealStock.t := MealStock.ofMeal <$> MealService.init.

(** A host in New York in November (UTC-5). A date without a time is read
    as midnight UTC: 2025-11-03 is 2025-11-03T00:00:00Z. *)
Definition newYork : Js.Host := {|
  Js.dateParse := fun s =>
    if String.eqb s "2025-11-03" then Some 1762128000000 else None;
  Js.midnight := Js.fixedZone (-18000000);
  Js.isoDay := fun _ => "2025-11-03"
|}.

(** 2025-11-03T18:00:00Z: one in the afternoon of 3 November in New York. *)
Definition afternoon : Z := 1762192800000.

(** An order for the day the clock of [newYork] shows at [afternoon]. *)
Definition todayRequest : OrderRequest.t := {|
  OrderRequest.mealId := "meal_001";
  OrderRequest.scheduledDate := "2025-11-03";
  OrderRequest.quantity := Some 1;
  OrderRequest.pickupTime := None;
  OrderRequest.specialInstructions := None
|}.

(** A request that fails two checks: its date is past and its meal unknown. *)
Definition lostRequest : OrderRequest.t := {|
  OrderRequest.mealId := "meal_999";
  OrderRequest.scheduledDate := "2020-01-01";
  OrderRequest.quantity := Some 1;
  OrderRequest.pickupTime := None;
  OrderRequest.specialInstructions := None
|}.

(** The client once a poll, 70 s after the initiation, has found the payment
    COMPLETED. *)
Definition paid : PayDPIClient.state :=
  (PayDPIClient.getPaymentStatus (now + 70000) (now + 70001) (now + 70002) draws
     paymentId client).2.

(** A refund of the whole payment. *)
Definition refundData : PayDPIRefunds.RefundData.t := {|
  PayDPIRefunds.RefundData.paymentId := Some paymentId;
  PayDPIRefunds.RefundData.amount := Some 60;
  PayDPIRefunds.RefundData.reason := Some "Meal not served"
|}.

Definition refunding : PayDPIRefunds.state := {|
  PayDPIRefunds.client := paid;
  PayDPIRefunds.refunds := ∅;
  PayDPIRefunds.refundCounter := 1000
|}.

End Sample.

(** * Properties *)

(** ** Order.create *)

Section OrderCreate.

Variables (now : Z) (d : OrderData.t) (st : Order.state).

Lemma create_pushes :
  Order.orders (Order.create now d st).2
  = (Order.orders st ++ [(Order.create now d st).1])%list.
Proof. reflexivity. Qed.

Lemma create_copies_amounts :
  let o := (Order.create now d st).1 in
  Order.totalAmount o = OrderData.totalAmount d
  /\ Order.subsidyAmount o = OrderData.subsidyAmount d
  /\ Order.finalAmount o = OrderData.finalAmount d
  /\ Order.quantity o = OrderData.quantity d.
Proof. repeat split. Qed.

End OrderCreate.

(** C9. Every order built by [Order.create] starts in status PENDING with no
    payment id, is the element pushed on the store, and is marked PAID exactly
    when its final amount is not greater than 0, PENDING otherwise. *)
Theorem create_initial_status (now : Z) (d : OrderData.t) (st : Order.state) :
  let o := (Order.create now d st).1 in
  last (Order.orders (Order.create now d st).2) = Some o
  /\ Order.status o = "PENDING"
  /\ Order.paymentId o = None
  /\ ((OrderData.finalAmount d <= 0 /\ Order.paymentStatus o = "PAID")
      \/ (0 < OrderData.finalAmount d /\ Order.paymentStatus o = "PENDING")).
Proof.
  cbn zeta. split; [| split; [reflexivity | split; [reflexivity |]]].
  - rewrite create_pushes. apply last_snoc.
  - cbn [Order.create fst Order.paymentStatus].
    destruct (Z.ltb_spec 0 (OrderData.finalAmount d)); [right | left];
      split; (lia || reflexivity).
Qed.

(** ** The mock PayDPI client *)

Module PayDPIFacts.
Import PayDPIClient PayDPISpec.

Lemma forward_refl s : forward s s.
Proof. left; reflexivity. Qed.

Lemma forward_trans s1 s2 s3 : forward s1 s2 -> forward s2 s3 -> forward s1 s3.
Proof.
  unfold forward. intros H12 H23.
  destruct H12 as [-> | [[-> H] | [-> ->]]]; [exact H23 | |].
  - destruct H as [-> | [-> | ->]];
      destruct H23 as [-> | [[E _] | [E H3]]];
      try discriminate E; subst; auto 6.
  - destruct H23 as [-> | [[E _] | [E _]]]; try discriminate E; auto.
Qed.

Section Steps.
Variables (elapsed doneAt checkAt : Z) (r : Draws) (p : Payment.t).

Lemma stepProcessing_status :
  Payment.status (stepProcessing elapsed p)
  = if String.eqb (Payment.status p) "INITIATED" && (30000 <? elapsed)
    then "PROCESSING" else Payment.status p.
Proof. unfold stepProcessing. destruct (_ && _); reflexivity. Qed.

Lemma stepCompleted_status :
  Payment.status (stepCompleted elapsed doneAt r p)
  = if String.eqb (Payment.status p) "PROCESSING" && (60000 <? elapsed)
    then "COMPLETED" else Payment.status p.
Proof. unfold stepCompleted. destruct (_ && _); reflexivity. Qed.

Lemma stepExpired_status :
  Payment.status (stepExpired checkAt p)
  = if (Payment.expiresAt p <? checkAt) && String.eqb (Payment.status p) "INITIATED"
    then "EXPIRED" else Payment.status p.
Proof. unfold stepExpired. destruct (_ && _); reflexivity. Qed.

Lemma stepProcessing_times :
  Payment.initiatedAt (stepProcessing elapsed p) = Payment.initiatedAt p
  /\ Payment.expiresAt (stepProcessing elapsed p) = Payment.expiresAt p.
Proof. unfold stepProcessing. destruct (_ && _); split; reflexivity. Qed.

Lemma stepCompleted_times :
  Payment.initiatedAt (stepCompleted elapsed doneAt r p) = Payment.initiatedAt p
  /\ Payment.expiresAt (stepCompleted elapsed doneAt r p) = Payment.expiresAt p.
Proof. unfold stepCompleted. destruct (_ && _); split; reflexivity. Qed.

Lemma stepExpired_times :
  Payment.initiatedAt (stepExpired checkAt p) = Payment.initiatedAt p
  /\ Payment.expiresAt (stepExpired checkAt p) = Payment.expiresAt p.
Proof. unfold stepExpired. destruct (_ && _); split; reflexivity. Qed.
End Steps.

(** The status after a poll, as a function of the status before it and of
    the two time comparisons alone. *)
Lemma advance_status now doneAt checkAt r p :
  let elapsed := now - Payment.initiatedAt p in
  Payment.status (advance now doneAt checkAt r p)
  = if String.eqb (Payment.status p) "INITIATED" then
      if 60000 <? elapsed then "COMPLETED"
      else if 30000 <? elapsed then "PROCESSING"
      else if Payment.expiresAt p <? checkAt then "EXPIRED"
      else "INITIATED"
    else if String.eqb (Payment.status p) "PROCESSING" then
      if 60000 <? elapsed then "COMPLETED" else "PROCESSING"
    else Payment.status p.
Proof.
  intros elapsed. unfold advance. fold elapsed.
  rewrite stepExpired_status, stepCompleted_status, stepProcessing_status.
  destruct (stepCompleted_times elapsed doneAt r (stepProcessing elapsed p)) as [_ ->].
  destruct (stepProcessing_times elapsed p) as [_ ->].
  destruct (String.eqb (Payment.status p) "INITIATED") eqn:Ei.
  - apply String.eqb_eq in Ei. rewrite Ei.
    destruct (Z.ltb_spec 60000 elapsed), (Z.ltb_spec 30000 elapsed);
      try lia; cbn; destruct (_ <? checkAt); reflexivity.
  - destruct (String.eqb (Payment.status p) "PROCESSING") eqn:Ep.
    + apply String.eqb_eq in Ep. rewrite Ep.
      cbn. destruct (60000 <? elapsed); cbn; rewrite ?andb_false_r; reflexivity.
    + cbn. rewrite Ep. cbn. rewrite Ei, andb_false_r. reflexivity.
Qed.

Lemma advance_times now doneAt checkAt r p :
  Payment.initiatedAt (advance now doneAt checkAt r p) = Payment.initiatedAt p
  /\ Payment.expiresAt (advance now doneAt checkAt r p) = Payment.expiresAt p.
Proof.
  unfold advance.
  destruct (stepExpired_times checkAt
              (stepCompleted (now - Payment.initiatedAt p) doneAt r
                 (stepProcessing (now - Payment.initiatedAt p) p))) as [-> ->].
  destruct (stepCompleted_times (now - Payment.initiatedAt p) doneAt r
              (stepProcessing (now - Payment.initiatedAt p) p)) as [-> ->].
  apply stepProcessing_times.
Qed.

Lemma advance_forward now doneAt checkAt r p :
  forward (Payment.status p) (Payment.status (advance now doneAt checkAt r p)).
Proof.
  rewrite advance_status. unfold forward.
  destruct (String.eqb_spec (Payment.status p) "INITIATED") as [-> | Hi].
  - repeat destruct (_ <? _); auto 6.
  - destruct (String.eqb_spec (Payment.status p) "PROCESSING") as [-> | Hp];
      [destruct (_ <? _) |]; auto 6.
Qed.

(** However many polls follow one another, and whatever their clocks read,
    the status is never behind the one it started from. *)
Lemma pollAll_forward polls p :
  forward (Payment.status p) (Payment.status (pollAll polls p)).
Proof.
  revert p. induction polls as [| k polls IH]; intros p; [apply forward_refl |].
  cbn [pollAll fold_left]. eapply forward_trans; [apply advance_forward |].
  apply IH.
Qed.

(** C5. One poll of a stored payment answers with, and stores, the status
    obtained from the previous status and the clock alone: with
    [elapsed = now - initiatedAt], INITIATED becomes PROCESSING once elapsed
    exceeds 30 s, PROCESSING becomes COMPLETED once elapsed exceeds 60 s
    (both in the same poll if need be), a payment still INITIATED after
    that becomes EXPIRED when the clock has passed [expiresAt], any other
    status is kept, and the status never moves backward. *)
Theorem getPaymentStatus_progression
    (now doneAt checkAt : Z) (r : Draws) (pid : string) (st : state)
    (p : Payment.t) :
  payments st !! pid = Some p ->
  let elapsed := now - Payment.initiatedAt p in
  let p' := advance now doneAt checkAt r p in
  (exists resp,
      getPaymentStatus now doneAt checkAt r pid st
      = (inr resp, setPayment pid p' st)
      /\ StatusResponse.status resp = Payment.status p')
  /\ payments (setPayment pid p' st) !! pid = Some p'
  /\ Payment.initiatedAt p' = Payment.initiatedAt p
  /\ Payment.expiresAt p' = Payment.expiresAt p
  /\ (Payment.status p = "INITIATED" ->
      Payment.status p'
      = if 60000 <? elapsed then "COMPLETED"
        else if 30000 <? elapsed then "PROCESSING"
        else if Payment.expiresAt p <? checkAt then "EXPIRED"
        else "INITIATED")
  /\ (Payment.status p = "PROCESSING" ->
      Payment.status p' = if 60000 <? elapsed then "COMPLETED" else "PROCESSING")
  /\ (Payment.status p <> "INITIATED" -> Payment.status p <> "PROCESSING" ->
      Payment.status p' = Payment.status p)
  /\ forward (Payment.status p) (Payment.status p').
Proof.
  intros Hp elapsed p'.
  split; [| split; [| split; [| split; [| split; [| split; [| split]]]]]].
  - unfold getPaymentStatus. rewrite Hp. fold p'. eexists. split; reflexivity.
  - apply lookup_insert_eq.
  - apply advance_times.
  - apply advance_times.
  - intros E. unfold p'. rewrite advance_status, E. reflexivity.
  - intros E. unfold p'. rewrite advance_status, E. reflexivity.
  - intros Hi Hq. unfold p'. rewrite advance_status.
    rewrite (proj2 (String.eqb_neq _ _) Hi), (proj2 (String.eqb_neq _ _) Hq).
    reflexivity.
  - apply advance_forward.
Qed.

(** The payment stored by [Sample.client], polled 45 s after initiation, is
    answered and stored as PROCESSING. *)
Lemma getPaymentStatus_progression_witness :
  exists p,
    payments Sample.client !! Sample.paymentId = Some p
    /\ Payment.status p = "INITIATED"
    /\ exists resp,
         getPaymentStatus (Sample.now + 45000) (Sample.now + 45001)
           (Sample.now + 45002) Sample.draws Sample.paymentId Sample.client
         = (inr resp,
            setPayment Sample.paymentId
              (advance (Sample.now + 45000) (Sample.now + 45001)
                 (Sample.now + 45002) Sample.draws p) Sample.client)
         /\ StatusResponse.status resp = "PROCESSING".
Proof.
  assert (H : exists p, payments Sample.client !! Sample.paymentId = Some p
                        /\ Payment.status p = "INITIATED")
    by (eexists; split; vm_compute; reflexivity).
  destruct H as [p [Hp Hs]]. exists p. split; [exact Hp | split; [exact Hs |]].
  destruct (getPaymentStatus_progression (Sample.now + 45000) (Sample.now + 45001)
              (Sample.now + 45002) Sample.draws Sample.paymentId Sample.client p Hp)
    as [[resp [Hr Hst]] [_ [Hi [_ [Hstep _]]]]].
  exists resp. split; [exact Hr |].
  rewrite Hst, (Hstep Hs).
  assert (Hinit : Payment.initiatedAt p = Sample.now).
  { assert (Some (Payment.initiatedAt p) = Some Sample.now) as [=->]; [| reflexivity].
    change (Some (Payment.initiatedAt p)) with (Payment.initiatedAt <$> Some p).
    rewrite <- Hp. vm_compute. reflexivity. }
  rewrite Hinit. replace (Sample.now + 45000 - Sample.now) with 45000 by lia.
  reflexivity.
Defined.

(** C10. Cancelling a stored payment that is INITIATED or PROCESSING
    succeeds, stores it as CANCELLED, and always reports a refund amount of
    0: the status is already CANCELLED when the response compares it with
    PROCESSING. *)
Theorem cancelPayment_refund_zero
    (now : Z) (pid : string) (reason : option string) (st : state)
    (p : Payment.t) :
  payments st !! pid = Some p ->
  Payment.status p = "INITIATED" \/ Payment.status p = "PROCESSING" ->
  exists resp p',
    cancelPayment now pid reason st = (inr resp, setPayment pid p' st)
    /\ CancelResponse.refundAmount resp = 0
    /\ CancelResponse.status resp = "CANCELLED"
    /\ Payment.status p' = "CANCELLED"
    /\ Payment.amount p' = Payment.amount p.
Proof.
  intros Hp Hs. unfold cancelPayment. rewrite Hp.
  assert (Hin : Js.includes ["INITIATED"; "PROCESSING"] (Payment.status p) = true)
    by (destruct Hs as [-> | ->]; reflexivity).
  rewrite Hin. cbn [negb].
  eexists _, _. split; [reflexivity |]. repeat split.
Qed.

(** The freshly initiated payment of [Sample.client] is cancelled with a
    refund amount of 0. *)
Lemma cancelPayment_refund_zero_witness :
  exists p,
    payments Sample.client !! Sample.paymentId = Some p
    /\ Payment.status p = "INITIATED"
    /\ exists resp p',
         cancelPayment (Sample.now + 5000) Sample.paymentId None Sample.client
         = (inr resp, setPayment Sample.paymentId p' Sample.client)
         /\ CancelResponse.refundAmount resp = 0.
Proof.
  assert (H : exists p, payments Sample.client !! Sample.paymentId = Some p
                        /\ Payment.status p = "INITIATED")
    by (eexists; split; vm_compute; reflexivity).
  destruct H as [p [Hp Hs]]. exists p. split; [exact Hp | split; [exact Hs |]].
  destruct (cancelPayment_refund_zero (Sample.now + 5000) Sample.paymentId None
              Sample.client p Hp (or_introl Hs))
    as [resp [p' [Hc [Hr _]]]].
  exists resp, p'. split; assumption.
Defined.

(** The same holds from PROCESSING, where the response's conditional would
    otherwise have returned the amount. *)
Example cancel_processing_refunds_nothing :
  let polled :=
    (getPaymentStatus (Sample.now + 45000) (Sample.now + 45000)
       (Sample.now + 45000) Sample.draws Sample.paymentId Sample.client).2 in
  (Payment.status <$> payments polled !! Sample.paymentId) = Some "PROCESSING"
  /\ match (cancelPayment (Sample.now + 50000) Sample.paymentId None polled).1 with
     | inr resp => CancelResponse.refundAmount resp = 0
     | inl _ => False
     end.
Proof. split; vm_compute; reflexivity. Qed.

End PayDPIFacts.

(** ** The order-request validator *)

Module ValidationFacts.
Import Validation ValidationSpec.

Lemma pushIf_length c msg errors :
  length (pushIf c msg errors)
  = (length errors + if c then 1 else 0)%nat.
Proof.
  unfold pushIf. destruct c; [rewrite length_app; reflexivity | lia].
Qed.

Lemma pushIf_true_nonempty msg errors : (0 < length (pushIf true msg errors))%nat.
Proof. rewrite pushIf_length. lia. Qed.

Lemma pushIf_mono c msg errors :
  (0 < length errors)%nat -> (0 < length (pushIf c msg errors))%nat.
Proof. rewrite pushIf_length. lia. Qed.

Lemma in_pushIf x c msg errors :
  In x (pushIf c msg errors) -> (c = true /\ x = msg) \/ In x errors.
Proof.
  unfold pushIf. destruct c; [| auto].
  intros H. apply in_app_or in H as [H | [<- | []]]; auto.
Qed.

Lemma quantityRejected_spec q :
  quantityRejected q = true
  <-> q = None \/ exists n, q = Some n /\ (n < 1 \/ 10 < n).
Proof.
  unfold quantityRejected, Js.truthyNum, ltNum, gtNum.
  destruct q as [n |]; [| split; auto].
  destruct (Z.eqb_spec n 0) as [E0 | E0], (Z.ltb_spec n 1) as [E1 | E1],
           (Z.ltb_spec 10 n) as [E10 | E10]; cbn;
    (split; [intros Hb | intros [Hn | [m [[= <-] Hm]]]]);
    try reflexivity; try discriminate; try lia;
    right; exists n; (split; [reflexivity | lia]).
Qed.

Lemma orderErrors_quantity h body :
  quantityRejected (quantity body) = true ->
  (0 < length (orderErrors h body))%nat.
Proof.
  unfold quantityRejected, orderErrors. intros H.
  apply orb_true_iff in H as [H | H]; rewrite H.
  - apply pushIf_mono, pushIf_mono, pushIf_true_nonempty.
  - apply pushIf_true_nonempty.
Qed.

(** C6. The validator answers 400 / validation_error to every request whose
    quantity is missing, below 1 or above 10, whatever its other fields;
    a quantity from 1 to 10 raises neither of the two quantity errors, and
    such a request is handed to the next handler when its meal id is
    present and its scheduled date is present and parses. *)
Theorem validateOrderRequest_quantity (h : Js.Host) (body : OrderBody) :
  (quantity body = None
   \/ (exists n, quantity body = Some n /\ (n < 1 \/ 10 < n)) ->
   exists r, validateOrderRequest h body = Respond r
             /\ httpStatus r = 400
             /\ error r = "validation_error"
             /\ success r = false)
  /\ (forall n,
        quantity body = Some n -> 1 <= n <= 10 ->
        ~ In "Valid quantity is required" (orderErrors h body)
        /\ ~ In "Maximum 10 meals per order" (orderErrors h body)
        /\ (Js.truthyStr (mealId body) = true ->
            (exists d t, scheduledDate body = Some d /\ d <> ""
                         /\ Js.dateParse h d = Some t) ->
            validateOrderRequest h body = Next)).
Proof.
  split.
  - intros H. apply quantityRejected_spec in H.
    apply (orderErrors_quantity h) in H.
    unfold validateOrderRequest. apply Nat.ltb_lt in H. rewrite H.
    eexists. repeat split.
  - intros n Hq [Hlo Hhi].
    assert (E1 : negb (Js.truthyNum (quantity body)) || ltNum (quantity body) 1 = false).
    { rewrite Hq. cbn. destruct (Z.eqb_spec n 0), (Z.ltb_spec n 1); (lia || reflexivity). }
    assert (E2 : Js.truthyNum (quantity body) && gtNum (quantity body) 10 = false).
    { rewrite Hq. cbn. destruct (Z.ltb_spec 10 n); [lia | apply andb_false_r]. }
    unfold validateOrderRequest, orderErrors. rewrite E1, E2.
    split; [| split].
    + intros H.
      repeat (apply in_pushIf in H as [[Hc Hx] | H]; [discriminate |]).
      destruct H.
    + intros H.
      repeat (apply in_pushIf in H as [[Hc Hx] | H]; [discriminate |]).
      destruct H.
    + intros Hm [d [t [Hd [Hne Ht]]]]. rewrite Hm, Hd. cbn.
      rewrite Ht. rewrite (proj2 (String.eqb_neq d "") Hne). reflexivity.
Qed.

Lemma validateOrderRequest_quantity_witness :
  (exists r, validateOrderRequest Sample.host (Sample.body (Some 11)) = Respond r
             /\ httpStatus r = 400 /\ error r = "validation_error"
             /\ success r = false)
  /\ validateOrderRequest Sample.host (Sample.body (Some 10)) = Next.
Proof.
  split.
  - apply (proj1 (validateOrderRequest_quantity Sample.host (Sample.body (Some 11)))).
    right. exists 11. split; [reflexivity | lia].
  - apply (proj2 (validateOrderRequest_quantity Sample.host (Sample.body (Some 10))) 10
             eq_refl ltac:(lia)).
    + reflexivity.
    + exists "2030-01-01", 1893456000000. repeat split. discriminate.
Defined.

(** The boundary values, and a request that is in range but lacks its meal
    id. *)
Example validate_boundaries :
  validateOrderRequest Sample.host (Sample.body (Some 1)) = Next
  /\ validateOrderRequest Sample.host (Sample.body (Some 10)) = Next
  /\ validateOrderRequest Sample.host (Sample.body (Some 0)) <> Next
  /\ validateOrderRequest Sample.host (Sample.body (Some 11)) <> Next
  /\ validateOrderRequest Sample.host (Sample.body None) <> Next
  /\ validateOrderRequest Sample.host
       {| mealId := None; scheduledDate := Some "2030-01-01"; quantity := Some 5 |}
     <> Next.
Proof. repeat split; try reflexivity; discriminate. Qed.

(** The status validator lets through exactly the four staff statuses. *)
Lemma validateStatusUpdate_next status :
  validateStatusUpdate status = Next
  <-> exists s, status = Some s /\ In s validStatuses.
Proof.
  unfold validateStatusUpdate. split.
  - destruct status as [s |]; [cbn [from_option id Js.truthyStr] | intros [=]].
    destruct (String.eqb s ""); cbn [negb orb]; [intros [=] |].
    destruct (Js.includes validStatuses s) eqn:E; cbn [negb]; [| intros [=]].
    intros _. exists s. split; [reflexivity |].
    unfold Js.includes in E. apply existsb_exists in E as [x [Hx Ex]].
    apply String.eqb_eq in Ex. subst x. exact Hx.
  - intros [s [-> Hs]]. cbn [from_option id Js.truthyStr].
    assert (Hinc : Js.includes validStatuses s = true).
    { unfold Js.includes. apply existsb_exists. exists s.
      split; [exact Hs | apply String.eqb_refl]. }
    rewrite Hinc.
    assert (Hne : String.eqb s "" = false).
    { cbn in Hs. destruct Hs as [<- | [<- | [<- | [<- | []]]]]; reflexivity. }
    rewrite Hne. reflexivity.
Qed.

End ValidationFacts.

(** ** Array searches *)

Section ArraySearch.
Context {A : Type}.
Variable p : A -> bool.

Lemma find_None (l : list A) :
  Js.find p l = None <-> forall x, In x l -> p x = false.
Proof.
  induction l as [| a l IH]; cbn.
  - split; [intros _ x [] | reflexivity].
  - destruct (p a) eqn:Ea.
    + split; [discriminate |]. intros H. rewrite (H a) in Ea; [discriminate | auto].
    + rewrite IH. split.
      * intros H x [<- | Hx]; auto.
      * intros H x Hx. apply H. auto.
Qed.

Lemma find_Some (l : list A) (x : A) :
  Js.find p l = Some x -> In x l /\ p x = true.
Proof.
  induction l as [| a l IH]; cbn; [discriminate |].
  destruct (p a) eqn:Ea.
  - intros [= <-]. auto.
  - intros H. destruct (IH H). auto.
Qed.

(** [find] returns the element at the index that [findIndex] returns, and
    no earlier element satisfies the predicate. *)
Lemma find_findIndex (l : list A) (x : A) :
  Js.find p l = Some x ->
  exists i, Js.findIndex p l = Some i
            /\ l !! i = Some x
            /\ forall j y, (j < i)%nat -> l !! j = Some y -> p y = false.
Proof.
  induction l as [| a l IH]; cbn; [discriminate |].
  destruct (p a) eqn:Ea.
  - intros [= <-]. exists 0%nat. repeat split. intros j y Hj. lia.
  - intros H. destruct (IH H) as [i [Hi [Hx Hlt]]].
    exists (S i). rewrite Hi. repeat split; [exact Hx |].
    intros [| j] y Hj; cbn.
    + intros [= <-]. exact Ea.
    + apply Hlt. lia.
Qed.

Lemma find_app_None (l : list A) (x : A) :
  Js.find p l = None -> Js.find p (l ++ [x]) = if p x then Some x else None.
Proof.
  induction l as [| a l IH]; cbn; [reflexivity |].
  destruct (p a); [discriminate | exact IH].
Qed.

Lemma find_app_Some (l l' : list A) (x : A) :
  Js.find p l = Some x -> Js.find p (l ++ l') = Some x.
Proof.
  induction l as [| a l IH]; cbn; [discriminate |].
  destruct (p a); [auto | exact IH].
Qed.
End ArraySearch.

(** ** Order ids *)

Module IdFacts.

Lemma length_append (a b : string) :
  String.length (a +:+ b) = (String.length a + String.length b)%nat.
Proof. induction a as [| c a IH]; simpl; [reflexivity | rewrite IH; reflexivity]. Qed.

Lemma append_inj_l (a a' b b' : string) :
  a +:+ b = a' +:+ b' -> String.length b = String.length b' -> a = a'.
Proof.
  intros H Hl.
  assert (Hlen : String.length a = String.length a').
  { apply (f_equal String.length) in H. rewrite !length_append in H. lia. }
  clear Hl. revert a' H Hlen.
  induction a as [| c a IH]; intros [| c' a'] H Hlen; try discriminate Hlen.
  - reflexivity.
  - cbn in H, Hlen. injection H as -> H. f_equal. apply IH; [exact H | lia].
Qed.

Lemma length_substring (n m : nat) (s : string) :
  (n + m <= String.length s)%nat -> String.length (substring n m s) = m.
Proof.
  revert n m. induction s as [| c s IH]; intros [| n] [| m] H; cbn in *;
    try reflexivity; try lia.
  - rewrite IH; [reflexivity | lia].
  - apply IH. lia.
  - apply IH. lia.
Qed.

Lemma length_string_of_uint (d : Decimal.uint) :
  String.length (NilEmpty.string_of_uint d) = Decimal.nb_digits d.
Proof. induction d; cbn; congruence. Qed.

Lemma of_lu_bound (d : Decimal.uint) :
  (DecimalPos.Unsigned.of_lu d < 10 ^ N.of_nat (Decimal.nb_digits d))%N.
Proof.
  induction d; cbn [DecimalPos.Unsigned.of_lu Decimal.nb_digits];
    rewrite ?Nat2N.inj_succ, ?N.pow_succ_r'; cbn [N.of_nat N.pow]; lia.
Qed.

Lemma three_digits_small (d : Decimal.uint) :
  (Decimal.nb_digits d <= 3)%nat -> (Pos.of_uint d < 1000)%N.
Proof.
  intros H. rewrite DecimalPos.Unsigned.of_uint_alt.
  pose proof (of_lu_bound (Decimal.rev d)) as Hb.
  rewrite DecimalFacts.nb_digits_rev in Hb.
  assert (Hp : (10 ^ N.of_nat (Decimal.nb_digits d) <= 10 ^ 3)%N)
    by (apply N.pow_le_mono_r; lia).
  change (10 ^ 3)%N with 1000%N in Hp. lia.
Qed.

Lemma toString_length (t : Z) : 1000 <= t -> (4 <= String.length (Js.toString t))%nat.
Proof.
  intros Ht. destruct t as [| p | p]; try lia.
  unfold Js.toString. cbn [Z.to_int NilEmpty.string_of_int].
  rewrite length_string_of_uint.
  destruct (Nat.lt_ge_cases (Decimal.nb_digits (Pos.to_uint p)) 4) as [Hlt | Hge];
    [| exact Hge].
  exfalso.
  assert (Hs : (Pos.of_uint (Pos.to_uint p) < 1000)%N)
    by (apply three_digits_small; lia).
  rewrite DecimalPos.Unsigned.of_to in Hs. lia.
Qed.

Lemma toString_inj (a b : Z) : Js.toString a = Js.toString b -> a = b.
Proof.
  unfold Js.toString. intros H. apply DecimalZ.to_int_inj.
  assert (E : Some (Z.to_int a) = Some (Z.to_int b)).
  { rewrite <- !NilEmpty.isi. rewrite H. reflexivity. }
  injection E as E. exact E.
Qed.

Lemma length_sliceLast (s : string) :
  (4 <= String.length s)%nat -> String.length (Js.sliceLast 4 s) = 4%nat.
Proof. intros H. unfold Js.sliceLast. apply length_substring. lia. Qed.

(** Two ids built at clock readings of four digits or more agree only if they
    were built from the same counter value. *)
Lemma newId_counter_inj (c c' t t' : Z) :
  1000 <= t -> 1000 <= t' -> Order.newId c t = Order.newId c' t' -> c = c'.
Proof.
  intros Ht Ht' H. unfold Order.newId in H. injection H as H.
  change (Js.toString c +:+ Js.sliceLast 4 (Js.toString t)
          = Js.toString c' +:+ Js.sliceLast 4 (Js.toString t')) in H.
  apply toString_inj. apply (append_inj_l _ _ _ _ H).
  rewrite !length_sliceLast by (apply toString_length; assumption). reflexivity.
Qed.

End IdFacts.

(** ** The order model *)

Module OrderFacts.
Import Order.

(** What an in-place update does when the order is found. *)
Lemma updateAt_found orderId f st o :
  findById orderId st = Some o ->
  exists i,
    orders st !! i = Some o
    /\ (forall j y, (j < i)%nat -> orders st !! j = Some y -> hasId orderId y = false)
    /\ updateAt orderId f st
       = (Some (f o), {| orders := <[i := f o]> (orders st); counter := counter st |}).
Proof.
  intros H. destruct (find_findIndex _ _ _ H) as [i [Hi [Hx Hlt]]].
  exists i. split; [exact Hx | split; [exact Hlt |]].
  unfold updateAt. rewrite Hi, Hx. reflexivity.
Qed.

Lemma updateAt_missing orderId f st :
  findById orderId st = None -> updateAt orderId f st = (None, st).
Proof.
  unfold findById, updateAt. intros H.
  destruct (Js.findIndex (hasId orderId) (orders st)) as [i |] eqn:Hi; [| reflexivity].
  destruct (orders st !! i) as [o |] eqn:Ho; [| reflexivity].
  exfalso.
  assert (Hf : forall l k, Js.findIndex (hasId orderId) l = Some k ->
                           Js.find (hasId orderId) l <> None).
  { induction l as [| a l IH]; cbn; [discriminate |].
    destruct (hasId orderId a); [discriminate |].
    destruct (Js.findIndex (hasId orderId) l) eqn:E; [| discriminate].
    intros k _. eapply IH. reflexivity. }
  exact (Hf _ _ Hi H).
Qed.

Lemma updateAt_length orderId f st :
  length (orders (updateAt orderId f st).2) = length (orders st)
  /\ counter (updateAt orderId f st).2 = counter st.
Proof.
  unfold updateAt.
  destruct (Js.findIndex _ _) as [i |]; [| auto].
  destruct (orders st !! i); [| auto].
  cbn. rewrite length_insert. auto.
Qed.

(** After an update that keeps the id, the order is found again, updated. *)
Lemma findById_updated orderId f st o i :
  orders st !! i = Some o ->
  (forall j y, (j < i)%nat -> orders st !! j = Some y -> hasId orderId y = false) ->
  hasId orderId (f o) = true ->
  findById orderId {| orders := <[i := f o]> (orders st); counter := counter st |}
  = Some (f o).
Proof.
  unfold findById. cbn [orders]. generalize (orders st). clear st.
  induction i as [| i IH]; intros [| a l] Ho Hlt Hid; try discriminate.
  - cbn in *. rewrite Hid. reflexivity.
  - cbn in Ho. cbn.
    rewrite (Hlt 0%nat a) by (lia || reflexivity).
    apply IH; [exact Ho | | exact Hid].
    intros j y Hj Hy. apply (Hlt (S j) y); [lia | exact Hy].
Qed.

Lemma in_insert {A : Type} (l : list A) (i : nat) (y x : A) :
  In x (<[i := y]> l) -> x = y \/ In x l.
Proof.
  revert i. induction l as [| a l IH]; intros [| i]; cbn; try tauto.
  - intros [<- | H]; auto.
  - intros [<- | H]; [auto |]. destruct (IH i H); auto.
Qed.

Lemma in_updateAt orderId f st x :
  In x (orders (updateAt orderId f st).2) ->
  In x (orders st) \/ exists o, In o (orders st) /\ x = f o.
Proof.
  unfold updateAt.
  destruct (Js.findIndex _ _) as [i |]; [| auto].
  destruct (orders st !! i) as [o |] eqn:Ho; [| auto].
  cbn. intros H. apply in_insert in H as [-> | H]; [right | auto].
  exists o. split; [| reflexivity].
  apply list_elem_of_In, list_elem_of_lookup. eauto.
Qed.

End OrderFacts.

(** ** The order service *)

Module OrderServiceFacts.
Import OrderService OrderSpec.

Ltac run :=
  unfold bind, readMeals, readStudents, readOrders, onOrders, onMeals, ret, throw;
  cbn [fst snd].

Section Create.
Variables (h : Js.Host) (now : Z) (studentId : string) (req : OrderRequest.t)
          (s : Services.t).

Lemma createOrder_past :
  inPast h now (OrderRequest.scheduledDate req) = true ->
  createOrder h now studentId req s
  = (Throw (err "Cannot order meals for past dates" 400 "invalid_date"), s).
Proof. unfold inPast, createOrder. intros ->. reflexivity. Qed.

Lemma createOrder_duplicate meal student existing :
  inPast h now (OrderRequest.scheduledDate req) = false ->
  Services.meals s !! OrderRequest.mealId req = Some meal ->
  Meal.available meal = true ->
  Services.students s !! studentId = Some student ->
  Order.findExistingOrder studentId (OrderRequest.scheduledDate req)
    (Services.orderModel s) = Some existing ->
  createOrder h now studentId req s
  = (Throw (err "You already have an order for this date" 409 "duplicate_order"), s).
Proof.
  unfold inPast, createOrder. intros -> Hm Ha Hs He. run.
  unfold MealService.getMealById, StudentService.getStudentById.
  rewrite Hm, Ha. cbn [negb]. rewrite Hs, He. reflexivity.
Qed.

Lemma createOrder_ok meal student :
  inPast h now (OrderRequest.scheduledDate req) = false ->
  Services.meals s !! OrderRequest.mealId req = Some meal ->
  Meal.available meal = true ->
  Services.students s !! studentId = Some student ->
  Order.findExistingOrder studentId (OrderRequest.scheduledDate req)
    (Services.orderModel s) = None ->
  createOrder h now studentId req s
  = (Ok (created (Order.create now (orderData_processed studentId req meal student)
                    (Services.orderModel s)).1),
     afterCreate now studentId req meal student s).
Proof.
  unfold inPast, createOrder. intros -> Hm Ha Hs He. run.
  unfold MealService.getMealById, StudentService.getStudentById.
  rewrite Hm, Ha. cbn [negb]. rewrite Hs, He. reflexivity.
Qed.

(** A successful call passed every check, and its effect is [afterCreate]. *)
Lemma createOrder_ok_inv reply s' :
  createOrder h now studentId req s = (Ok reply, s') ->
  exists meal student,
    inPast h now (OrderRequest.scheduledDate req) = false
    /\ Services.meals s !! OrderRequest.mealId req = Some meal
    /\ Meal.available meal = true
    /\ Services.students s !! studentId = Some student
    /\ Order.findExistingOrder studentId (OrderRequest.scheduledDate req)
         (Services.orderModel s) = None
    /\ reply = created (Order.create now
                          (orderData_processed studentId req meal student)
                          (Services.orderModel s)).1
    /\ s' = afterCreate now studentId req meal student s.
Proof.
  destruct (inPast h now (OrderRequest.scheduledDate req)) eqn:Hd.
  { rewrite (createOrder_past Hd). discriminate. }
  destruct (Services.meals s !! OrderRequest.mealId req) as [meal |] eqn:Hm.
  2:{ unfold inPast in Hd. unfold createOrder. rewrite Hd. run.
      unfold MealService.getMealById. rewrite Hm. discriminate. }
  destruct (Meal.available meal) eqn:Ha.
  2:{ unfold inPast in Hd. unfold createOrder. rewrite Hd. run.
      unfold MealService.getMealById. rewrite Hm, Ha. discriminate. }
  destruct (Services.students s !! studentId) as [student |] eqn:Hs.
  2:{ unfold inPast in Hd. unfold createOrder. rewrite Hd. run.
      unfold MealService.getMealById, StudentService.getStudentById.
      rewrite Hm, Ha. cbn [negb]. rewrite Hs. discriminate. }
  destruct (Order.findExistingOrder studentId (OrderRequest.scheduledDate req)
              (Services.orderModel s)) as [ex |] eqn:He.
  { rewrite (createOrder_duplicate meal student ex Hd Hm Ha Hs He). discriminate. }
  rewrite (createOrder_ok meal student Hd Hm Ha Hs He).
  intros [= <- <-]. exists meal, student. repeat split; assumption.
Qed.

(** Every error is thrown before the first write. *)
Lemma createOrder_throw_unchanged e s' :
  createOrder h now studentId req s = (Throw e, s') -> s' = s.
Proof.
  unfold createOrder. run.
  unfold MealService.getMealById, StudentService.getStudentById.
  destruct (Js.dateLt _ _); [intros [= _ <-]; reflexivity |].
  destruct (Services.meals s !! _) as [meal |]; [| intros [= _ <-]; reflexivity].
  destruct (negb _); [intros [= _ <-]; reflexivity |].
  destruct (Services.students s !! _) as [student |]; [| intros [= _ <-]; reflexivity].
  destruct (Order.findExistingOrder _ _ _); [intros [= _ <-]; reflexivity |].
  discriminate.
Qed.
End Create.

(** In a zone of fixed offset the midnight is the last one at or before
    [now], less than a day back. *)
Lemma fixedZone_bounds offset now :
  Js.fixedZone offset now <= now < Js.fixedZone offset now + Js.msPerDay
  /\ (Js.fixedZone offset now + offset) mod Js.msPerDay = 0.
Proof.
  unfold Js.fixedZone, Js.msPerDay.
  pose proof (Z.mod_pos_bound (now + offset) 86400000 ltac:(lia)) as Hb.
  split; [lia |].
  replace (now - (now + offset) mod 86400000 + offset)
    with ((now + offset) - (now + offset) mod 86400000) by lia.
  rewrite Zminus_mod_idemp_r, Z.sub_diag. reflexivity.
Qed.

(** Every student of the constructor's table is subsidy-eligible. *)
Lemma init_students_eligible sid student :
  StudentService.init !! sid = Some student ->
  Student.subsidyEligible student = true.
Proof.
  unfold StudentService.init. intros H.
  apply lookup_insert_Some in H as [[_ <-] | [_ H]]; [reflexivity |].
  apply lookup_insert_Some in H as [[_ <-] | [_ H]]; [reflexivity |].
  rewrite lookup_empty in H. discriminate.
Qed.

(** C1. Every order that [createOrder] creates (the one it returns and pushes
    on the store) has totalAmount = price * quantity, subsidyAmount =
    subsidy * quantity when the student is subsidy-eligible and 0 otherwise,
    and finalAmount = max(0, totalAmount - subsidyAmount), that is
    max(0, price * quantity - subsidy * quantity) for an eligible student;
    price and subsidy are those of the meal looked up, the quantity is the
    requested one (1 when absent). And the call does create an order whenever
    the date is not in the past, the meal exists and is available, the
    student is known and has no active order for that date. *)
Theorem createOrder_amounts
    (h : Js.Host) (now : Z) (studentId : string) (req : OrderRequest.t)
    (s : Services.t) :
  let qty := default 1 (OrderRequest.quantity req) in
  (forall reply s',
      createOrder h now studentId req s = (Ok reply, s') ->
      exists meal student o,
        Services.meals s !! OrderRequest.mealId req = Some meal
        /\ Services.students s !! studentId = Some student
        /\ Reply.order reply = Some o
        /\ last (Order.orders (Services.orderModel s')) = Some o
        /\ Order.quantity o = qty
        /\ Order.totalAmount o = Meal.price meal * qty
        /\ Order.subsidyAmount o
           = (if Student.subsidyEligible student
              then Meal.subsidyAmount meal * qty else 0)
        /\ Order.finalAmount o
           = Z.max 0 (Order.totalAmount o - Order.subsidyAmount o)
        /\ (Student.subsidyEligible student = true ->
            Order.finalAmount o
            = Z.max 0 (Meal.price meal * qty - Meal.subsidyAmount meal * qty)))
  /\ (forall meal student,
        inPast h now (OrderRequest.scheduledDate req) = false ->
        Services.meals s !! OrderRequest.mealId req = Some meal ->
        Meal.available meal = true ->
        Services.students s !! studentId = Some student ->
        Order.findExistingOrder studentId (OrderRequest.scheduledDate req)
          (Services.orderModel s) = None ->
        exists reply s', createOrder h now studentId req s = (Ok reply, s')).
Proof.
  intros qty. split.
  - intros reply s' Hc.
    destruct (createOrder_ok_inv _ _ _ _ _ _ _ Hc)
      as [meal [student [_ [Hm [_ [Hs [_ [-> ->]]]]]]]].
    exists meal, student. eexists.
    split; [exact Hm |]. split; [exact Hs |]. split; [reflexivity |].
    split; [apply last_snoc |].
    repeat split. intros E. cbn. rewrite E. reflexivity.
  - intros meal student Hd Hm Ha Hs He.
    rewrite (createOrder_ok h now studentId req s meal student Hd Hm Ha Hs He).
    eauto.
Qed.

(** Three portions of meal_001 (price 50, subsidy 30) for student123 cost
    150, of which 90 are subsidised and 60 remain to pay. *)
Lemma createOrder_amounts_witness :
  exists reply o,
    createOrder Sample.host Sample.now "student123" (Sample.request 3) Services.init
    = (Ok reply, Sample.placed)
    /\ Reply.order reply = Some o
    /\ Order.totalAmount o = 150
    /\ Order.subsidyAmount o = 90
    /\ Order.finalAmount o = 60.
Proof.
  assert (Hr : exists reply,
             createOrder Sample.host Sample.now "student123" (Sample.request 3)
               Services.init = (Ok reply, Sample.placed))
    by (eexists; vm_compute; reflexivity).
  destruct Hr as [reply E]. exists reply.
  destruct (proj1 (createOrder_amounts Sample.host Sample.now "student123"
                     (Sample.request 3) Services.init) reply Sample.placed E)
    as [meal [student [o [Hm [Hs [Hr [_ [_ [Ht [Hsub [Hf _]]]]]]]]]]].
  assert (Em : Meal.price meal = 50 /\ Meal.subsidyAmount meal = 30).
  { revert Hm. vm_compute. intros [= <-]. split; reflexivity. }
  assert (Es : Student.subsidyEligible student = true).
  { revert Hs. vm_compute. intros [= <-]. reflexivity. }
  destruct Em as [Ep Eq]. rewrite Ep in Ht. rewrite Es, Eq in Hsub.
  exists o. split; [exact E |]. split; [exact Hr |].
  split; [exact Ht |]. split; [exact Hsub |].
  rewrite Hf, Ht, Hsub. reflexivity.
Defined.

(** C7. [createOrder] rejects a scheduled date with 400 / invalid_date, the
    store left as it was, exactly when the date parses to an instant before
    the midnight that [setHours(0, 0, 0, 0)] gives for the current day in
    the host's time zone. A date that parses to that midnight or to any
    later instant, of the current day or of a later one, passes the date
    check, and so does a date that does not parse. The midnight is never
    after the clock's reading, so that no instant from now on is rejected. *)
Theorem createOrder_rejects_past_dates
    (h : Js.Host) (now : Z) (studentId : string) (req : OrderRequest.t)
    (s : Services.t) :
  let date := Js.dateParse h (OrderRequest.scheduledDate req) in
  let passes :=
    inPast h now (OrderRequest.scheduledDate req) = false
    /\ forall e s',
         createOrder h now studentId req s = (Throw e, s') ->
         Error.code e <> "invalid_date" /\ Error.statusCode e <> 400 in
  (forall t, date = Some t -> t < Js.midnight h now ->
     createOrder h now studentId req s
     = (Throw (err "Cannot order meals for past dates" 400 "invalid_date"), s))
  /\ (forall t, date = Some t -> Js.midnight h now <= t -> passes)
  /\ (date = None -> passes)
  /\ (Js.midnight h now <= now -> forall t, date = Some t -> now <= t -> passes).
Proof.
  intros date passes.
  assert (Hpass : inPast h now (OrderRequest.scheduledDate req) = false -> passes).
  { intros Hd. split; [exact Hd |]. intros e s'.
    unfold inPast in Hd. unfold createOrder. rewrite Hd. run.
    unfold MealService.getMealById, StudentService.getStudentById.
    destruct (Services.meals s !! _) as [meal |];
      [| intros [= <- _]; split; discriminate].
    destruct (negb _); [intros [= <- _]; split; discriminate |].
    destruct (Services.students s !! _) as [student |];
      [| intros [= <- _]; split; discriminate].
    destruct (Order.findExistingOrder _ _ _);
      [intros [= <- _]; split; discriminate | discriminate]. }
  assert (Hlate : forall t, date = Some t -> Js.midnight h now <= t -> passes).
  { intros t Ht Hcmp. apply Hpass. unfold inPast. fold date. rewrite Ht.
    cbn. apply Z.ltb_ge. exact Hcmp. }
  split; [| split; [exact Hlate | split]].
  - intros t Ht Hcmp. apply createOrder_past. unfold inPast. fold date.
    rewrite Ht. cbn. apply Z.ltb_lt. exact Hcmp.
  - intros Hn. apply Hpass. unfold inPast. fold date. rewrite Hn. reflexivity.
  - intros Hm t Ht Hcmp. apply (Hlate t Ht). lia.
Qed.

Lemma createOrder_rejects_past_dates_witness :
  createOrder Sample.host Sample.now "student123" Sample.pastRequest Services.init
  = (Throw (err "Cannot order meals for past dates" 400 "invalid_date"),
     Services.init)
  /\ inPast Sample.host Sample.now "2030-01-01" = false.
Proof.
  split.
  - apply (proj1 (createOrder_rejects_past_dates Sample.host Sample.now
                    "student123" Sample.pastRequest Services.init)
             1577836800000 eq_refl).
    reflexivity.
  - apply (proj2 (proj2 (proj2 (createOrder_rejects_past_dates Sample.host
                                  Sample.now "student123" (Sample.request 1)
                                  Services.init)))
             (proj1 (proj1 (fixedZone_bounds 19800000 Sample.now)))
             1893456000000 eq_refl).
    discriminate.
Defined.

(** C7 as the claim words it, "a scheduledDate of today passes", fails
    where the local time is behind UTC. In New York, five hours behind, at
    one in the afternoon of 3 November 2025 an order is placed for the date
    that the calendar shows there. The date has no time and is read as
    00:00 UTC of 3 November; the current day began at 05:00 UTC, five hours
    later, and the order for today is rejected as one for a past date. *)
Lemma today_rejected_behind_utc :
  Calendar.wallDate (-18000000) Sample.afternoon
  = OrderRequest.scheduledDate Sample.todayRequest
  /\ (exists t,
        Js.dateParse Sample.newYork (OrderRequest.scheduledDate Sample.todayRequest)
        = Some t
        /\ Calendar.wallDate 0 t = OrderRequest.scheduledDate Sample.todayRequest
        /\ t mod Js.msPerDay = 0
        /\ Js.midnight Sample.newYork Sample.afternoon = t + 18000000)
  /\ (Js.midnight Sample.newYork Sample.afternoon <= Sample.afternoon
      < Js.midnight Sample.newYork Sample.afternoon + Js.msPerDay)
  /\ createOrder Sample.newYork Sample.afternoon "student123" Sample.todayRequest
       Services.init
     = (Throw (err "Cannot order meals for past dates" 400 "invalid_date"),
        Services.init).
Proof.
  split; [vm_compute; reflexivity |].
  split; [exists 1762128000000; repeat split; vm_compute; reflexivity |].
  split; [split; [vm_compute; discriminate | vm_compute; reflexivity] |].
  vm_compute. reflexivity.
Qed.

(** *** Cancellation *)

Lemma includes_cancellable o :
  Js.includes ["PENDING"; "CONFIRMED"] (Order.status o) = true <-> cancellable o.
Proof.
  unfold cancellable, Js.includes. cbn [existsb].
  destruct (String.eqb_spec (Order.status o) "PENDING") as [-> | Hp]; [cbn; tauto |].
  destruct (String.eqb_spec (Order.status o) "CONFIRMED") as [-> | Hc]; [cbn; tauto |].
  cbn. split; [discriminate | tauto].
Qed.

Section Cancel.
Variables (now : Z) (orderId studentId : string) (reason : option string)
          (s : Services.t).

Lemma cancelOrder_not_found :
  Order.findById orderId (Services.orderModel s) = None ->
  cancelOrder now orderId studentId reason s
  = (Throw (err "Order not found" 404 "order_not_found"), s).
Proof. unfold cancelOrder. run. intros ->. reflexivity. Qed.

Lemma cancelOrder_not_owner o :
  Order.findById orderId (Services.orderModel s) = Some o ->
  Order.studentId o <> studentId ->
  cancelOrder now orderId studentId reason s
  = (Throw (err "Order not found" 404 "order_not_found"), s).
Proof.
  unfold cancelOrder. run. intros -> Hne.
  rewrite (proj2 (String.eqb_neq _ _) Hne). reflexivity.
Qed.

Lemma cancelOrder_cannot_cancel o :
  Order.findById orderId (Services.orderModel s) = Some o ->
  Order.studentId o = studentId ->
  Js.includes ["PENDING"; "CONFIRMED"] (Order.status o) = false ->
  cancelOrder now orderId studentId reason s
  = (Throw (err "Order cannot be cancelled at this stage" 400 "cannot_cancel"), s).
Proof.
  unfold cancelOrder. run. intros -> Ho ->.
  rewrite (proj2 (String.eqb_eq _ _) Ho). reflexivity.
Qed.

Lemma cancelOrder_ok o :
  Order.findById orderId (Services.orderModel s) = Some o ->
  Order.studentId o = studentId ->
  Js.includes ["PENDING"; "CONFIRMED"] (Order.status o) = true ->
  cancelOrder now orderId studentId reason s
  = (Ok {| Reply.success := true;
           Reply.order := (Order.cancel now orderId reason (Services.orderModel s)).1;
           Reply.message := "Order cancelled successfully";
           Reply.nextSteps := [] |},
     afterCancel now orderId reason o s).
Proof.
  unfold cancelOrder, afterCancel, cancelledModel. run. intros -> Ho ->.
  rewrite (proj2 (String.eqb_eq _ _) Ho). cbn [negb].
  destruct (Order.cancel now orderId reason (Services.orderModel s)) as [u st1].
  cbn [fst snd Services.orderModel Services.meals Services.students].
  destruct (String.eqb (Order.paymentStatus o) "PAID" && (0 <? Order.finalAmount o)).
  - run. cbn [Services.orderModel Services.meals Services.students].
    destruct (Order.updatePaymentStatus now orderId "REFUNDED" st1) as [u' st2].
    reflexivity.
  - reflexivity.
Qed.

Lemma cancelOrder_throw_unchanged e s' :
  cancelOrder now orderId studentId reason s = (Throw e, s') -> s' = s.
Proof.
  destruct (Order.findById orderId (Services.orderModel s)) as [o |] eqn:Hf.
  2:{ rewrite (cancelOrder_not_found Hf). intros [= _ <-]. reflexivity. }
  destruct (String.eqb_spec (Order.studentId o) studentId) as [Ho | Ho].
  2:{ rewrite (cancelOrder_not_owner o Hf Ho). intros [= _ <-]. reflexivity. }
  destruct (Js.includes ["PENDING"; "CONFIRMED"] (Order.status o)) eqn:Hi.
  - rewrite (cancelOrder_ok o Hf Ho Hi). discriminate.
  - rewrite (cancelOrder_cannot_cancel o Hf Ho Hi). intros [= _ <-]. reflexivity.
Qed.

Lemma cancelOrder_ok_inv reply s' :
  cancelOrder now orderId studentId reason s = (Ok reply, s') ->
  exists o,
    Order.findById orderId (Services.orderModel s) = Some o
    /\ Order.studentId o = studentId
    /\ cancellable o
    /\ s' = afterCancel now orderId reason o s.
Proof.
  destruct (Order.findById orderId (Services.orderModel s)) as [o |] eqn:Hf.
  2:{ rewrite (cancelOrder_not_found Hf). discriminate. }
  destruct (String.eqb_spec (Order.studentId o) studentId) as [Ho | Ho].
  2:{ rewrite (cancelOrder_not_owner o Hf Ho). discriminate. }
  destruct (Js.includes ["PENDING"; "CONFIRMED"] (Order.status o)) eqn:Hi.
  - rewrite (cancelOrder_ok o Hf Ho Hi). intros [= _ <-].
    exists o. repeat split; try assumption.
    apply (proj1 (includes_cancellable o) Hi).
  - rewrite (cancelOrder_cannot_cancel o Hf Ho Hi). discriminate.
Qed.
End Cancel.

(** C3. For the order that [cancelOrder] resolves (found by id and belonging
    to the requesting student): the call succeeds when the status is PENDING
    or CONFIRMED and only then; in any other status it throws
    400 / cannot_cancel and the store is left exactly as it was. *)
Theorem cancelOrder_status_gate
    (now : Z) (orderId studentId : string) (reason : option string)
    (s : Services.t) (o : Order.t) :
  Order.findById orderId (Services.orderModel s) = Some o ->
  Order.studentId o = studentId ->
  (cancellable o ->
   exists reply s', cancelOrder now orderId studentId reason s = (Ok reply, s'))
  /\ (forall reply s',
        cancelOrder now orderId studentId reason s = (Ok reply, s') -> cancellable o)
  /\ (~ cancellable o ->
      cancelOrder now orderId studentId reason s
      = (Throw (err "Order cannot be cancelled at this stage" 400 "cannot_cancel"), s)).
Proof.
  intros Hf Ho. split; [| split].
  - intros Hc. apply includes_cancellable in Hc.
    rewrite (cancelOrder_ok now orderId studentId reason s o Hf Ho Hc). eauto.
  - intros reply s' Hr.
    destruct (cancelOrder_ok_inv _ _ _ _ _ _ _ Hr) as [o' [Hf' [_ [Hc _]]]].
    rewrite Hf in Hf'. injection Hf' as <-. exact Hc.
  - intros Hn. apply (cancelOrder_cannot_cancel now orderId studentId reason s o Hf Ho).
    destruct (Js.includes _ _) eqn:Hi; [| reflexivity].
    apply includes_cancellable in Hi. contradiction.
Qed.

Lemma cancelOrder_status_gate_witness :
  exists o,
    Order.findById Sample.placedId (Services.orderModel Sample.delivered) = Some o
    /\ Order.status o = "DELIVERED"
    /\ cancelOrder (Sample.now + 2000) Sample.placedId "student123" None Sample.delivered
       = (Throw (err "Order cannot be cancelled at this stage" 400 "cannot_cancel"),
          Sample.delivered).
Proof.
  assert (H : exists o,
             Order.findById Sample.placedId (Services.orderModel Sample.delivered) = Some o
             /\ Order.status o = "DELIVERED" /\ Order.studentId o = "student123")
    by (eexists; repeat split; vm_compute; reflexivity).
  destruct H as [o [Hf [Hs Ho]]]. exists o. split; [exact Hf | split; [exact Hs |]].
  apply (proj2 (proj2 (cancelOrder_status_gate (Sample.now + 2000) Sample.placedId
                         "student123" None Sample.delivered o Hf Ho))).
  unfold cancellable. rewrite Hs. intros [E | E]; discriminate E.
Defined.

(** Another student's request for the same order is answered 404, whatever
    the order's status. *)
Example cancel_by_other_student :
  cancelOrder (Sample.now + 2000) Sample.placedId "student124" None Sample.delivered
  = (Throw (err "Order not found" 404 "order_not_found"), Sample.delivered).
Proof. vm_compute. reflexivity. Qed.

(** *** Staff status update *)

Section StaffUpdate.
Variables (now : Z) (orderId staffId status : string) (notes : option string)
          (s : Services.t).

Lemma updateOrderStatus_not_found :
  Order.findById orderId (Services.orderModel s) = None ->
  updateOrderStatus now orderId staffId status notes s
  = (Throw (err "Order not found" 404 "order_not_found"), s).
Proof. unfold updateOrderStatus. run. intros ->. reflexivity. Qed.

Lemma updateOrderStatus_ok o :
  Order.findById orderId (Services.orderModel s) = Some o ->
  exists i,
    Order.orders (Services.orderModel s) !! i = Some o
    /\ updateOrderStatus now orderId staffId status notes s
       = (Ok {| Reply.success := true;
                Reply.order := Some (Order.withStatus now status staffId notes o);
                Reply.message := "Order status updated successfully";
                Reply.nextSteps := [] |},
          {| Services.orderModel :=
               {| Order.orders :=
                    <[i := Order.withStatus now status staffId notes o]>
                      (Order.orders (Services.orderModel s));
                  Order.counter := Order.counter (Services.orderModel s) |};
             Services.meals := Services.meals s;
             Services.students := Services.students s |}).
Proof.
  intros Hf.
  destruct (OrderFacts.updateAt_found orderId
              (Order.withStatus now status staffId notes) _ o Hf)
    as [i [Hi [_ Hu]]].
  exists i. split; [exact Hi |].
  unfold updateOrderStatus. run. rewrite Hf.
  unfold Order.updateStatus. rewrite Hu. reflexivity.
Qed.
End StaffUpdate.

(** C4. For an order found by its id, whatever its current status, and a
    requested status that the status validator lets through (CONFIRMED,
    PREPARING, READY or DELIVERED), the staff update succeeds, replaces the
    order in place by a copy whose status is the requested one and whose
    statusHistory is the previous history followed by exactly one new entry,
    and touches nothing else. *)
Theorem updateOrderStatus_overwrites
    (now : Z) (orderId staffId status : string) (notes : option string)
    (s : Services.t) (o : Order.t) :
  Order.findById orderId (Services.orderModel s) = Some o ->
  Validation.validateStatusUpdate (Some status) = Validation.Next ->
  exists i reply o' s',
    updateOrderStatus now orderId staffId status notes s = (Ok reply, s')
    /\ Reply.order reply = Some o'
    /\ Order.orders (Services.orderModel s) !! i = Some o
    /\ Order.orders (Services.orderModel s')
       = <[i := o']> (Order.orders (Services.orderModel s))
    /\ Order.status o' = status
    /\ Order.id o' = Order.id o
    /\ Order.statusHistory o'
       = Some (default [] (Order.statusHistory o)
               ++ [statusEntry now staffId status notes])%list
    /\ length (default [] (Order.statusHistory o'))
       = S (length (default [] (Order.statusHistory o)))
    /\ Services.meals s' = Services.meals s
    /\ Services.students s' = Services.students s.
Proof.
  intros Hf _.
  destruct (updateOrderStatus_ok now orderId staffId status notes s o Hf)
    as [i [Hi Hu]].
  eexists i, _, _, _. split; [exact Hu |].
  repeat split; try assumption.
  cbn. rewrite length_app. cbn. lia.
Qed.

(** A DELIVERED order is put back to CONFIRMED. *)
Lemma updateOrderStatus_overwrites_witness :
  exists o,
    Order.findById Sample.placedId (Services.orderModel Sample.delivered) = Some o
    /\ Order.status o = "DELIVERED"
    /\ length (default [] (Order.statusHistory o)) = 1%nat
    /\ exists reply o' s',
         updateOrderStatus (Sample.now + 3000) Sample.placedId "staff1" "CONFIRMED" None
           Sample.delivered = (Ok reply, s')
         /\ Reply.order reply = Some o'
         /\ Order.status o' = "CONFIRMED"
         /\ length (default [] (Order.statusHistory o')) = 2%nat.
Proof.
  assert (H : exists o,
             Order.findById Sample.placedId (Services.orderModel Sample.delivered) = Some o
             /\ Order.status o = "DELIVERED"
             /\ length (default [] (Order.statusHistory o)) = 1%nat)
    by (eexists; repeat split; vm_compute; reflexivity).
  destruct H as [o [Hf [Hs Hl]]]. exists o.
  split; [exact Hf | split; [exact Hs | split; [exact Hl |]]].
  destruct (updateOrderStatus_overwrites (Sample.now + 3000) Sample.placedId "staff1"
              "CONFIRMED" None Sample.delivered o Hf eq_refl)
    as [i [reply [o' [s' [Hu [Hr [_ [_ [Hst [_ [_ [Hlen _]]]]]]]]]]]].
  exists reply, o', s'. rewrite Hlen, Hl. auto.
Defined.

(** *** Meal availability *)

Lemma withQuantity_current m : Meal.withQuantity (Meal.currentQuantity m) m = m.
Proof. destruct m; reflexivity. Qed.

Lemma withQuantity_twice q q' m :
  Meal.withQuantity q (Meal.withQuantity q' m) = Meal.withQuantity q m.
Proof. reflexivity. Qed.

Lemma updateAvailability_lookup (meals : gmap string Meal.t) mealId q m :
  meals !! mealId = Some m ->
  MealService.updateAvailability mealId q meals !! mealId
  = Some (Meal.withQuantity (Meal.currentQuantity m - q) m).
Proof.
  intros H. unfold MealService.updateAvailability. rewrite H.
  apply lookup_insert_eq.
Qed.


(** Restoring what was taken gives back the very same table. *)
Lemma restore_update (meals : gmap string Meal.t) mealId q m :
  meals !! mealId = Some m ->
  MealService.restoreAvailability mealId q
    (MealService.updateAvailability mealId q meals) = meals.
Proof.
  intros H. unfold MealService.restoreAvailability.
  rewrite (updateAvailability_lookup _ _ q _ H).
  unfold MealService.updateAvailability. rewrite H.
  rewrite insert_insert_eq, withQuantity_twice. cbn [Meal.currentQuantity Meal.withQuantity].
  replace (Meal.currentQuantity m - q + q) with (Meal.currentQuantity m) by lia.
  rewrite withQuantity_current. apply insert_id, H.
Qed.

(** The order just created is the one its id resolves to, provided the id
    was not in use. *)
Lemma findById_created now d st :
  Order.findById (Order.newId (Order.counter st) now) st = None ->
  Order.findById (Order.id (Order.create now d st).1) (Order.create now d st).2
  = Some (Order.create now d st).1.
Proof.
  intros H. unfold Order.findById in *.
  rewrite create_pushes, (find_app_None _ _ _ H).
  unfold Order.hasId. cbn [Order.create fst Order.id].
  rewrite String.eqb_refl. reflexivity.
Qed.

(** Cancelling the order just created gives back the meal table, provided
    the new id was not already in use. *)
Lemma round_trip_when_fresh
    (h : Js.Host) (now later : Z) (studentId : string) (req : OrderRequest.t)
    (reason : option string) (s s1 : Services.t) (reply : Reply.t) :
  createOrder h now studentId req s = (Ok reply, s1) ->
  Order.findById (Order.newId (Order.counter (Services.orderModel s)) now)
    (Services.orderModel s) = None ->
  let qty := default 1 (OrderRequest.quantity req) in
  exists o meal reply' s2,
    Reply.order reply = Some o
    /\ Order.quantity o = qty
    /\ Order.mealId o = OrderRequest.mealId req
    /\ Services.meals s !! OrderRequest.mealId req = Some meal
    /\ Services.meals s1 !! OrderRequest.mealId req
       = Some (Meal.withQuantity (Meal.currentQuantity meal - qty) meal)
    /\ cancelOrder later (Order.id o) studentId reason s1 = (Ok reply', s2)
    /\ Services.meals s2
       = MealService.restoreAvailability (Order.mealId o) (Order.quantity o)
           (Services.meals s1)
    /\ Services.meals s2 = Services.meals s
    /\ Services.meals s2 !! OrderRequest.mealId req = Some meal.
Proof.
  intros Hc Hfresh qty.
  destruct (createOrder_ok_inv _ _ _ _ _ _ _ Hc)
    as [meal [student [Hd [Hm [Ha [Hs [He [-> ->]]]]]]]].
  set (d := orderData_processed studentId req meal student).
  set (o := (Order.create now d (Services.orderModel s)).1).
  assert (Hf : Order.findById (Order.id o)
                 (Services.orderModel (afterCreate now studentId req meal student s))
               = Some o) by (apply findById_created, Hfresh).
  assert (Ho : Order.studentId o = studentId) by reflexivity.
  assert (Hi : Js.includes ["PENDING"; "CONFIRMED"] (Order.status o) = true)
    by reflexivity.
  pose proof (cancelOrder_ok later (Order.id o) studentId reason _ o Hf Ho Hi) as Hk.
  eexists o, meal, _, _.
  split; [reflexivity |]. split; [reflexivity |]. split; [reflexivity |].
  split; [exact Hm |].
  split; [apply updateAvailability_lookup, Hm |].
  split; [exact Hk |].
  split; [reflexivity |].
  assert (Hback : Services.meals
                    (afterCancel later (Order.id o) reason o
                       (afterCreate now studentId req meal student s))
                  = Services.meals s)
    by (apply (restore_update _ _ _ meal), Hm).
  split; [exact Hback | rewrite Hback; exact Hm].
Qed.

(** *** Ids in the stores the service can reach *)

Lemma wellNumbered_init : wellNumbered Order.init.
Proof. intros o []. Qed.

Lemma wellNumbered_create now d st :
  wellNumbered st -> 1000 <= now -> wellNumbered (Order.create now d st).2.
Proof.
  intros Hw Hn o Ho. rewrite create_pushes in Ho.
  cbn [Order.create snd Order.counter].
  apply in_app_or in Ho as [Ho | [<- | []]].
  - destruct (Hw o Ho) as [c [t [E [Hc Ht]]]]. exists c, t. repeat split; (lia || assumption).
  - exists (Order.counter st), now. repeat split; (lia || assumption).
Qed.

Lemma wellNumbered_updateAt orderId f st :
  (forall o, Order.id (f o) = Order.id o) ->
  wellNumbered st -> wellNumbered (Order.updateAt orderId f st).2.
Proof.
  intros Hid Hw x Hx.
  rewrite (proj2 (OrderFacts.updateAt_length orderId f st)).
  apply OrderFacts.in_updateAt in Hx as [Hx | [o [Ho ->]]].
  - exact (Hw x Hx).
  - rewrite Hid. exact (Hw o Ho).
Qed.

Lemma wellNumbered_cancelledModel now orderId reason o st :
  wellNumbered st -> wellNumbered (cancelledModel now orderId reason o st).
Proof.
  intros Hw. unfold cancelledModel, Order.cancel, Order.updatePaymentStatus.
  assert (H1 : wellNumbered (Order.updateAt orderId (Order.cancelled now reason) st).2)
    by (apply wellNumbered_updateAt; [reflexivity | exact Hw]).
  destruct (_ && _); [| exact H1].
  apply wellNumbered_updateAt; [reflexivity | exact H1].
Qed.

(** The order model left by a staff update. *)
Lemma updateOrderStatus_model now orderId staffId status notes s :
  Services.orderModel (updateOrderStatus now orderId staffId status notes s).2
  = match Order.findById orderId (Services.orderModel s) with
    | Some _ =>
        (Order.updateStatus now orderId status staffId notes (Services.orderModel s)).2
    | None => Services.orderModel s
    end.
Proof.
  unfold updateOrderStatus. run.
  destruct (Order.findById orderId (Services.orderModel s)); [| reflexivity].
  destruct (Order.updateStatus _ _ _ _ _ _) as [u st']. reflexivity.
Qed.

Lemma reachable_wellNumbered s :
  reachable s -> wellNumbered (Services.orderModel s).
Proof.
  induction 1 as [| c s Hr IH Hclock]; [exact wellNumbered_init |].
  destruct c as [h now studentId req | now orderId studentId reason
                 | now orderId staffId status notes]; cbn [perform clockOf] in *.
  - destruct (createOrder h now studentId req s) as [[reply | e] s'] eqn:Hc; cbn [snd].
    + destruct (createOrder_ok_inv _ _ _ _ _ _ _ Hc)
        as [meal [student [_ [_ [_ [_ [_ [_ ->]]]]]]]].
      apply wellNumbered_create; assumption.
    + rewrite (createOrder_throw_unchanged _ _ _ _ _ _ _ Hc). exact IH.
  - destruct (cancelOrder now orderId studentId reason s) as [[reply | e] s'] eqn:Hc;
      cbn [snd].
    + destruct (cancelOrder_ok_inv _ _ _ _ _ _ _ Hc) as [o [_ [_ [_ ->]]]].
      apply wellNumbered_cancelledModel, IH.
    + rewrite (cancelOrder_throw_unchanged _ _ _ _ _ _ _ Hc). exact IH.
  - rewrite updateOrderStatus_model.
    destruct (Order.findById orderId (Services.orderModel s)); [| exact IH].
    apply wellNumbered_updateAt; [reflexivity | exact IH].
Qed.

(** In such a store the id that [Order.create] builds next is not in use. *)
Lemma wellNumbered_fresh st now :
  wellNumbered st -> 1000 <= now ->
  Order.findById (Order.newId (Order.counter st) now) st = None.
Proof.
  intros Hw Hn. apply find_None. intros o Ho.
  destruct (Hw o Ho) as [c [t [E [Hc Ht]]]].
  unfold Order.hasId. apply String.eqb_neq. rewrite E. intros Heq.
  apply (IdFacts.newId_counter_inj _ _ _ _ Ht Hn) in Heq. lia.
Qed.

(** *** The stock counter as the code computes it *)

Lemma roundInt_safe z : Js.safe z -> Js.roundInt z = Js.Fin z.
Proof.
  unfold Js.safe, Js.roundInt. intros H.
  rewrite (proj2 (Z.ltb_lt _ _) H). reflexivity.
Qed.

(** On integers in the exact range, [-=] is the subtraction of [Z]. *)
Lemma update_refines (c : Js.Coercions) (meals : gmap string Meal.t) mealId q m :
  meals !! mealId = Some m ->
  Js.safe (Meal.currentQuantity m - q) ->
  MealStock.updateAvailability c mealId (Js.Num (Js.Fin q)) (MealStock.ofMeal <$> meals)
  = MealStock.ofMeal <$> MealService.updateAvailability mealId q meals.
Proof.
  intros H Hs. unfold MealStock.updateAvailability, MealService.updateAvailability.
  rewrite lookup_fmap, H. cbn [fmap option_fmap option_map].
  rewrite fmap_insert. f_equal.
  unfold MealStock.withQuantity, MealStock.ofMeal, Js.minus, Js.numSub. cbn.
  rewrite Z.add_opp_r, (roundInt_safe _ Hs). reflexivity.
Qed.

(** On integers in the exact range, [+=] is the addition of [Z]. *)
Lemma restore_refines (c : Js.Coercions) (meals : gmap string Meal.t) mealId q m :
  meals !! mealId = Some m ->
  Js.safe (Meal.currentQuantity m + q) ->
  MealStock.restoreAvailability c mealId (Js.Num (Js.Fin q)) (MealStock.ofMeal <$> meals)
  = MealStock.ofMeal <$> MealService.restoreAvailability mealId q meals.
Proof.
  intros H Hs. unfold MealStock.restoreAvailability, MealService.restoreAvailability.
  rewrite lookup_fmap, H. cbn [fmap option_fmap option_map].
  rewrite fmap_insert. f_equal.
  unfold MealStock.withQuantity, MealStock.ofMeal, Js.plus. cbn.
  rewrite (roundInt_safe _ Hs). reflexivity.
Qed.

(** C8. For a quantity that is an integer, and a stock counter that is one
    before and after the order, all below 2^53 in magnitude: in a store
    whose order ids were handed out by [Order.create], as in every store the
    service can reach, a successful [createOrder] lowers the meal's
    currentQuantity by exactly the ordered quantity, whatever the stock (no
    lower bound is checked); cancelling the order then succeeds and raises
    the order's meal by the order's quantity, which gives back the meal
    table, hence the currentQuantity, that preceded the order. In that range
    the two steps are the [-=] and [+=] of the code on numbers. *)
Theorem create_cancel_round_trip
    (c : Js.Coercions) (h : Js.Host) (now later : Z) (studentId : string)
    (req : OrderRequest.t) (reason : option string) (s s1 : Services.t)
    (reply : Reply.t) (meal : Meal.t) :
  wellNumbered (Services.orderModel s) ->
  1000 <= now ->
  createOrder h now studentId req s = (Ok reply, s1) ->
  Services.meals s !! OrderRequest.mealId req = Some meal ->
  let qty := default 1 (OrderRequest.quantity req) in
  Js.safe (Meal.currentQuantity meal) ->
  Js.safe qty ->
  Js.safe (Meal.currentQuantity meal - qty) ->
  exists o reply' s2,
    Reply.order reply = Some o
    /\ Order.quantity o = qty
    /\ Order.mealId o = OrderRequest.mealId req
    /\ Services.meals s1 !! OrderRequest.mealId req
       = Some (Meal.withQuantity (Meal.currentQuantity meal - qty) meal)
    /\ MealStock.updateAvailability c (OrderRequest.mealId req) (Js.Num (Js.Fin qty))
         (MealStock.ofMeal <$> Services.meals s)
       = MealStock.ofMeal <$> Services.meals s1
    /\ cancelOrder later (Order.id o) studentId reason s1 = (Ok reply', s2)
    /\ Services.meals s2
       = MealService.restoreAvailability (Order.mealId o) (Order.quantity o)
           (Services.meals s1)
    /\ MealStock.restoreAvailability c (Order.mealId o)
         (Js.Num (Js.Fin (Order.quantity o))) (MealStock.ofMeal <$> Services.meals s1)
       = MealStock.ofMeal <$> Services.meals s2
    /\ Services.meals s2 = Services.meals s
    /\ Services.meals s2 !! OrderRequest.mealId req = Some meal.
Proof.
  intros Hw Hn Hc Hmeal qty Hcur Hq Hdiff.
  destruct (round_trip_when_fresh h now later studentId req reason s s1 reply Hc
              (wellNumbered_fresh _ now Hw Hn))
    as [o [meal' [reply' [s2 [Hr [Hqty [Hid [Hm [Hm1 [Hk [Hrest [Hback Hm2]]]]]]]]]]]].
  rewrite Hmeal in Hm. injection Hm as <-.
  assert (Hs1 : Services.meals s1
                = MealService.updateAvailability (OrderRequest.mealId req) qty
                    (Services.meals s)).
  { destruct (createOrder_ok_inv _ _ _ _ _ _ _ Hc)
      as [m0 [st0 [_ [_ [_ [_ [_ [_ ->]]]]]]]]. reflexivity. }
  exists o, reply', s2.
  split; [exact Hr |]. split; [exact Hqty |]. split; [exact Hid |].
  split; [exact Hm1 |].
  split; [rewrite Hs1; apply (update_refines c _ _ _ meal Hmeal Hdiff) |].
  split; [exact Hk |]. split; [exact Hrest |].
  split; [| split; [exact Hback | exact Hm2]].
  rewrite Hrest, Hid, Hqty.
  apply (restore_refines c _ _ _ _ Hm1).
  cbn [Meal.currentQuantity Meal.withQuantity]. fold qty.
  replace (Meal.currentQuantity meal - qty + qty) with (Meal.currentQuantity meal)
    by lia.
  exact Hcur.
Qed.

Lemma create_cancel_round_trip_witness :
  exists reply o reply' s2,
    createOrder Sample.host Sample.now "student123" (Sample.request 3) Services.init
    = (Ok reply, Sample.placed)
    /\ Reply.order reply = Some o
    /\ (Meal.currentQuantity <$> Services.meals Sample.placed !! "meal_001") = Some 92
    /\ cancelOrder (Sample.now + 1000) (Order.id o) "student123" None Sample.placed
       = (Ok reply', s2)
    /\ (Meal.currentQuantity <$> Services.meals s2 !! "meal_001") = Some 95
    /\ MealStock.ofMeal <$> Services.meals s2 = Sample.stock.
Proof.
  assert (Hr : exists reply,
             createOrder Sample.host Sample.now "student123" (Sample.request 3)
               Services.init = (Ok reply, Sample.placed))
    by (eexists; vm_compute; reflexivity).
  destruct Hr as [reply E].
  assert (Hm : exists meal,
             Services.meals Services.init !! "meal_001" = Some meal
             /\ Meal.currentQuantity meal = 95)
    by (eexists; split; vm_compute; reflexivity).
  destruct Hm as [meal [Hm Hcur]].
  destruct (create_cancel_round_trip Sample.coercions Sample.host Sample.now
              (Sample.now + 1000) "student123" (Sample.request 3) None
              Services.init Sample.placed reply meal
              wellNumbered_init ltac:(discriminate) E Hm)
    as [o [reply' [s2 [Hr [_ [_ [_ [_ [Hk [_ [_ [Hback _]]]]]]]]]]]].
  - rewrite Hcur. reflexivity.
  - reflexivity.
  - rewrite Hcur. reflexivity.
  - exists reply, o, reply', s2. split; [exact E |]. split; [exact Hr |].
    split; [vm_compute; reflexivity |]. split; [exact Hk |].
    rewrite Hback. split; [vm_compute; reflexivity | reflexivity].
Defined.

(** C8 as the claim words it, for every ordered quantity, fails: the
    counter is a double. An order for 2^60 meals, placed by a call of
    [createOrder] (the route's validator would refuse it), is accepted and
    stored with that quantity, which is what [createOrder] hands to
    [updateAvailability] and [cancelOrder] to [restoreAvailability]. The
    first takes the stock of 95 to 128 - 2^60, the double nearest to
    95 - 2^60, and the second brings it to 128, not back to 95. *)
Lemma round_trip_lost_in_rounding :
  Js.roundInt (2 ^ 60) = Js.Fin (2 ^ 60)
  /\ (exists reply o s1,
        createOrder Sample.host Sample.now "student123" (Sample.request (2 ^ 60))
          Services.init = (Ok reply, s1)
        /\ Reply.order reply = Some o
        /\ Order.mealId o = "meal_001"
        /\ Order.quantity o = 2 ^ 60)
  /\ (MealStock.currentQuantity <$> Sample.stock !! "meal_001")
     = Some (Js.Num (Js.Fin 95))
  /\ (MealStock.currentQuantity
        <$> MealStock.updateAvailability Sample.coercions "meal_001"
              (Js.Num (Js.Fin (2 ^ 60))) Sample.stock !! "meal_001")
     = Some (Js.Num (Js.Fin (128 - 2 ^ 60)))
  /\ (MealStock.currentQuantity
        <$> MealStock.restoreAvailability Sample.coercions "meal_001"
              (Js.Num (Js.Fin (2 ^ 60)))
              (MealStock.updateAvailability Sample.coercions "meal_001"
                 (Js.Num (Js.Fin (2 ^ 60))) Sample.stock) !! "meal_001")
     = Some (Js.Num (Js.Fin 128)).
Proof.
  split; [vm_compute; reflexivity |].
  split; [eexists _, _, _; repeat split; vm_compute; reflexivity |].
  repeat split; vm_compute; reflexivity.
Qed.

(** A quantity that arrives as the string "3", which the route's validator
    lets through, is subtracted as the number 3 and then appended as text:
    the stock of 95 becomes 92 and, on cancellation, the string "923". *)
Example restore_concatenates_a_string :
  (MealStock.currentQuantity
     <$> MealStock.updateAvailability Sample.coercions "meal_001" (Js.Str "3")
           Sample.stock !! "meal_001")
  = Some (Js.Num (Js.Fin 92))
  /\ (MealStock.currentQuantity
        <$> MealStock.restoreAvailability Sample.coercions "meal_001" (Js.Str "3")
              (MealStock.updateAvailability Sample.coercions "meal_001" (Js.Str "3")
                 Sample.stock) !! "meal_001")
     = Some (Js.Str "923").
Proof. split; vm_compute; reflexivity. Qed.

(** Nothing bounds the counter from below: an order for more than the stock
    drives it negative. *)
Example availability_goes_negative :
  (Meal.currentQuantity
     <$> Services.meals
           (createOrder Sample.host Sample.now "student123" (Sample.request 100)
              Services.init).2 !! "meal_001")
  = Some (-5).
Proof. vm_compute. reflexivity. Qed.

(** *** One active order per student and date *)

Lemma isExisting_false sid date o :
  Order.isExisting sid date o = false ->
  Order.studentId o = sid -> Order.scheduledDate o = date -> ~ active o.
Proof.
  unfold Order.isExisting, active. intros H <- <-.
  rewrite !String.eqb_refl in H. cbn in H.
  apply negb_false_iff, String.eqb_eq in H. tauto.
Qed.

Lemma uniqueActive_nil : uniqueActive [].
Proof. intros i j oi oj H. rewrite lookup_nil in H. discriminate. Qed.

Lemma uniqueActive_snoc l o :
  uniqueActive l ->
  (forall x, In x l ->
             Order.isExisting (Order.studentId o) (Order.scheduledDate o) x = false) ->
  uniqueActive (l ++ [o])%list.
Proof.
  intros Hu Hnone i j oi oj Hi Hj Hslot Hai Haj.
  assert (Hold : forall k x, (l ++ [o])%list !! k = Some x ->
                   (l !! k = Some x /\ (k < length l)%nat)
                   \/ (k = length l /\ x = o)).
  { intros k x Hk. destruct (Nat.lt_ge_cases k (length l)) as [Hlt | Hge].
    - rewrite lookup_app_l in Hk by exact Hlt. auto.
    - rewrite lookup_app_r in Hk by exact Hge.
      destruct (k - length l)%nat as [| n] eqn:E; cbn in Hk; [| discriminate].
      injection Hk as <-. right. split; [lia | reflexivity]. }
  assert (Hclash : forall k x, l !! k = Some x -> sameSlot x o -> active x -> False).
  { intros k x Hk [Hs Hd] Hx.
    apply (isExisting_false (Order.studentId o) (Order.scheduledDate o) x);
      [| exact Hs | exact Hd | exact Hx].
    apply Hnone, list_elem_of_In, list_elem_of_lookup. eauto. }
  destruct (Hold i oi Hi) as [[Hi' _] | [-> ->]],
           (Hold j oj Hj) as [[Hj' _] | [-> ->]].
  - exact (Hu i j oi oj Hi' Hj' Hslot Hai Haj).
  - destruct (Hclash i oi Hi' Hslot Hai).
  - destruct Hslot as [Hs Hd].
    destruct (Hclash j oj Hj' (conj (eq_sym Hs) (eq_sym Hd)) Haj).
  - reflexivity.
Qed.

(** Replacing an order by one of the same student and date that is active
    only if the old one was keeps the invariant. *)
Lemma uniqueActive_insert l i o o' :
  uniqueActive l -> l !! i = Some o ->
  sameSlot o o' -> (active o' -> active o) ->
  uniqueActive (<[i := o']> l).
Proof.
  intros Hu Ho [Hs Hd] Hact a b oa ob Ha Hb [Hs' Hd'] Haa Hab.
  assert (Hback : forall k x, <[i := o']> l !! k = Some x ->
                    exists y, l !! k = Some y /\ Order.studentId y = Order.studentId x
                              /\ Order.scheduledDate y = Order.scheduledDate x
                              /\ (active x -> active y)).
  { intros k x Hk. destruct (decide (i = k)) as [<- | Hne].
    - rewrite list_lookup_insert_eq in Hk by (eapply lookup_lt_Some; exact Ho).
      injection Hk as <-. exists o. auto.
    - rewrite list_lookup_insert_ne in Hk by exact Hne. exists x. auto. }
  destruct (Hback a oa Ha) as [ya [Hya [Ea [Ea' Hacta]]]].
  destruct (Hback b ob Hb) as [yb [Hyb [Eb [Eb' Hactb]]]].
  apply (Hu a b ya yb Hya Hyb); [split; congruence | auto | auto].
Qed.

Lemma uniqueActive_updateAt orderId f st :
  (forall o, sameSlot o (f o) /\ (active (f o) -> active o)) ->
  uniqueActive (Order.orders st) ->
  uniqueActive (Order.orders (Order.updateAt orderId f st).2).
Proof.
  intros Hf Hu. unfold Order.updateAt.
  destruct (Js.findIndex _ _) as [i |]; [| exact Hu].
  destruct (Order.orders st !! i) as [o |] eqn:Ho; [| exact Hu].
  cbn. destruct (Hf o). eapply uniqueActive_insert; eauto.
Qed.

Lemma uniqueActive_cancelledModel now orderId reason o st :
  uniqueActive (Order.orders st) ->
  uniqueActive (Order.orders (cancelledModel now orderId reason o st)).
Proof.
  intros Hu. unfold cancelledModel, Order.updatePaymentStatus, Order.cancel.
  assert (H1 : uniqueActive
                 (Order.orders (Order.updateAt orderId (Order.cancelled now reason) st).2)).
  { apply uniqueActive_updateAt; [| exact Hu].
    intros x. split; [split; reflexivity |]. intros Hx. exfalso. apply Hx. reflexivity. }
  destruct (_ && _); [| exact H1].
  apply uniqueActive_updateAt; [| exact H1].
  intros x. split; [split; reflexivity | auto].
Qed.

(** C2, as the code has it. [createOrder] and [cancelOrder] keep the
    invariant that at most one non-cancelled order exists per student and
    scheduled date; [createOrder] throws 409 / duplicate_order, leaving the
    store unchanged, whenever its date, meal and student checks pass and a
    non-cancelled order of that student for that date exists; cancellation
    and the staff status update add no order. *)
Theorem unique_active_kept_by_create_and_cancel (s : Services.t) :
  uniqueActive (Order.orders (Services.orderModel s)) ->
  (forall h now studentId req r s',
      createOrder h now studentId req s = (r, s') ->
      uniqueActive (Order.orders (Services.orderModel s')))
  /\ (forall now orderId studentId reason r s',
        cancelOrder now orderId studentId reason s = (r, s') ->
        uniqueActive (Order.orders (Services.orderModel s'))
        /\ length (Order.orders (Services.orderModel s'))
           = length (Order.orders (Services.orderModel s)))
  /\ (forall h now studentId req meal student existing,
        inPast h now (OrderRequest.scheduledDate req) = false ->
        Services.meals s !! OrderRequest.mealId req = Some meal ->
        Meal.available meal = true ->
        Services.students s !! studentId = Some student ->
        In existing (Order.orders (Services.orderModel s)) ->
        Order.studentId existing = studentId ->
        Order.scheduledDate existing = OrderRequest.scheduledDate req ->
        active existing ->
        createOrder h now studentId req s
        = (Throw (err "You already have an order for this date" 409 "duplicate_order"),
           s))
  /\ (forall now orderId staffId status notes r s',
        updateOrderStatus now orderId staffId status notes s = (r, s') ->
        length (Order.orders (Services.orderModel s'))
        = length (Order.orders (Services.orderModel s))).
Proof.
  intros Hu. split; [| split; [| split]].
  - intros h now studentId req [reply | e] s' Hc.
    + destruct (createOrder_ok_inv _ _ _ _ _ _ _ Hc)
        as [meal [student [_ [_ [_ [_ [He [_ ->]]]]]]]].
      cbn [afterCreate Services.orderModel]. rewrite create_pushes.
      apply uniqueActive_snoc; [exact Hu |].
      intros x Hx. exact (proj1 (find_None _ _) He x Hx).
    + rewrite (createOrder_throw_unchanged _ _ _ _ _ _ _ Hc). exact Hu.
  - intros now orderId studentId reason [reply | e] s' Hc.
    + destruct (cancelOrder_ok_inv _ _ _ _ _ _ _ Hc) as [o [_ [_ [_ ->]]]].
      cbn [afterCancel Services.orderModel].
      split; [apply uniqueActive_cancelledModel, Hu |].
      unfold cancelledModel, Order.updatePaymentStatus, Order.cancel.
      destruct (_ && _);
        rewrite ?(proj1 (OrderFacts.updateAt_length _ _ _));
        reflexivity.
    + rewrite (cancelOrder_throw_unchanged _ _ _ _ _ _ _ Hc). auto.
  - intros h now studentId req meal student existing Hd Hm Ha Hs Hin Hsid Hdate Hact.
    destruct (Order.findExistingOrder studentId (OrderRequest.scheduledDate req)
                (Services.orderModel s)) as [ex |] eqn:He.
    + exact (createOrder_duplicate h now studentId req s meal student ex Hd Hm Ha Hs He).
    + exfalso.
      pose proof (proj1 (find_None _ _) He existing Hin) as Hx.
      exact (isExisting_false _ _ _ Hx Hsid Hdate Hact).
  - intros now orderId staffId status notes r s'.
    unfold updateOrderStatus. run.
    destruct (Order.findById orderId (Services.orderModel s));
      [| intros [= _ <-]; reflexivity].
    unfold Order.updateStatus.
    pose proof (proj1 (OrderFacts.updateAt_length orderId
                         (Order.withStatus now status staffId notes)
                         (Services.orderModel s))) as Hl.
    destruct (Order.updateAt _ _ _) as [u st']. cbn in Hl |- *.
    intros [= _ <-]. exact Hl.
Qed.

Lemma unique_active_kept_by_create_and_cancel_witness :
  uniqueActive (Order.orders (Services.orderModel Services.init))
  /\ uniqueActive (Order.orders (Services.orderModel Sample.placed)).
Proof.
  split; [exact uniqueActive_nil |].
  apply (proj1 (unique_active_kept_by_create_and_cancel Services.init uniqueActive_nil)
           Sample.host Sample.now "student123" (Sample.request 3)
           (createOrder Sample.host Sample.now "student123" (Sample.request 3)
              Services.init).1).
  unfold Sample.placed. apply surjective_pairing.
Defined.

(** C2 fails as stated: every call of the run above succeeds, the status
    sent by the staff is one the validator lets through, and the store ends
    with two non-cancelled orders of student123 for 2030-01-01. *)
Lemma unique_active_broken_by_status_update :
  uniqueActive (Order.orders (Services.orderModel Services.init))
  /\ succeeded (createOrder Sample.host Sample.now "student123" (Sample.request 3)
                  Services.init) = true
  /\ succeeded (cancelOrder (Sample.now + 1000) Sample.placedId "student123" None Sample.placed)
     = true
  /\ succeeded (createOrder Sample.host (Sample.now + 2000) "student123"
                  (Sample.request 2) Sample.withdrawn) = true
  /\ Validation.validateStatusUpdate (Some "CONFIRMED") = Validation.Next
  /\ succeeded (updateOrderStatus (Sample.now + 3000) Sample.placedId "staff1" "CONFIRMED"
                  None Sample.reordered) = true
  /\ ~ uniqueActive (Order.orders (Services.orderModel Sample.reactivated)).
Proof.
  split; [exact uniqueActive_nil |].
  do 5 (split; [vm_compute; reflexivity |]).
  intros Hu.
  assert (H : exists o0 o1,
             Order.orders (Services.orderModel Sample.reactivated) !! 0%nat = Some o0
             /\ Order.orders (Services.orderModel Sample.reactivated) !! 1%nat = Some o1
             /\ Order.studentId o0 = "student123"
             /\ Order.studentId o1 = "student123"
             /\ Order.scheduledDate o0 = "2030-01-01"
             /\ Order.scheduledDate o1 = "2030-01-01"
             /\ Order.status o0 = "CONFIRMED"
             /\ Order.status o1 = "PENDING")
    by (eexists _, _; repeat split; vm_compute; reflexivity).
  destruct H as [o0 [o1 [H0 [H1 [S0 [S1 [D0 [D1 [T0 T1]]]]]]]]].
  assert (E : 0%nat = 1%nat).
  { apply (Hu 0%nat 1%nat o0 o1 H0 H1).
    - split; congruence.
    - unfold active. rewrite T0. discriminate.
    - unfold active. rewrite T1. discriminate. }
  discriminate E.
Qed.

End OrderServiceFacts.

(** ** Sorting and slicing *)

Module ArrayFacts.

Section Sorting.
Context {A : Type}.
Variable cmp : A -> A -> Z.

Lemma insertBy_perm x l : Permutation (Js.insertBy cmp x l) (x :: l).
Proof.
  induction l as [| y r IH]; cbn; [reflexivity |].
  destruct (cmp x y <=? 0); [reflexivity |].
  rewrite IH. apply perm_swap.
Qed.

Lemma sortBy_perm l : Permutation (Js.sortBy cmp l) l.
Proof.
  induction l as [| x l IH]; cbn; [reflexivity |].
  rewrite insertBy_perm. apply perm_skip, IH.
Qed.

Lemma sortBy_In x l : In x (Js.sortBy cmp l) <-> In x l.
Proof.
  split; apply Permutation_in; [| symmetry]; apply sortBy_perm.
Qed.

Lemma sortBy_length l : length (Js.sortBy cmp l) = length l.
Proof. apply Permutation_length, sortBy_perm. Qed.

(** Where the comparator is a total preorder on the elements at hand, the
    result is sorted by it. *)
Variable dom : A -> Prop.
Hypothesis total : forall a b, dom a -> dom b -> cmp a b <= 0 \/ cmp b a <= 0.
Hypothesis trans :
  forall a b c, dom a -> dom b -> dom c -> cmp a b <= 0 -> cmp b c <= 0 -> cmp a c <= 0.

Lemma insertBy_sorted x l :
  dom x -> Forall dom l ->
  StronglySorted (fun a b => cmp a b <= 0) l ->
  StronglySorted (fun a b => cmp a b <= 0) (Js.insertBy cmp x l).
Proof.
  intros Hx Hl Hs. induction Hs as [| y r Hr IH Hy]; cbn.
  - constructor; constructor.
  - apply Forall_cons_iff in Hl as [Hdy Hdr].
    destruct (Z.leb_spec (cmp x y) 0) as [Hle | Hgt].
    + constructor; [constructor; assumption |].
      constructor; [exact Hle |].
      rewrite List.Forall_forall in Hy, Hdr |- *. intros z Hz.
      apply (trans x y z); auto.
    + constructor; [apply IH, Hdr |].
      assert (Hyx : cmp y x <= 0) by (destruct (total x y Hx Hdy); [lia | assumption]).
      rewrite List.Forall_forall in Hy |- *. intros z Hz.
      apply (Permutation_in _ (insertBy_perm x r)) in Hz as [<- | Hz]; auto.
Qed.

Lemma sortBy_sorted l :
  Forall dom l -> StronglySorted (fun a b => cmp a b <= 0) (Js.sortBy cmp l).
Proof.
  induction l as [| x l IH]; intros Hl; cbn; [constructor |].
  apply Forall_cons_iff in Hl as [Hx Hl].
  apply insertBy_sorted; [exact Hx | | apply IH, Hl].
  rewrite List.Forall_forall in Hl |- *. intros z Hz. apply Hl, sortBy_In, Hz.
Qed.

End Sorting.

(** A page that starts at a non-negative offset. *)
Lemma slice_page {A : Type} (l : list A) (offset limit : Z) :
  0 <= offset -> 0 <= limit ->
  Js.slice offset (offset + limit) l
  = take (Z.to_nat limit) (drop (Z.to_nat offset) l).
Proof.
  intros Ho Hl. unfold Js.slice, Js.sliceBound.
  destruct (Z.ltb_spec offset 0); [lia |].
  destruct (Z.ltb_spec (offset + limit) 0); [lia |].
  destruct (Z_le_gt_dec (Z.of_nat (length l)) offset) as [Hbig | Hsmall].
  - rewrite (drop_ge l (Z.to_nat offset)) by lia.
    rewrite drop_ge by lia. rewrite !take_nil. reflexivity.
  - replace (Z.min offset (Z.of_nat (length l))) with offset by lia.
    destruct (Z_le_gt_dec (offset + limit) (Z.of_nat (length l))) as [Hin | Hout].
    + f_equal. lia.
    + rewrite !take_ge; [reflexivity | |]; rewrite length_drop; lia.
Qed.

Lemma length_page {A : Type} (l : list A) (offset limit : Z) :
  0 <= offset -> 0 <= limit ->
  Z.of_nat (length (Js.slice offset (offset + limit) l))
  = Z.min limit (Z.max 0 (Z.of_nat (length l) - offset)).
Proof.
  intros Ho Hl. rewrite slice_page by assumption.
  rewrite length_take, length_drop. lia.
Qed.

End ArrayFacts.

(** ** Listings of orders *)

Module QueryFacts.
Import Order QuerySpec OrderSpec.

Lemma truthyStr_Some (f : option string) :
  Js.truthyStr f = true <-> exists s, f = Some s /\ s <> "".
Proof.
  destruct f as [s |]; cbn.
  - rewrite negb_true_iff, String.eqb_neq. split; [eauto |].
    intros [x [[= <-] Hx]]. exact Hx.
  - split; [discriminate | intros [x [[=] _]]].
Qed.

Lemma studentOrders_In sid f st o :
  In o (studentOrders sid f st)
  <-> In o (orders st) /\ studentId o = sid
      /\ (forall s, f = Some s -> s <> "" -> status o = s).
Proof.
  unfold studentOrders.
  destruct (Js.truthyStr f) eqn:Hf.
  - apply truthyStr_Some in Hf as [s [-> Hs]]. cbn [from_option Datatypes.id].
    rewrite !filter_In. unfold ofStudent, inStatus.
    rewrite !String.eqb_eq. split.
    + intros [[Hin Hsid] Hst]. repeat split; try assumption.
      intros x [= <-] _. exact Hst.
    + intros [Hin [Hsid Hst]]. repeat split; auto.
  - rewrite filter_In. unfold ofStudent. rewrite String.eqb_eq. split.
    + intros [Hin Hsid]. repeat split; try assumption.
      intros s -> Hs. exfalso.
      assert (Ht : Js.truthyStr (Some s) = true) by (apply truthyStr_Some; eauto).
      rewrite Ht in Hf. discriminate.
    + intros [Hin [Hsid _]]. auto.
Qed.

Lemma sorted_take {A : Type} (R : A -> A -> Prop) (l : list A) n :
  StronglySorted R l -> StronglySorted R (take n l).
Proof.
  intros Hs. revert n. induction Hs as [| x l Hl IH Hx]; intros [| n]; cbn;
    try constructor; [apply IH |].
  rewrite List.Forall_forall in Hx |- *. intros y Hy. apply Hx.
  apply list_elem_of_In, (subseteq_take n l), list_elem_of_In, Hy.
Qed.

Lemma sorted_drop {A : Type} (R : A -> A -> Prop) (l : list A) n :
  StronglySorted R l -> StronglySorted R (drop n l).
Proof.
  intros Hs. revert n. induction Hs as [| x l Hl IH Hx]; intros [| n]; cbn;
    [constructor | constructor | constructor; assumption | apply IH].
Qed.

Lemma sorted_weaken {A : Type} (R R' : A -> A -> Prop) (l : list A) :
  (forall a b, R a b -> R' a b) -> StronglySorted R l -> StronglySorted R' l.
Proof.
  intros HR Hs. induction Hs as [| x l Hl IH Hx]; constructor; [exact IH |].
  rewrite List.Forall_forall in Hx |- *. auto.
Qed.

Lemma newestFirst_sorted l : StronglySorted notOlder (Js.sortBy newestFirst l).
Proof.
  apply (sorted_weaken (fun a b => newestFirst a b <= 0)).
  - intros a b. unfold notOlder, newestFirst. lia.
  - apply (ArrayFacts.sortBy_sorted newestFirst (fun _ => True)).
    + intros a b _ _. unfold newestFirst. lia.
    + intros a b c _ _ _. unfold newestFirst. lia.
    + apply List.Forall_forall. auto.
Qed.

Lemma findByStudent_length sid f limit offset st :
  0 <= offset -> 0 <= limit ->
  Z.of_nat (length (findByStudent sid f limit offset st))
  = Z.min limit (Z.max 0 (Z.of_nat (countByStudent sid f st) - offset)).
Proof.
  intros Ho Hl. unfold findByStudent, countByStudent.
  rewrite ArrayFacts.length_page by assumption.
  rewrite ArrayFacts.sortBy_length. reflexivity.
Qed.

(** X1. A page of a student's orders, asked for with a non-negative offset
    and limit, holds [min(limit, max(0, count - offset))] orders, where count
    is what [countByStudent] returns for the same filter; each of them is a
    stored order of that student, in the requested status when a status is
    given; and the page shows newer orders before older ones. *)
Theorem findByStudent_page
    (sid : string) (f : option string) (limit offset : Z) (st : state) :
  0 <= offset -> 0 <= limit ->
  let page := findByStudent sid f limit offset st in
  Z.of_nat (length page)
  = Z.min limit (Z.max 0 (Z.of_nat (countByStudent sid f st) - offset))
  /\ (forall o, In o page ->
                In o (orders st) /\ studentId o = sid
                /\ (forall s, f = Some s -> s <> "" -> status o = s))
  /\ StronglySorted notOlder page.
Proof.
  intros Ho Hl page. unfold page, findByStudent, countByStudent.
  split; [| split].
  - apply findByStudent_length; assumption.
  - intros o Hin. apply studentOrders_In.
    apply (ArrayFacts.sortBy_In newestFirst).
    rewrite ArrayFacts.slice_page in Hin by assumption.
    apply list_elem_of_In in Hin. apply list_elem_of_In.
    apply (subseteq_drop (Z.to_nat offset)), (subseteq_take (Z.to_nat limit)), Hin.
  - rewrite ArrayFacts.slice_page by assumption.
    apply sorted_take, sorted_drop, newestFirst_sorted.
Qed.

(** Of the two orders of student123 in [Sample.reactivated], the page of one
    order at offset 1 holds one. *)
Lemma findByStudent_page_witness :
  Z.of_nat (length (findByStudent "student123" None 1 1
                      (Services.orderModel Sample.reactivated)))
  = Z.min 1 (Z.max 0 (Z.of_nat (countByStudent "student123" None
                                   (Services.orderModel Sample.reactivated)) - 1))
  /\ countByStudent "student123" None (Services.orderModel Sample.reactivated) = 2%nat.
Proof.
  split; [| vm_compute; reflexivity].
  exact (proj1 (findByStudent_page "student123" None 1 1
                  (Services.orderModel Sample.reactivated)
                  ltac:(discriminate) ltac:(discriminate))).
Defined.

Lemma getOrdersByStudent_run sid f limit offset s :
  OrderService.getOrdersByStudent sid f limit offset s
  = (Ok {| OrdersPage.success := true;
           OrdersPage.orders :=
             findByStudent sid f (default 20 limit) (default 0 offset)
               (Services.orderModel s);
           OrdersPage.total := countByStudent sid f (Services.orderModel s);
           OrdersPage.limit := default 20 limit;
           OrdersPage.offset := default 0 offset |}, s).
Proof. reflexivity. Qed.

(** X2. [getOrdersByStudent] always answers and leaves the store alone; the
    total it reports is the number of all matching orders, whatever page is
    asked for and 20 orders at most when no limit is given; the page of [k]
    orders from the start followed by the page of [m] orders at offset [k] is
    the page of [k + m] orders from the start; and once [k] reaches the
    total, the first page is a rearrangement of all the matching orders and
    the page after it is empty. *)
Theorem getOrdersByStudent_pagination
    (sid : string) (f : option string) (k m : Z) (s : Services.t) :
  0 <= k -> 0 <= m ->
  let get := fun limit offset => OrderService.getOrdersByStudent sid f limit offset s in
  let total := countByStudent sid f (Services.orderModel s) in
  (forall limit offset,
      exists page, get limit offset = (Ok page, s)
                   /\ OrdersPage.total page = total)
  /\ (length (listed (get None None)) <= 20)%nat
  /\ (listed (get (Some k) (Some 0)) ++ listed (get (Some m) (Some k)))%list
     = listed (get (Some (k + m)) (Some 0))
  /\ (Z.of_nat total <= k ->
      Permutation (listed (get (Some k) (Some 0)))
        (studentOrders sid f (Services.orderModel s))
      /\ listed (get (Some m) (Some k)) = []).
Proof.
  intros Hk Hm get total. unfold get, listed.
  split; [| split; [| split]].
  - intros limit offset. rewrite getOrdersByStudent_run. eauto.
  - rewrite getOrdersByStudent_run. cbn [fst OrdersPage.orders from_option Datatypes.id].
    pose proof (findByStudent_length sid f 20 0 (Services.orderModel s)
                  ltac:(lia) ltac:(lia)) as Hlen.
    lia.
  - rewrite !getOrdersByStudent_run. cbn [fst OrdersPage.orders from_option Datatypes.id].
    unfold findByStudent.
    rewrite !ArrayFacts.slice_page by lia.
    rewrite Z2Nat.inj_add by assumption.
    change (Z.to_nat 0) with 0%nat. rewrite !drop_0.
    apply take_take_drop.
  - intros Htot. rewrite !getOrdersByStudent_run.
    cbn [fst OrdersPage.orders from_option Datatypes.id]. unfold findByStudent.
    rewrite !ArrayFacts.slice_page by lia.
    change (Z.to_nat 0) with 0%nat. rewrite drop_0.
    assert (Hlen : (length (Js.sortBy newestFirst
                              (studentOrders sid f (Services.orderModel s)))
                    <= Z.to_nat k)%nat)
      by (rewrite ArrayFacts.sortBy_length; unfold total, countByStudent in Htot; lia).
    split.
    + rewrite take_ge by exact Hlen. apply ArrayFacts.sortBy_perm.
    + rewrite drop_ge by exact Hlen. apply take_nil.
Qed.

Lemma getOrdersByStudent_pagination_witness :
  (listed (OrderService.getOrdersByStudent "student123" None (Some 1) (Some 0)
             Sample.reactivated)
   ++ listed (OrderService.getOrdersByStudent "student123" None (Some 1) (Some 1)
                Sample.reactivated))%list
  = listed (OrderService.getOrdersByStudent "student123" None (Some 2) (Some 0)
              Sample.reactivated)
  /\ map id (listed (OrderService.getOrdersByStudent "student123" None (Some 2)
                       (Some 0) Sample.reactivated))
     = ["ORD10012123"; "ORD10000123"].
Proof.
  split; [| vm_compute; reflexivity].
  exact (proj1 (proj2 (proj2 (getOrdersByStudent_pagination "student123" None 1 1
                                Sample.reactivated
                                ltac:(discriminate) ltac:(discriminate))))).
Defined.

(** *** Orders are never deleted *)

Lemma filter_insert_same {A : Type} (p : A -> bool) (l : list A) i o o' :
  l !! i = Some o -> p o' = p o ->
  length (List.filter p (<[i := o']> l)) = length (List.filter p l).
Proof.
  revert i. induction l as [| a l IH]; intros [| i] Hi Hp; try discriminate.
  - cbn in Hi. injection Hi as ->. cbn. rewrite Hp. destruct (p o); reflexivity.
  - cbn in Hi. specialize (IH i Hi Hp).
    change (<[S i := o']> (a :: l)) with (a :: <[i := o']> l).
    cbn [List.filter]. destruct (p a); cbn [length]; rewrite IH; reflexivity.
Qed.

Lemma count_updateAt sid orderId f st :
  (forall o, studentId (f o) = studentId o) ->
  countByStudent sid None (updateAt orderId f st).2 = countByStudent sid None st.
Proof.
  intros Hf. unfold countByStudent, studentOrders, updateAt. cbn [Js.truthyStr].
  destruct (Js.findIndex _ _) as [i |]; [| reflexivity].
  destruct (orders st !! i) as [o |] eqn:Ho; [| reflexivity].
  cbn [snd orders]. apply (filter_insert_same _ _ _ o); [exact Ho |].
  unfold ofStudent. rewrite Hf. reflexivity.
Qed.

Lemma count_cancelledModel sid now orderId reason o st :
  countByStudent sid None (cancelledModel now orderId reason o st)
  = countByStudent sid None st.
Proof.
  unfold cancelledModel, cancel, updatePaymentStatus.
  destruct (_ && _); rewrite ?count_updateAt by reflexivity; reflexivity.
Qed.

Lemma count_create sid now d st :
  countByStudent sid None (create now d st).2
  = (countByStudent sid None st
     + if String.eqb (OrderData.studentId d) sid then 1 else 0)%nat.
Proof.
  unfold countByStudent, studentOrders. cbn [Js.truthyStr].
  rewrite create_pushes, List.filter_app, length_app. f_equal.
  cbn [List.filter]. unfold ofStudent at 1. cbn [create fst studentId].
  destruct (String.eqb _ _); reflexivity.
Qed.

(** X3. No call of the order service removes an order: whatever the call, the
    number of stored orders of a student stays the same, except that it grows
    by one when the call is a [createOrder] of that student which
    succeeds. *)
Theorem orders_never_deleted (c : call) (s : Services.t) (sid : string) :
  let before := countByStudent sid None (Services.orderModel s) in
  let after := countByStudent sid None (Services.orderModel (perform c s).2) in
  (after = before \/ after = S before)
  /\ (after = S before
      <-> succeeded (perform c s) = true
          /\ exists h now req, c = CreateOrder h now sid req).
Proof.
  cbn zeta.
  destruct c as [h now studentId req | now orderId studentId reason
                 | now orderId staffId status notes]; cbn [perform].
  - destruct (OrderService.createOrder h now studentId req s) as [[reply | e] s'] eqn:Hc;
      cbn [snd succeeded].
    + destruct (OrderServiceFacts.createOrder_ok_inv _ _ _ _ _ _ _ Hc)
        as [meal [student [_ [_ [_ [_ [_ [_ ->]]]]]]]].
      cbn [afterCreate Services.orderModel]. rewrite count_create.
      cbn [OrderService.orderData_processed OrderData.studentId].
      destruct (String.eqb_spec studentId sid) as [-> | Hne].
      * split; [right; lia |]. split; [eauto 6 | lia].
      * split; [left; lia |]. split; [lia |].
        intros [_ [h' [now' [req' [= _ _ E _]]]]]. contradiction.
    + rewrite (OrderServiceFacts.createOrder_throw_unchanged _ _ _ _ _ _ _ Hc).
      split; [left; reflexivity |]. split; [lia | intros [[=] _]].
  - assert (E : countByStudent sid None
                  (Services.orderModel
                     (OrderService.cancelOrder now orderId studentId reason s).2)
                = countByStudent sid None (Services.orderModel s)).
    { destruct (OrderService.cancelOrder now orderId studentId reason s)
        as [[reply | e] s'] eqn:Hc; cbn [snd].
      - destruct (OrderServiceFacts.cancelOrder_ok_inv _ _ _ _ _ _ _ Hc)
          as [o [_ [_ [_ ->]]]].
        apply count_cancelledModel.
      - rewrite (OrderServiceFacts.cancelOrder_throw_unchanged _ _ _ _ _ _ _ Hc).
        reflexivity. }
    rewrite E. split; [left; reflexivity |].
    split; [lia | intros [_ [h [now' [req [=]]]]]].
  - rewrite OrderServiceFacts.updateOrderStatus_model.
    assert (E : countByStudent sid None
                  match findById orderId (Services.orderModel s) with
                  | Some _ =>
                      (updateStatus now orderId status staffId notes
                         (Services.orderModel s)).2
                  | None => Services.orderModel s
                  end
                = countByStudent sid None (Services.orderModel s)).
    { destruct (findById orderId (Services.orderModel s)); [| reflexivity].
      apply count_updateAt. reflexivity. }
    rewrite E. split; [left; reflexivity |].
    split; [lia | intros [_ [h [now' [req [=]]]]]].
Qed.

(** *** The staff listing *)

Lemma isPending_spec o :
  isPending o = true <-> status o = "PENDING" \/ status o = "CONFIRMED".
Proof. apply OrderServiceFacts.includes_cancellable. Qed.

Lemma pendingOrders_In date st o :
  In o (pendingOrders date st)
  <-> In o (orders st)
      /\ (status o = "PENDING" \/ status o = "CONFIRMED")
      /\ (forall d, date = Some d -> d <> "" -> scheduledDate o = d).
Proof.
  unfold pendingOrders.
  destruct (Js.truthyStr date) eqn:Hd.
  - apply truthyStr_Some in Hd as [d [-> Hd]]. cbn [from_option Datatypes.id].
    rewrite !filter_In, isPending_spec. unfold onDate. rewrite String.eqb_eq.
    split.
    + intros [[Hin Hp] Ho]. repeat split; try assumption.
      intros x [= <-] _. exact Ho.
    + intros [Hin [Hp Ho]]. repeat split; auto.
  - rewrite filter_In, isPending_spec. split.
    + intros [Hin Hp]. repeat split; try assumption.
      intros d -> Hne. exfalso.
      assert (Ht : Js.truthyStr (Some d) = true) by (apply truthyStr_Some; eauto).
      rewrite Ht in Hd. discriminate.
    + intros [Hin [Hp _]]. auto.
Qed.

(** X4. The staff listing holds exactly the stored orders that are PENDING
    or CONFIRMED, and scheduled for the given date when one is given: it is a
    rearrangement of them, with no order lost, added or repeated, whatever
    the dates parse to. *)
Theorem findPendingOrders_members
    (h : Js.Host) (date : option string) (st : state) :
  Permutation (findPendingOrders h date st) (pendingOrders date st)
  /\ length (findPendingOrders h date st) = length (pendingOrders date st)
  /\ (forall o,
        In o (findPendingOrders h date st)
        <-> In o (orders st)
            /\ (status o = "PENDING" \/ status o = "CONFIRMED")
            /\ (forall d, date = Some d -> d <> "" -> scheduledDate o = d)).
Proof.
  unfold findPendingOrders. split; [apply ArrayFacts.sortBy_perm |].
  split; [apply ArrayFacts.sortBy_length |].
  intros o. rewrite ArrayFacts.sortBy_In. apply pendingOrders_In.
Qed.

(** X5. When the scheduled date of every stored order parses, the staff
    listing is sorted: an order stands before another only if its scheduled
    date is earlier, or the dates are the same instant and it was not placed
    later. *)
Theorem findPendingOrders_sorted
    (h : Js.Host) (date : option string) (st : state) :
  (forall o, In o (orders st) ->
             exists x, Js.dateParse h (scheduledDate o) = Some x) ->
  StronglySorted (dueBefore h) (findPendingOrders h date st).
Proof.
  intros Hparse. unfold findPendingOrders.
  set (dom := fun o : t => exists x, Js.dateParse h (scheduledDate o) = Some x).
  assert (Hcmp : forall a b, dom a -> dom b ->
                             (byDateThenOrder h a b <= 0 <-> dueBefore h a b)).
  { intros a b [x Hx] [y Hy]. unfold byDateThenOrder, dueBefore. rewrite Hx, Hy.
    destruct (Z.eqb_spec (x - y) 0) as [E | E]; cbn [negb]; split.
    - intros Hle. exists x, y. repeat split; try reflexivity. right. lia.
    - intros [x' [y' [[= <-] [[= <-] Hor]]]]. lia.
    - intros Hle. exists x, y. repeat split; try reflexivity. left. lia.
    - intros [x' [y' [[= <-] [[= <-] Hor]]]]. lia. }
  assert (Hdom : Forall dom (pendingOrders date st)).
  { apply List.Forall_forall. intros o Ho. apply Hparse.
    apply pendingOrders_In in Ho. tauto. }
  assert (Hsorted : StronglySorted (fun a b => byDateThenOrder h a b <= 0)
                      (Js.sortBy (byDateThenOrder h) (pendingOrders date st))).
  { apply (ArrayFacts.sortBy_sorted (byDateThenOrder h) dom); [| | exact Hdom].
    - intros a b [x Hx] [y Hy]. unfold byDateThenOrder. rewrite Hx, Hy.
      destruct (Z.eqb_spec (x - y) 0), (Z.eqb_spec (y - x) 0); cbn [negb]; lia.
    - intros a b c [x Hx] [y Hy] [z Hz]. unfold byDateThenOrder.
      rewrite Hx, Hy, Hz.
      destruct (Z.eqb_spec (x - y) 0), (Z.eqb_spec (y - z) 0), (Z.eqb_spec (x - z) 0);
        cbn [negb]; lia. }
  assert (Hall : Forall dom (Js.sortBy (byDateThenOrder h) (pendingOrders date st))).
  { rewrite List.Forall_forall in Hdom |- *. intros o Ho.
    apply Hdom, (ArrayFacts.sortBy_In (byDateThenOrder h)), Ho. }
  revert Hall. induction Hsorted as [| a l Hl IH Ha]; intros Hall; constructor.
  - apply IH. apply Forall_cons_iff in Hall. tauto.
  - apply Forall_cons_iff in Hall as [Hda Hdl].
    rewrite List.Forall_forall in Ha, Hdl |- *. intros b Hb.
    apply Hcmp; auto.
Qed.

Lemma findPendingOrders_sorted_witness :
  StronglySorted (dueBefore Sample.host)
    (findPendingOrders Sample.host None (Services.orderModel Sample.reactivated))
  /\ length (findPendingOrders Sample.host None
               (Services.orderModel Sample.reactivated)) = 2%nat.
Proof.
  split; [| vm_compute; reflexivity].
  apply findPendingOrders_sorted.
  intros o Ho. exists 1893456000000.
  assert (Hall : Forall (fun o => Js.dateParse Sample.host (scheduledDate o)
                                  = Some 1893456000000)
                   (orders (Services.orderModel Sample.reactivated)))
    by (vm_compute; repeat constructor).
  rewrite List.Forall_forall in Hall. exact (Hall o Ho).
Defined.

Lemma scheduledOn_snoc d l o :
  scheduledOn d (l ++ [o])
  = (scheduledOn d l + if onDate d o then 1 else 0)%nat.
Proof.
  unfold scheduledOn. rewrite List.filter_app, length_app. cbn [List.filter].
  destruct (onDate d o); reflexivity.
Qed.

(** The tally of a list of orders, started from the empty object. *)
Lemma tally_fold (l : list t) (d : string) :
  fold_left OrderService.tally l ∅ !! d = tallied (scheduledOn d l) d.
Proof.
  induction l as [| o l IH] using rev_ind.
  - cbn. unfold tallied. rewrite lookup_empty.
    destruct (String.eqb d "__proto__"); reflexivity.
  - rewrite fold_left_app, scheduledOn_snoc. cbn [fold_left].
    set (acc := fold_left OrderService.tally l ∅) in *.
    unfold onDate. destruct (String.eqb_spec (scheduledDate o) d) as [E | Hne].
    + unfold OrderService.tally. rewrite E.
      pose proof IH as IH'. unfold tallied in IH'. unfold tallied.
      destruct (String.eqb d "__proto__") eqn:Hp.
      * rewrite IH'. exact IH'.
      * destruct (scheduledOn d l) as [| n] eqn:Hn; cbn [Nat.eqb Nat.add] in *.
        -- rewrite IH'.
           destruct (Js.inherited d); rewrite lookup_insert_eq; reflexivity.
        -- replace (S (n + 1) =? 0)%nat with false by reflexivity.
           destruct (Js.inherited d); rewrite IH', lookup_insert_eq;
             [reflexivity |].
           do 2 f_equal. lia.
    + rewrite Nat.add_0_r, <- IH. unfold OrderService.tally.
      destruct (acc !! scheduledDate o) as [[n |] |];
        rewrite ?lookup_insert_ne by exact Hne; try reflexivity.
      destruct (String.eqb _ "__proto__"); [reflexivity |].
      destruct (Js.inherited _); rewrite lookup_insert_ne by exact Hne; reflexivity.
Qed.

(** X6. The staff report always answers and leaves the store alone; its
    total is the number of listed orders. Its per-date table is a plain
    object: under a date that no property of [Object.prototype] is named
    after, it holds the number of listed orders scheduled for that date, and
    nothing when there is none; under the name of an inherited property that
    some listed order has for its date it holds a text instead of a count,
    and under [__proto__] nothing at all. *)
Theorem getPendingOrdersForStaff_summary
    (h : Js.Host) (date : option string) (s : Services.t) :
  exists report,
    OrderService.getPendingOrdersForStaff h date s = (Ok report, s)
    /\ PendingReport.orders report
       = findPendingOrders h date (Services.orderModel s)
    /\ PendingReport.total report = length (PendingReport.orders report)
    /\ (forall d,
          PendingReport.byDate report !! d
          = tallied (scheduledOn d (PendingReport.orders report)) d)
    /\ (forall d,
          Js.inherited d = false ->
          PendingReport.byDate report !! d
          = match scheduledOn d (PendingReport.orders report) with
            | O => None
            | S n => Some (PendingReport.Count (Z.of_nat (S n)))
            end).
Proof.
  eexists. split; [reflexivity |]. cbn [PendingReport.orders PendingReport.total
                                        PendingReport.byDate].
  split; [reflexivity |]. split; [reflexivity |].
  split; intros d; [apply tally_fold |].
  intros Hd. rewrite tally_fold. unfold tallied. rewrite Hd.
  destruct (String.eqb_spec d "__proto__") as [-> | _]; [discriminate Hd |].
  destruct (scheduledOn d _); reflexivity.
Qed.

Lemma getPendingOrdersForStaff_summary_witness :
  exists report,
    OrderService.getPendingOrdersForStaff Sample.host None Sample.placed
    = (Ok report, Sample.placed)
    /\ PendingReport.byDate report !! "2030-01-01" = Some (PendingReport.Count 1).
Proof.
  destruct (getPendingOrdersForStaff_summary Sample.host None Sample.placed)
    as [report [Hr [Ho [_ [_ Hd]]]]].
  exists report. split; [exact Hr |].
  rewrite (Hd "2030-01-01" eq_refl), Ho. vm_compute. reflexivity.
Defined.

End QueryFacts.

(** ** The order lifecycle as a whole *)

Module LifecycleFacts.
Import OrderService OrderSpec LifecycleSpec OrderServiceFacts.

(** An update that keeps ids leaves the order where [findById] finds it. *)
Lemma findById_updateAt orderId f st o :
  Order.findById orderId st = Some o ->
  Order.id (f o) = Order.id o ->
  Order.findById orderId (Order.updateAt orderId f st).2 = Some (f o).
Proof.
  intros Hf Hid.
  destruct (OrderFacts.updateAt_found orderId f st o Hf) as [i [Hi [Hlt ->]]].
  cbn [snd]. apply OrderFacts.findById_updated; [exact Hi | exact Hlt |].
  unfold Order.hasId. rewrite Hid.
  apply find_Some in Hf as [_ Hf]. exact Hf.
Qed.

Lemma findById_cancelledModel now orderId reason o st :
  Order.findById orderId st = Some o ->
  Order.findById orderId (cancelledModel now orderId reason o st)
  = Some (settled now reason o).
Proof.
  intros Hf. unfold cancelledModel, settled, Order.cancel, Order.updatePaymentStatus.
  pose proof (findById_updateAt orderId (Order.cancelled now reason) st o Hf eq_refl)
    as H1.
  destruct (_ && _); [| exact H1].
  exact (findById_updateAt orderId
           (fun o => Order.withPayment now (Order.paymentId o) "REFUNDED" o) _ _
           H1 eq_refl).
Qed.

(** X7. A cancelled order cannot be cancelled again: after a successful
    [cancelOrder] the order is stored as CANCELLED under the same id, and a
    further [cancelOrder] of it by the same student throws
    400 / cannot_cancel and changes nothing, so the stock is given back only
    once. *)
Theorem cancelOrder_only_once
    (now later : Z) (orderId studentId : string) (reason reason' : option string)
    (s s1 : Services.t) (reply : Reply.t) :
  cancelOrder now orderId studentId reason s = (Ok reply, s1) ->
  (exists o', Order.findById orderId (Services.orderModel s1) = Some o'
              /\ Order.status o' = "CANCELLED"
              /\ Order.cancelledAt o' = Some now
              /\ Order.cancellationReason o' = reason)
  /\ cancelOrder later orderId studentId reason' s1
     = (Throw (err "Order cannot be cancelled at this stage" 400 "cannot_cancel"), s1).
Proof.
  intros Hc.
  destruct (cancelOrder_ok_inv _ _ _ _ _ _ _ Hc) as [o [Hf [Ho [_ ->]]]].
  assert (Hf' : Order.findById orderId
                  (Services.orderModel (afterCancel now orderId reason o s))
                = Some (settled now reason o))
    by (apply findById_cancelledModel, Hf).
  assert (Hst : Order.status (settled now reason o) = "CANCELLED"
                /\ Order.cancelledAt (settled now reason o) = Some now
                /\ Order.cancellationReason (settled now reason o) = reason
                /\ Order.studentId (settled now reason o) = studentId).
  { unfold settled. destruct (_ && _); repeat split; assumption. }
  destruct Hst as [Hs [Hat [Hre Hsid]]].
  split; [exists (settled now reason o); auto |].
  apply (cancelOrder_cannot_cancel later orderId studentId reason' _ _ Hf' Hsid).
  rewrite Hs. reflexivity.
Qed.

Lemma cancelOrder_only_once_witness :
  exists reply,
    cancelOrder (Sample.now + 1000) Sample.placedId "student123" None Sample.placed
    = (Ok reply, Sample.withdrawn)
    /\ cancelOrder (Sample.now + 5000) Sample.placedId "student123" None
         Sample.withdrawn
       = (Throw (err "Order cannot be cancelled at this stage" 400 "cannot_cancel"),
          Sample.withdrawn).
Proof.
  assert (Hr : exists reply,
             cancelOrder (Sample.now + 1000) Sample.placedId "student123" None
               Sample.placed = (Ok reply, Sample.withdrawn))
    by (eexists; vm_compute; reflexivity).
  destruct Hr as [reply E]. exists reply. split; [exact E |].
  exact (proj2 (cancelOrder_only_once (Sample.now + 1000) (Sample.now + 5000)
                  Sample.placedId "student123" None None Sample.placed
                  Sample.withdrawn reply E)).
Defined.



(** X9. Right after a [createOrder] has succeeded for a student and a date, a
    second [createOrder] of that student for that date, made on the store
    that the first one left, does not succeed, whatever its meal, quantity
    or clock: it throws and changes nothing, and the error is
    409 / duplicate_order as soon as the date is not in the past and the
    requested meal is available. (Once the order has been cancelled the date
    is open again.) *)
Theorem createOrder_twice
    (h h' : Js.Host) (now later : Z) (studentId : string)
    (req req' : OrderRequest.t) (s s1 : Services.t) (reply : Reply.t) :
  createOrder h now studentId req s = (Ok reply, s1) ->
  OrderRequest.scheduledDate req' = OrderRequest.scheduledDate req ->
  (exists e, createOrder h' later studentId req' s1 = (Throw e, s1))
  /\ (forall meal,
        inPast h' later (OrderRequest.scheduledDate req') = false ->
        Services.meals s1 !! OrderRequest.mealId req' = Some meal ->
        Meal.available meal = true ->
        createOrder h' later studentId req' s1
        = (Throw (err "You already have an order for this date" 409 "duplicate_order"),
           s1)).
Proof.
  intros Hc Hdate.
  destruct (createOrder_ok_inv _ _ _ _ _ _ _ Hc)
    as [meal0 [student [_ [_ [_ [Hs [He [_ ->]]]]]]]].
  set (d := orderData_processed studentId req meal0 student).
  assert (Hex : Order.findExistingOrder studentId (OrderRequest.scheduledDate req')
                  (Services.orderModel (afterCreate now studentId req meal0 student s))
                = Some (Order.create now d (Services.orderModel s)).1).
  { rewrite Hdate. unfold Order.findExistingOrder in *.
    cbn [afterCreate Services.orderModel]. rewrite create_pushes.
    rewrite (find_app_None _ _ _ He). unfold Order.isExisting.
    cbn [Order.create fst Order.studentId Order.scheduledDate Order.status].
    cbn [d orderData_processed OrderData.studentId OrderData.scheduledDate].
    rewrite !String.eqb_refl. reflexivity. }
  split.
  - destruct (createOrder h' later studentId req'
                (afterCreate now studentId req meal0 student s))
      as [[reply' | e] s2] eqn:Hc2.
    + destruct (createOrder_ok_inv _ _ _ _ _ _ _ Hc2)
        as [m [st [_ [_ [_ [_ [Hnone _]]]]]]].
      rewrite Hex in Hnone. discriminate.
    + rewrite (createOrder_throw_unchanged _ _ _ _ _ _ _ Hc2). eauto.
  - intros meal Hd Hm Ha.
    exact (createOrder_duplicate h' later studentId req' _ meal student _
             Hd Hm Ha Hs Hex).
Qed.

Lemma createOrder_twice_witness :
  exists reply,
    createOrder Sample.host Sample.now "student123" (Sample.request 3) Services.init
    = (Ok reply, Sample.placed)
    /\ createOrder Sample.host (Sample.now + 1000) "student123" (Sample.request 1)
         Sample.placed
       = (Throw (err "You already have an order for this date" 409 "duplicate_order"),
          Sample.placed).
Proof.
  assert (Hr : exists reply,
             createOrder Sample.host Sample.now "student123" (Sample.request 3)
               Services.init = (Ok reply, Sample.placed))
    by (eexists; vm_compute; reflexivity).
  destruct Hr as [reply E]. exists reply. split; [exact E |].
  assert (Hm : exists meal,
             Services.meals Sample.placed !! "meal_001" = Some meal
             /\ Meal.available meal = true)
    by (eexists; split; vm_compute; reflexivity).
  destruct Hm as [meal [Hm Ha]].
  exact (proj2 (createOrder_twice Sample.host Sample.host Sample.now
                  (Sample.now + 1000) "student123" (Sample.request 3)
                  (Sample.request 1) Services.init Sample.placed reply E eq_refl)
           meal eq_refl Hm Ha).
Defined.

(** X10. The errors of [createOrder] and their precedence, for a request
    whose fields are strings and a student id that is not the name of a
    property every object inherits (under such a name the lookup in the
    student table finds the inherited property, not a student): a call that
    throws leaves the store as it was, and the error tells which check
    failed first, in the order date (400 / invalid_date), meal missing or
    unavailable (404 / meal_not_available), student not in the table
    (401 / student_not_found), active order for the date
    (409 / duplicate_order). *)
Theorem createOrder_error_precedence
    (h : Js.Host) (now : Z) (studentId : string) (req : OrderRequest.t)
    (s s' : Services.t) (e : Error.t) :
  Js.inherited studentId = false ->
  createOrder h now studentId req s = (Throw e, s') ->
  let date := OrderRequest.scheduledDate req in
  let meal := Services.meals s !! OrderRequest.mealId req in
  let usable := exists m, meal = Some m /\ Meal.available m = true in
  s' = s
  /\ ((inPast h now date = true
       /\ e = err "Cannot order meals for past dates" 400 "invalid_date")
      \/ (inPast h now date = false /\ ~ usable
          /\ e = err "Selected meal is not available" 404 "meal_not_available")
      \/ (inPast h now date = false /\ usable
          /\ Services.students s !! studentId = None
          /\ e = err "Student not found in system" 401 "student_not_found")
      \/ (inPast h now date = false /\ usable
          /\ is_Some (Services.students s !! studentId)
          /\ is_Some (Order.findExistingOrder studentId date (Services.orderModel s))
          /\ e = err "You already have an order for this date" 409 "duplicate_order")).
Proof.
  intros _ Hc. cbn zeta.
  split; [exact (createOrder_throw_unchanged _ _ _ _ _ _ _ Hc) |].
  revert Hc. unfold inPast, createOrder. run.
  unfold MealService.getMealById, StudentService.getStudentById.
  destruct (Js.dateLt _ _); [intros [= <- _]; auto |].
  destruct (Services.meals s !! OrderRequest.mealId req) as [meal |].
  2:{ intros [= <- _]. right; left. repeat split.
      intros [m [[=] _]]. }
  destruct (Meal.available meal) eqn:Ha; cbn [negb].
  2:{ intros [= <- _]. right; left. repeat split.
      intros [m [[= <-] Hm]]. rewrite Ha in Hm. discriminate. }
  destruct (Services.students s !! studentId) as [student |].
  2:{ intros [= <- _]. right; right; left. repeat split. eauto. }
  destruct (Order.findExistingOrder _ _ _) as [ex |]; [| discriminate].
  intros [= <- _]. right; right; right. repeat split; eauto.
Qed.

(** [Sample.lostRequest] has a past date and an unknown meal: the date error
    is the one thrown. *)
Lemma createOrder_error_precedence_witness :
  exists e s',
    createOrder Sample.host Sample.now "student123" Sample.lostRequest Services.init
    = (Throw e, s')
    /\ Error.code e = "invalid_date"
    /\ Services.meals Services.init !! OrderRequest.mealId Sample.lostRequest = None
    /\ s' = Services.init.
Proof.
  assert (E : createOrder Sample.host Sample.now "student123" Sample.lostRequest
                Services.init
              = (Throw (err "Cannot order meals for past dates" 400 "invalid_date"),
                 Services.init)) by (vm_compute; reflexivity).
  eexists _, _. split; [exact E |]. split; [reflexivity |].
  split; [vm_compute; reflexivity |].
  exact (proj1 (createOrder_error_precedence Sample.host Sample.now "student123"
                  Sample.lostRequest Services.init Services.init _ eq_refl E)).
Defined.

(** *** What holds in every store the service can reach *)

(** The store after a call: unchanged, or as left by a successful creation,
    cancellation or staff update. *)
Lemma perform_cases (c : call) (s : Services.t) :
  (perform c s).2 = s
  \/ (exists now studentId req meal student,
        Services.meals s !! OrderRequest.mealId req = Some meal
        /\ (perform c s).2 = afterCreate now studentId req meal student s)
  \/ (exists now orderId reason o,
        Order.findById orderId (Services.orderModel s) = Some o
        /\ (perform c s).2 = afterCancel now orderId reason o s)
  \/ (exists now orderId status staffId notes o,
        Order.findById orderId (Services.orderModel s) = Some o
        /\ (perform c s).2
           = {| Services.orderModel :=
                  (Order.updateAt orderId (Order.withStatus now status staffId notes)
                     (Services.orderModel s)).2;
                Services.meals := Services.meals s;
                Services.students := Services.students s |}).
Proof.
  destruct c as [h now studentId req | now orderId studentId reason
                 | now orderId staffId status notes]; cbn [perform].
  - destruct (createOrder h now studentId req s) as [[reply | e] s'] eqn:Hc; cbn [snd].
    + destruct (createOrder_ok_inv _ _ _ _ _ _ _ Hc)
        as [meal [student [_ [Hm [_ [_ [_ [_ ->]]]]]]]].
      right; left. eauto 8.
    + left. exact (createOrder_throw_unchanged _ _ _ _ _ _ _ Hc).
  - destruct (cancelOrder now orderId studentId reason s) as [[reply | e] s'] eqn:Hc;
      cbn [snd].
    + destruct (cancelOrder_ok_inv _ _ _ _ _ _ _ Hc) as [o [Hf [_ [_ ->]]]].
      right; right; left. eauto 8.
    + left. exact (cancelOrder_throw_unchanged _ _ _ _ _ _ _ Hc).
  - unfold updateOrderStatus. run.
    destruct (Order.findById orderId (Services.orderModel s)) as [o |] eqn:Hf;
      [| left; reflexivity].
    right; right; right. exists now, orderId, status, staffId, notes, o.
    split; [exact Hf |]. unfold Order.updateStatus.
    destruct (Order.updateAt _ _ _) as [u st']. reflexivity.
Qed.

(** The orders after a cancellation: the order found is replaced, where it
    stands, by its settled copy. *)
Lemma cancelledModel_orders now orderId reason o st :
  Order.findById orderId st = Some o ->
  exists i, Order.orders st !! i = Some o
            /\ Order.orders (cancelledModel now orderId reason o st)
               = <[i := settled now reason o]> (Order.orders st).
Proof.
  intros Hf. unfold cancelledModel, settled, Order.cancel,
    Order.updatePaymentStatus.
  destruct (OrderFacts.updateAt_found orderId (Order.cancelled now reason) st o Hf)
    as [i [Hi [Hlt Hu]]].
  exists i. split; [exact Hi |]. rewrite Hu. cbn [snd].
  destruct (_ && _); [| reflexivity].
  set (st1 := {| Order.orders := <[i := Order.cancelled now reason o]> (Order.orders st);
                 Order.counter := Order.counter st |}).
  assert (Hf1 : Order.findById orderId st1 = Some (Order.cancelled now reason o)).
  { apply OrderFacts.findById_updated; [exact Hi | exact Hlt |].
    apply find_Some in Hf as [_ Hf]. exact Hf. }
  destruct (OrderFacts.updateAt_found orderId
              (fun o => Order.withPayment now (Order.paymentId o) "REFUNDED" o)
              st1 _ Hf1) as [j [Hj [Hltj Huj]]].
  rewrite Huj. cbn [snd Order.orders st1].
  assert (Hlen : (i < length (Order.orders st))%nat) by (eapply lookup_lt_Some; eauto).
  assert (Hij : j = i).
  { destruct (Nat.lt_trichotomy j i) as [Hlt' | [-> | Hgt]]; [| reflexivity |].
    - exfalso. cbn [Order.orders st1] in Hj.
      rewrite list_lookup_insert_ne in Hj by lia.
      pose proof (Hlt j _ Hlt' Hj) as Hno.
      apply find_Some in Hf as [_ Hf]. unfold Order.hasId in *.
      cbn in Hno. rewrite Hf in Hno. discriminate.
    - exfalso.
      assert (Hi1 : Order.orders st1 !! i = Some (Order.cancelled now reason o))
        by (cbn [Order.orders st1]; apply list_lookup_insert_eq; exact Hlen).
      pose proof (Hltj i _ Hgt Hi1) as Hno.
      apply find_Some in Hf as [_ Hf]. unfold Order.hasId in *.
      cbn in Hno. rewrite Hf in Hno. discriminate. }
  subst j. apply list_insert_insert_eq.
Qed.

(** A property of orders that creation establishes and that settling a
    cancellation and a staff update keep holds of every stored order. *)
Lemma reachable_orders (P : Order.t -> Prop) :
  (forall now studentId req meal student st,
      P (Order.create now (orderData_processed studentId req meal student) st).1) ->
  (forall now reason o, P o -> P (settled now reason o)) ->
  (forall now status staffId notes o,
      P o -> P (Order.withStatus now status staffId notes o)) ->
  forall s, reachable s ->
            forall o, In o (Order.orders (Services.orderModel s)) -> P o.
Proof.
  intros Hnew Hset Hupd s Hr.
  induction Hr as [| c s Hr IH Hclock]; [intros o [] |].
  destruct (perform_cases c s)
    as [-> | [[now [sid [req [meal [student [_ ->]]]]]]
              | [[now [oid [reason [o [Hf ->]]]]]
                 | [now [oid [status [staff [notes [o [Hf ->]]]]]]]]]];
    [exact IH | | |]; intros x Hx.
  - cbn [afterCreate Services.orderModel] in Hx. rewrite create_pushes in Hx.
    apply in_app_or in Hx as [Hx | [<- | []]]; [apply IH, Hx | apply Hnew].
  - cbn [afterCancel Services.orderModel] in Hx.
    destruct (cancelledModel_orders now oid reason o _ Hf) as [i [Hi Heq]].
    rewrite Heq in Hx. apply OrderFacts.in_insert in Hx as [-> | Hx];
      [| apply IH, Hx].
    apply Hset, IH, list_elem_of_In, list_elem_of_lookup. eauto.
  - cbn [Services.orderModel] in Hx.
    apply OrderFacts.in_updateAt in Hx as [Hx | [y [Hy ->]]];
      [apply IH, Hx | apply Hupd, IH, Hy].
Qed.

(** X11. In every store the service can reach, the status history of an order
    agrees with its status: an order without history is PENDING or CANCELLED;
    an order with a history has a non-empty one, and its status is the one
    of the last entry unless the order is CANCELLED, a cancellation leaving
    the history as it is. *)
Theorem history_agrees_with_status (s : Services.t) (o : Order.t) :
  reachable s ->
  In o (Order.orders (Services.orderModel s)) ->
  historyAgrees o.
Proof.
  intros Hr. revert o. apply (reachable_orders historyAgrees); [| | | exact Hr].
  - intros. left. reflexivity.
  - intros now reason o Ho. unfold historyAgrees, settled in *.
    destruct (_ && _); cbn [Order.statusHistory Order.status Order.withPayment
                              Order.cancelled];
      (destruct (Order.statusHistory o) as [hist |];
       [destruct Ho as [e [He _]]; exists e; auto | auto]).
  - intros now status staffId notes o _. unfold historyAgrees.
    cbn [Order.statusHistory Order.status Order.withStatus].
    eexists. split; [apply last_snoc | left; reflexivity].
Qed.

Lemma history_agrees_with_status_witness :
  exists o,
    Order.findById Sample.placedId (Services.orderModel Sample.reactivated) = Some o
    /\ historyAgrees o
    /\ Order.status o = "CONFIRMED".
Proof.
  assert (Hr : reachable Sample.reactivated).
  { apply (reachable_step (UpdateOrderStatus (Sample.now + 3000) Sample.placedId
                             "staff1" "CONFIRMED" None)); [| discriminate].
    apply (reachable_step (CreateOrder Sample.host (Sample.now + 2000) "student123"
                             (Sample.request 2))); [| discriminate].
    apply (reachable_step (CancelOrder (Sample.now + 1000) Sample.placedId
                             "student123" None)); [| discriminate].
    apply (reachable_step (CreateOrder Sample.host Sample.now "student123"
                             (Sample.request 3))); [| discriminate].
    apply reachable_init. }
  assert (H : exists o,
             Order.findById Sample.placedId (Services.orderModel Sample.reactivated)
             = Some o /\ Order.status o = "CONFIRMED")
    by (eexists; split; vm_compute; reflexivity).
  destruct H as [o [Hf Hs]]. exists o. split; [exact Hf |]. split; [| exact Hs].
  apply (history_agrees_with_status Sample.reactivated o Hr).
  apply find_Some in Hf as [Hin _]. exact Hin.
Defined.

Lemma reachable_of_exact s : reachableExactly s -> reachable s.
Proof.
  induction 1 as [| c s _ IH Hn _]; [apply reachable_init |].
  apply reachable_step; assumption.
Qed.

(** X12. In every store the service reaches by calls whose orders are for
    student ids that name no inherited property and have an integer quantity
    of at most 2^46 in magnitude, so that every amount is an integer that a
    double holds exactly, the payment status of an order is the one given at
    creation:
    PAID with a final amount of 0, or PENDING with a positive final amount.
    No final amount is negative, and no order is ever marked REFUNDED, the
    refund branch of [cancelOrder] asking for a PAID order with a positive
    final amount. *)
Theorem payment_status_as_created (s : Services.t) (o : Order.t) :
  reachableExactly s ->
  In o (Order.orders (Services.orderModel s)) ->
  paymentAgrees o
  /\ 0 <= Order.finalAmount o
  /\ Order.paymentStatus o <> "REFUNDED".
Proof.
  intros Hexact Hin. pose proof (reachable_of_exact s Hexact) as Hr.
  assert (Hp : paymentAgrees o).
  { revert o Hin. apply (reachable_orders paymentAgrees); [| | | exact Hr].
    - intros now sid req meal student st. unfold paymentAgrees.
      cbn [Order.create fst Order.finalAmount Order.paymentStatus
             orderData_processed OrderData.finalAmount].
      destruct (Z.ltb_spec 0 (Z.max 0
                  (Meal.price meal * default 1 (OrderRequest.quantity req)
                   - (if Student.subsidyEligible student
                      then Meal.subsidyAmount meal
                           * default 1 (OrderRequest.quantity req)
                      else 0)))); [right | left]; split; (lia || reflexivity).
    - intros now reason x Hx. unfold paymentAgrees, settled in *.
      destruct Hx as [[Hz Hpaid] | [Hpos Hpend]].
      + replace (0 <? Order.finalAmount x) with false
          by (symmetry; apply Z.ltb_ge; lia).
        rewrite andb_false_r. left. split; assumption.
      + rewrite Hpend. cbn [String.eqb Ascii.eqb Bool.eqb andb].
        right. split; assumption.
    - intros now status staffId notes x Hx. exact Hx. }
  split; [exact Hp |].
  destruct Hp as [[Hz Hpaid] | [Hpos Hpend]]; (split; [lia |]);
    [rewrite Hpaid | rewrite Hpend]; discriminate.
Qed.

Lemma payment_status_as_created_witness :
  exists o,
    In o (Order.orders (Services.orderModel Sample.placed))
    /\ Order.finalAmount o = 60
    /\ Order.paymentStatus o <> "REFUNDED".
Proof.
  assert (Hr : reachableExactly Sample.placed).
  { apply (exact_step (CreateOrder Sample.host Sample.now "student123"
                         (Sample.request 3)));
      [apply exact_init | discriminate | split; [reflexivity | discriminate]]. }
  assert (H : exists o,
             Order.findById Sample.placedId (Services.orderModel Sample.placed)
             = Some o /\ Order.finalAmount o = 60)
    by (eexists; split; vm_compute; reflexivity).
  destruct H as [o [Hf Ha]]. apply find_Some in Hf as [Hin _].
  exists o. split; [exact Hin |]. split; [exact Ha |].
  exact (proj2 (proj2 (payment_status_as_created Sample.placed o Hr Hin))).
Defined.

(** *** Tables the service only reads *)

Lemma static_updateAvailability (meals : gmap string Meal.t) mealId q k :
  (static <$> MealService.updateAvailability mealId q meals !! k)
  = (static <$> meals !! k).
Proof.
  unfold MealService.updateAvailability.
  destruct (meals !! mealId) as [m |] eqn:Hm; [| reflexivity].
  destruct (decide (mealId = k)) as [<- | Hne].
  - rewrite lookup_insert_eq, Hm. reflexivity.
  - rewrite lookup_insert_ne by exact Hne. reflexivity.
Qed.

Lemma static_restoreAvailability (meals : gmap string Meal.t) mealId q k :
  (static <$> MealService.restoreAvailability mealId q meals !! k)
  = (static <$> meals !! k).
Proof.
  unfold MealService.restoreAvailability.
  destruct (meals !! mealId) as [m |] eqn:Hm; [| reflexivity].
  destruct (decide (mealId = k)) as [<- | Hne].
  - rewrite lookup_insert_eq, Hm. reflexivity.
  - rewrite lookup_insert_ne by exact Hne. reflexivity.
Qed.

(** X13. The service only ever writes the stock counters: in every store it
    can reach, the student table is the constructor's, and the meal table
    has the constructor's meals, no more and no fewer, each with its name,
    price, subsidy, availability flag and daily maximum unchanged. *)
Theorem only_stock_changes (s : Services.t) :
  reachable s ->
  Services.students s = StudentService.init
  /\ (forall k, (static <$> Services.meals s !! k) = (static <$> MealService.init !! k))
  /\ (forall k m, Services.meals s !! k = Some m ->
                  exists m0, MealService.init !! k = Some m0
                             /\ Meal.price m = Meal.price m0
                             /\ Meal.subsidyAmount m = Meal.subsidyAmount m0
                             /\ Meal.available m = Meal.available m0).
Proof.
  intros Hr.
  assert (H : Services.students s = StudentService.init
              /\ forall k, (static <$> Services.meals s !! k)
                           = (static <$> MealService.init !! k)).
  { induction Hr as [| c s Hr [IHs IHm] Hclock]; [split; reflexivity |].
    destruct (perform_cases c s)
      as [-> | [[now [sid [req [meal [student [_ ->]]]]]]
                | [[now [oid [reason [o [Hf ->]]]]]
                   | [now [oid [status [staff [notes [o [Hf ->]]]]]]]]]];
      cbn [afterCreate afterCancel Services.students Services.meals];
      (split; [exact IHs |]); try exact IHm; intros k.
    - rewrite static_updateAvailability. apply IHm.
    - rewrite static_restoreAvailability. apply IHm. }
  destruct H as [Hs Hm]. split; [exact Hs |]. split; [exact Hm |].
  intros k m Hk. specialize (Hm k). rewrite Hk in Hm.
  destruct (MealService.init !! k) as [m0 |]; [| discriminate].
  exists m0. split; [reflexivity |].
  assert (E : static m = static m0) by (cbn in Hm; congruence).
  unfold static, Meal.withQuantity in E. injection E. intros. auto.
Qed.

Lemma only_stock_changes_witness :
  Services.students Sample.reactivated = StudentService.init
  /\ (Meal.price <$> Services.meals Sample.reactivated !! "meal_001") = Some 50
  /\ (Meal.currentQuantity <$> Services.meals Sample.reactivated !! "meal_001")
     = Some 93.
Proof.
  assert (Hr : reachable Sample.reactivated).
  { apply (reachable_step (UpdateOrderStatus (Sample.now + 3000) Sample.placedId
                             "staff1" "CONFIRMED" None)); [| discriminate].
    apply (reachable_step (CreateOrder Sample.host (Sample.now + 2000) "student123"
                             (Sample.request 2))); [| discriminate].
    apply (reachable_step (CancelOrder (Sample.now + 1000) Sample.placedId
                             "student123" None)); [| discriminate].
    apply (reachable_step (CreateOrder Sample.host Sample.now "student123"
                             (Sample.request 3))); [| discriminate].
    apply reachable_init. }
  split; [exact (proj1 (only_stock_changes Sample.reactivated Hr)) |].
  split; vm_compute; reflexivity.
Defined.

End LifecycleFacts.

(** ** The validators, decided *)

Module ValidatorFacts.
Import Validation ValidatorSpec.

Lemma pushIf_count c msg errors :
  length (pushIf c msg errors) = (length errors + count c)%nat.
Proof. apply ValidationFacts.pushIf_length. Qed.

Lemma truthyStr_iff (o : option string) :
  Js.truthyStr o = true <-> exists s, o = Some s /\ s <> "".
Proof. apply QueryFacts.truthyStr_Some. Qed.

(** X14. Among the bodies whose meal id and scheduled date are strings or
    absent and whose quantity is an integer or absent, the order validator
    hands a request on exactly when the meal id is present and not empty,
    the scheduled date is present, not empty and parses, and the quantity is
    from 1 to 10. Every other such request is answered 400 /
    validation_error with one to three of the five messages. (A quantity
    that is not a number is outside this statement.) *)
Theorem validateOrderRequest_decides (h : Js.Host) (body : OrderBody) :
  (validateOrderRequest h body = Next
   <-> (exists m, mealId body = Some m /\ m <> "")
       /\ (exists d t, scheduledDate body = Some d /\ d <> ""
                       /\ Js.dateParse h d = Some t)
       /\ (exists n, quantity body = Some n /\ 1 <= n <= 10))
  /\ (forall r,
        validateOrderRequest h body = Respond r ->
        httpStatus r = 400 /\ error r = "validation_error" /\ success r = false
        /\ details r = orderErrors h body
        /\ (1 <= length (details r) <= 3)%nat).
Proof.
  assert (Hlen : length (orderErrors h body)
                 = (count (negb (Js.truthyStr (mealId body)))
                    + count (negb (Js.truthyStr (scheduledDate body)))
                    + count (negb (Js.truthyNum (quantity body)) || ltNum (quantity body) 1)
                    + count (Js.truthyStr (scheduledDate body)
                             && parseIsNaN h (scheduledDate body))
                    + count (Js.truthyNum (quantity body) && gtNum (quantity body) 10))%nat).
  { unfold orderErrors. rewrite !pushIf_count. reflexivity. }
  assert (Hq : (negb (Js.truthyNum (quantity body)) || ltNum (quantity body) 1
                = false
                /\ Js.truthyNum (quantity body) && gtNum (quantity body) 10 = false)
               <-> exists n, quantity body = Some n /\ 1 <= n <= 10).
  { destruct (quantity body) as [n |]; cbn.
    - destruct (Z.eqb_spec n 0), (Z.ltb_spec n 1), (Z.ltb_spec 10 n); cbn; split;
        try (intros [? ?]; discriminate); try (intros [? [[= <-] ?]]; lia);
        try (intros _; exists n; split; [reflexivity | lia]); auto.
    - split; [intros [[=] _] | intros [n [[=] _]]]. }
  assert (Hcap : (count (negb (Js.truthyStr (scheduledDate body)))
                  + count (Js.truthyStr (scheduledDate body)
                           && parseIsNaN h (scheduledDate body)) <= 1
                  /\ count (negb (Js.truthyNum (quantity body))
                            || ltNum (quantity body) 1)
                     + count (Js.truthyNum (quantity body)
                              && gtNum (quantity body) 10) <= 1)%nat).
  { split.
    - destruct (Js.truthyStr (scheduledDate body)), (parseIsNaN h (scheduledDate body));
        cbn; lia.
    - destruct (quantity body) as [n |]; cbn; [| lia].
      destruct (Z.eqb_spec n 0), (Z.ltb_spec n 1), (Z.ltb_spec 10 n); cbn; lia. }
  split.
  - unfold validateOrderRequest.
    destruct (Nat.ltb_spec 0 (length (orderErrors h body))) as [Hpos | Hzero].
    + split; [discriminate |]. intros [Hm [Hd Hn]]. exfalso.
      apply truthyStr_iff in Hm. apply Hq in Hn as [Hn1 Hn2].
      destruct Hd as [d [t [Hd [Hne Ht]]]].
      assert (Hdt : Js.truthyStr (scheduledDate body) = true)
        by (apply truthyStr_iff; eauto).
      assert (Hnan : parseIsNaN h (scheduledDate body) = false)
        by (unfold parseIsNaN; rewrite Hd, Ht; reflexivity).
      rewrite Hlen, Hm, Hdt, Hnan, Hn1, Hn2 in Hpos. cbn in Hpos. lia.
    + split; [intros _ | reflexivity].
      rewrite Hlen in Hzero.
      destruct (Js.truthyStr (mealId body)) eqn:Hm; cbn [negb count] in Hzero; [| lia].
      destruct (Js.truthyStr (scheduledDate body)) eqn:Hd; cbn [negb count andb] in Hzero;
        [| lia].
      destruct (parseIsNaN h (scheduledDate body)) eqn:Hnan; cbn [count] in Hzero; [lia |].
      split; [apply truthyStr_iff, Hm |]. split.
      * apply truthyStr_iff in Hd as [d [Hd Hne]]. unfold parseIsNaN in Hnan.
        rewrite Hd in Hnan. destruct (Js.dateParse h d) as [t |] eqn:Ht;
          [| discriminate]. eauto 6.
      * apply Hq. split.
        -- destruct (negb _ || _); [cbn in Hzero; lia | reflexivity].
        -- destruct (_ && gtNum _ _); [cbn in Hzero; lia | reflexivity].
  - intros r. unfold validateOrderRequest.
    destruct (Nat.ltb_spec 0 (length (orderErrors h body))) as [Hpos | Hzero];
      [| discriminate].
    intros [= <-]. cbn [httpStatus error success details].
    repeat split; [exact Hpos |].
    rewrite Hlen. destruct Hcap as [H1 H2].
    destruct (negb (Js.truthyStr (mealId body))); cbn [count]; lia.
Qed.

Lemma paymentErrors_length (body : PaymentValidation.Body) :
  length (PaymentValidation.paymentErrors body)
  = (count (negb (Js.truthyStr (PaymentValidation.orderId body)))
     + count (negb (Js.truthyNum (PaymentValidation.amount body))
              || match PaymentValidation.amount body with
                 | Some a => (a <=? 0)%Z
                 | None => false
                 end)
     + count (Js.truthyNum (PaymentValidation.amount body)
              && gtNum (PaymentValidation.amount body) 10000%Z))%nat.
Proof. unfold PaymentValidation.paymentErrors. rewrite !pushIf_count. reflexivity. Qed.

(** X15. Among the bodies whose order id is a string or absent and whose
    amount is an integer or absent, the payment validator hands a request on
    exactly when the order id is present and not empty and the amount is
    above 0 and at most 10000; every other such request is answered 400 /
    validation_error with one or two messages. (An amount that is not a
    number is outside this statement.) *)
Theorem validatePaymentRequest_decides (body : PaymentValidation.Body) :
  (PaymentValidation.validatePaymentRequest body = Next
   <-> (exists o, PaymentValidation.orderId body = Some o /\ o <> "")
       /\ (exists a, PaymentValidation.amount body = Some a /\ 0 < a <= 10000))
  /\ (forall r,
        PaymentValidation.validatePaymentRequest body = Respond r ->
        httpStatus r = 400 /\ error r = "validation_error" /\ success r = false
        /\ (1 <= length (details r) <= 2)%nat).
Proof.
  pose proof (paymentErrors_length body) as Hlen.
  unfold PaymentValidation.validatePaymentRequest.
  destruct (Nat.ltb_spec 0 (length (PaymentValidation.paymentErrors body)))
    as [Hpos | Hzero]; rewrite Hlen in *; clear Hlen.
  - split.
    + split; [discriminate |]. intros [Ho [a [Ha Hr]]]. exfalso.
      apply truthyStr_iff in Ho. rewrite Ho, Ha in Hpos. cbn in Hpos.
      destruct (Z.eqb_spec a 0), (Z.leb_spec a 0), (Z.ltb_spec 10000 a);
        cbn in Hpos; lia.
    + intros r [= <-]. cbn [httpStatus error success details].
      repeat split.
      * unfold PaymentValidation.paymentErrors. rewrite !pushIf_count. exact Hpos.
      * unfold PaymentValidation.paymentErrors. rewrite !pushIf_count.
        destruct (negb (Js.truthyStr (PaymentValidation.orderId body)));
          (destruct (PaymentValidation.amount body) as [a |]; cbn; [| lia]);
          destruct (Z.eqb_spec a 0), (Z.leb_spec a 0), (Z.ltb_spec 10000 a);
          cbn; lia.
  - split; [| discriminate]. split; [intros _ | reflexivity].
    destruct (Js.truthyStr (PaymentValidation.orderId body)) eqn:Ho;
      cbn [negb count] in Hzero; [| lia].
    split; [apply truthyStr_iff, Ho |].
    destruct (PaymentValidation.amount body) as [a |]; cbn in Hzero; [| lia].
    exists a. split; [reflexivity |].
    destruct (Z.eqb_spec a 0), (Z.leb_spec a 0), (Z.ltb_spec 10000 a);
      cbn in Hzero; lia.
Qed.

(** X16. The status validator hands a request on exactly when the status is
    one of CONFIRMED, PREPARING, READY and DELIVERED; every other request,
    a missing status, PENDING and CANCELLED included, is answered
    400 / validation_error with the list of the four. *)
Theorem validateStatusUpdate_decides (status : option string) :
  (validateStatusUpdate status = Next
   <-> status = Some "CONFIRMED" \/ status = Some "PREPARING"
       \/ status = Some "READY" \/ status = Some "DELIVERED")
  /\ (forall r,
        validateStatusUpdate status = Respond r ->
        httpStatus r = 400 /\ error r = "validation_error" /\ success r = false
        /\ details r = ["CONFIRMED"; "PREPARING"; "READY"; "DELIVERED"])
  /\ validateStatusUpdate None <> Next
  /\ validateStatusUpdate (Some "PENDING") <> Next
  /\ validateStatusUpdate (Some "CANCELLED") <> Next.
Proof.
  split; [| split; [| repeat split; discriminate]].
  - rewrite ValidationFacts.validateStatusUpdate_next. unfold validStatuses. cbn [In].
    split.
    + intros [s [-> [<- | [<- | [<- | [<- | []]]]]]]; auto.
    + intros [-> | [-> | [-> | ->]]]; eexists; split; try reflexivity; auto 6.
  - intros r. unfold validateStatusUpdate.
    destruct (_ || _); [| discriminate]. intros [= <-]. repeat split.
Qed.

End ValidatorFacts.

(** ** The routes and their middleware *)

Module RouteFacts.
Import OrderRoutes RouteSpec.

Lemma splitOn_second sep s :
  Js.splitOn sep s !! 1%nat
  = match afterFirst sep s with
    | Some r => head (Js.splitOn sep r)
    | None => None
    end.
Proof.
  induction s as [| c r IH]; [reflexivity |].
  cbn [Js.splitOn afterFirst]. destruct (Ascii.eqb c sep).
  - destruct (Js.splitOn sep r); reflexivity.
  - rewrite <- IH. destruct (Js.splitOn sep r); reflexivity.
Qed.

Lemma head_splitOn_truthy sep r :
  Js.truthyStr (head (Js.splitOn sep r))
  = match r with
    | String c _ => negb (Ascii.eqb c sep)
    | EmptyString => false
    end.
Proof.
  destruct r as [| c r]; [reflexivity |].
  cbn [Js.splitOn]. destruct (Ascii.eqb c sep); [reflexivity |].
  destruct (Js.splitOn sep r); reflexivity.
Qed.

Lemma token_truthy authHeader :
  Js.truthyStr (Auth.token authHeader) = carriesToken authHeader.
Proof.
  unfold Auth.token, carriesToken.
  destruct authHeader as [s |]; [| reflexivity].
  destruct (Js.truthyStr (Some s)) eqn:Ht.
  - cbn [default from_option Datatypes.id]. rewrite splitOn_second.
    destruct (afterFirst " " s) as [r |]; [| reflexivity].
    apply head_splitOn_truthy.
  - rewrite Ht. cbn in Ht. apply negb_false_iff, String.eqb_eq in Ht.
    subst s. reflexivity.
Qed.

(** X17. The auth middleware looks at the shape of the Authorization header
    only: a request passes exactly when the header holds a space and the
    character after its first space is not a space, and the user it then
    acts for is the mock student, whatever the token says; every other
    request is answered 401 / unauthorized. *)
Theorem authenticateToken_decides (authHeader : option string) :
  Auth.authenticateToken authHeader
  = if carriesToken authHeader then inr Auth.mockUser
    else inl {| Auth.status := 401; Auth.error := "unauthorized";
                Auth.message := "Access token required" |}.
Proof.
  unfold Auth.authenticateToken. rewrite token_truthy.
  destruct (carriesToken authHeader); reflexivity.
Qed.

(** X18. The two staff routes never reach their handlers: the only user the
    auth middleware produces has role STUDENT, which [requireRole] refuses.
    Every request is answered 401 (no token) or 403 / forbidden, and the
    store is left as it was. *)
Theorem staff_routes_closed
    (h : Js.Host) (now : Z) (authHeader : option string) (orderId : string)
    (status notes date : option string) (s : Services.t) :
  patchStatus now authHeader orderId status notes s
  = (if carriesToken authHeader then forbidden else noToken, s)
  /\ getPending h authHeader date s
     = (if carriesToken authHeader then forbidden else noToken, s).
Proof.
  unfold patchStatus, getPending, Auth.authenticateToken.
  rewrite token_truthy.
  destruct (carriesToken authHeader); split; reflexivity.
Qed.

Lemma authenticateToken_user authHeader user :
  Auth.authenticateToken authHeader = inr user -> Auth.id user = "student123".
Proof.
  unfold Auth.authenticateToken. destruct (negb _); [discriminate |].
  intros [= <-]. reflexivity.
Qed.

Lemma authenticateToken_refusal authHeader r :
  Auth.authenticateToken authHeader = inl r -> Auth.status r = 401.
Proof.
  unfold Auth.authenticateToken. destruct (negb _); [| discriminate].
  intros [= <-]. reflexivity.
Qed.

(** The errors of [createOrder] all carry a status and a code of their own. *)
Lemma createOrder_throw_status h now studentId req s e s' :
  OrderService.createOrder h now studentId req s = (Throw e, s') ->
  In (Error.statusCode e) [400; 404; 401; 409] /\ Error.code e <> "".
Proof.
  unfold OrderService.createOrder. OrderServiceFacts.run.
  unfold MealService.getMealById, StudentService.getStudentById.
  destruct (Js.dateLt _ _); [intros [= <- _]; cbn; split; [tauto | discriminate] |].
  destruct (Services.meals s !! _) as [meal |];
    [| intros [= <- _]; cbn; split; [tauto | discriminate]].
  destruct (negb _); [intros [= <- _]; cbn; split; [tauto | discriminate] |].
  destruct (Services.students s !! _) as [student |];
    [| intros [= <- _]; cbn; split; [tauto | discriminate]].
  destruct (Order.findExistingOrder _ _ _);
    [intros [= <- _]; cbn; split; [tauto | discriminate] | discriminate].
Qed.

Lemma cancelOrder_throw_status now orderId studentId reason s e s' :
  OrderService.cancelOrder now orderId studentId reason s = (Throw e, s') ->
  In (Error.statusCode e) [400; 404].
Proof.
  destruct (Order.findById orderId (Services.orderModel s)) as [o |] eqn:Hf.
  2:{ rewrite (OrderServiceFacts.cancelOrder_not_found _ _ _ _ _ Hf).
      intros [= <- _]. cbn. tauto. }
  destruct (String.eqb_spec (Order.studentId o) studentId) as [Ho | Ho].
  2:{ rewrite (OrderServiceFacts.cancelOrder_not_owner _ _ _ _ _ o Hf Ho).
      intros [= <- _]. cbn. tauto. }
  destruct (Js.includes ["PENDING"; "CONFIRMED"] (Order.status o)) eqn:Hi.
  - rewrite (OrderServiceFacts.cancelOrder_ok _ _ _ _ _ o Hf Ho Hi). discriminate.
  - rewrite (OrderServiceFacts.cancelOrder_cannot_cancel _ _ _ _ _ o Hf Ho Hi).
    intros [= <- _]. cbn. tauto.
Qed.

(** X19. What POST /api/orders can answer to a JSON body whose fields have
    the types the route documents: strings for the meal id, the date, the
    pickup time and the instructions, an integer for the quantity, each
    possibly absent. A 201 carries a PENDING order of student123 (the mock
    user) that is now the last one of the store; every other answer is the
    error envelope with status 400, 401, 404 or 409 and leaves the store
    exactly as it was; for such a body the catch-all 500 is not used. *)
Theorem postOrder_outcomes
    (h : Js.Host) (now : Z) (authHeader : option string) (body : CreateBody)
    (s : Services.t) :
  let r := postOrder h now authHeader body s in
  match r.1 with
  | Http.Json st reply =>
      st = 201
      /\ exists o,
           Reply.order reply = Some o
           /\ Order.studentId o = "student123"
           /\ Order.status o = "PENDING"
           /\ last (Order.orders (Services.orderModel r.2)) = Some o
  | Http.Refused st _ _ _ => In st [400; 401; 404; 409] /\ r.2 = s
  end.
Proof.
  unfold postOrder.
  destruct (Auth.authenticateToken authHeader) as [r | user] eqn:Ha.
  { cbn. rewrite (authenticateToken_refusal _ _ Ha). tauto. }
  rewrite (authenticateToken_user _ _ Ha).
  unfold Validation.validateOrderRequest.
  destruct (0 <? length _)%nat; [cbn; tauto |].
  unfold send.
  destruct (OrderService.createOrder h now "student123" (orderData body) s)
    as [[reply | e] s'] eqn:Hc; cbn [fst snd].
  - split; [reflexivity |].
    destruct (OrderServiceFacts.createOrder_ok_inv _ _ _ _ _ _ _ Hc)
      as [meal [student [_ [_ [_ [_ [_ [-> ->]]]]]]]].
    eexists. split; [reflexivity |]. split; [reflexivity |].
    split; [reflexivity |]. apply last_snoc.
  - destruct (createOrder_throw_status _ _ _ _ _ _ _ Hc) as [Hst _].
    rewrite (OrderServiceFacts.createOrder_throw_unchanged _ _ _ _ _ _ _ Hc).
    split; [| reflexivity]. cbn in Hst |- *.
    destruct (Z.eqb_spec (Error.statusCode e) 0) as [E | _]; [| tauto].
    rewrite E in Hst. intuition discriminate.
Qed.

(** X20. What PATCH /api/orders/:orderId/cancel can answer. A 200 means the
    named order belonged to student123, was PENDING or CONFIRMED, and the
    store is now the one of a cancellation; every other answer has status
    400, 401 or 404 and leaves the store as it was. In particular an order
    of another student is answered like a missing one. *)
Theorem patchCancel_outcomes
    (now : Z) (authHeader : option string) (orderId : string)
    (reason : option string) (s : Services.t) :
  let r := patchCancel now authHeader orderId reason s in
  match r.1 with
  | Http.Json st _ =>
      st = 200
      /\ exists o,
           Order.findById orderId (Services.orderModel s) = Some o
           /\ Order.studentId o = "student123"
           /\ OrderSpec.cancellable o
           /\ r.2 = OrderSpec.afterCancel now orderId reason o s
  | Http.Refused st _ _ _ => In st [400; 401; 404] /\ r.2 = s
  end.
Proof.
  unfold patchCancel.
  destruct (Auth.authenticateToken authHeader) as [r | user] eqn:Ha.
  { cbn. rewrite (authenticateToken_refusal _ _ Ha). tauto. }
  rewrite (authenticateToken_user _ _ Ha).
  unfold send.
  destruct (OrderService.cancelOrder now orderId "student123" reason s)
    as [[reply | e] s'] eqn:Hc; cbn [fst snd].
  - split; [reflexivity |].
    destruct (OrderServiceFacts.cancelOrder_ok_inv _ _ _ _ _ _ _ Hc)
      as [o [Hf [Ho [Hcan ->]]]].
    exists o. repeat split; assumption.
  - pose proof (cancelOrder_throw_status _ _ _ _ _ _ _ Hc) as Hst.
    rewrite (OrderServiceFacts.cancelOrder_throw_unchanged _ _ _ _ _ _ _ Hc).
    split; [| reflexivity]. cbn in Hst |- *.
    destruct (Z.eqb_spec (Error.statusCode e) 0) as [E | _]; [| tauto].
    rewrite E in Hst. intuition discriminate.
Qed.

End RouteFacts.

(** ** The PayDPI client over its life *)

Module ClientFacts.
Import PayDPIClient ClientSpec.

Lemma lacks_append c x u : lacks c (x +:+ String c u) = false.
Proof.
  induction x as [| a x IH].
  - change (lacks c (String c u) = false). cbn [lacks].
    rewrite Ascii.eqb_refl. reflexivity.
  - change (lacks c (String a (x +:+ String c u)) = false). cbn [lacks].
    rewrite IH. apply andb_false_r.
Qed.

(** A string has one part after its last [c]. *)
Lemma last_part c x y u v :
  lacks c u = true -> lacks c v = true ->
  x +:+ String c u = y +:+ String c v -> u = v.
Proof.
  intros Hu Hv. revert y. induction x as [| a x IH]; intros [| b y] H.
  - change (String c u = String c v) in H. congruence.
  - change (String c u = String b (y +:+ String c v)) in H.
    injection H as _ H. rewrite H, lacks_append in Hu. discriminate.
  - change (String a (x +:+ String c u) = String c v) in H.
    injection H as _ H. rewrite <- H, lacks_append in Hv. discriminate.
  - change (String a (x +:+ String c u) = String b (y +:+ String c v)) in H.
    injection H as _ H. exact (IH y H).
Qed.

Lemma string_of_uint_lacks (d : Decimal.uint) :
  lacks "_" (NilEmpty.string_of_uint d) = true.
Proof. induction d; cbn; [reflexivity | assumption ..]. Qed.

Lemma toString_lacks (n : Z) : lacks "_" (Js.toString n) = true.
Proof.
  unfold Js.toString. destruct (Z.to_int n); cbn [NilEmpty.string_of_int].
  - apply string_of_uint_lacks.
  - cbn [lacks]. apply string_of_uint_lacks.
Qed.

Lemma append_assoc (x y z : string) : x +:+ y +:+ z = (x +:+ y) +:+ z.
Proof.
  induction x as [| a x IH]; [reflexivity |].
  change (String a (x +:+ y +:+ z) = String a ((x +:+ y) +:+ z)).
  rewrite IH. reflexivity.
Qed.

(** Two ids end in the same counter value only if the values are the same. *)
Lemma id_counter_inj (a b : string) (n m : Z) :
  "PAY_" +:+ a +:+ "_" +:+ Js.toString n = "PAY_" +:+ b +:+ "_" +:+ Js.toString m ->
  n = m.
Proof.
  intros H. apply IdFacts.toString_inj.
  apply (last_part "_" ("PAY_" +:+ a) ("PAY_" +:+ b));
    [apply toString_lacks | apply toString_lacks |].
  rewrite <- !append_assoc. exact H.
Qed.

(** The id that the next [initiatePayment] will use is not taken. *)
Lemma generatePaymentId_fresh h now st :
  numbered st -> payments st !! generatePaymentId h now st = None.
Proof.
  intros Hn. destruct (payments st !! generatePaymentId h now st) as [p |] eqn:E;
    [| reflexivity].
  destruct (Hn _ _ E) as [d [n [Hk Hle]]]. unfold generatePaymentId in Hk.
  apply id_counter_inj in Hk. lia.
Qed.

Lemma initiatePayment_cases h now d st :
  (acceptable d = false
   /\ exists f, initiatePayment h now d st = (inl f, st)
                /\ code f = "VALIDATION_ERROR")
  \/ (acceptable d = true
      /\ exists resp p,
           initiatePayment h now d st
           = (inr resp,
              {| payments := <[generatePaymentId h now st := p]> (payments st);
                 paymentCounter := paymentCounter st + 1;
                 merchantId := merchantId st |})
           /\ InitiateResponse.paymentId resp = generatePaymentId h now st
           /\ InitiateResponse.status resp = "INITIATED"
           /\ InitiateResponse.expiresAt resp = Payment.expiresAt p
           /\ InitiateResponse.fees resp = Payment.fees p
           /\ Payment.paymentId p = generatePaymentId h now st
           /\ Payment.status p = "INITIATED"
           /\ Some (Payment.orderId p) = PaymentData.orderId d
           /\ Some (Payment.amount p) = PaymentData.amount d
           /\ Some (Payment.currency p) = PaymentData.currency d
           /\ Payment.initiatedAt p = now).
Proof.
  unfold acceptable, initiatePayment.
  destruct (PaymentData.orderId d) as [oid |]; cbn [Js.truthyStr negb andb];
    [| left; eauto].
  destruct (negb (String.eqb oid "")); cbn [negb andb]; [| left; eauto].
  destruct (PaymentData.amount d) as [amt |]; cbn [Js.truthyNum negb andb];
    [| left; rewrite !andb_false_r; eauto].
  destruct (Z.eqb_spec amt 0) as [-> | Hz]; cbn [negb];
    [left; rewrite !andb_false_r; eauto |].
  destruct (PaymentData.currency d) as [cur |]; cbn [Js.truthyStr negb andb];
    [| left; eauto].
  destruct (negb (String.eqb cur "")); cbn [negb andb]; [| left; eauto].
  destruct (PaymentData.description d) as [descr |]; cbn [Js.truthyStr negb andb];
    [| left; eauto].
  destruct (negb (String.eqb descr "")); cbn [negb andb]; [| left; eauto].
  cbn [default from_option Datatypes.id].
  destruct (Z.leb_spec amt 0) as [Hle | Hgt].
  - left. split; [apply Z.ltb_ge; exact Hle | eauto].
  - right. split; [apply Z.ltb_lt; exact Hgt |].
    eexists _, _. split; [reflexivity |]. cbn. repeat split.
Qed.

(** X21. For a request with strings for the order id, currency and
    description and integers for the amount and the expiry minutes, whose
    expiry stays in the range of [Date] (so that [toISOString] has a value
    to print): [initiatePayment] succeeds exactly when the order id,
    currency and description are present and not empty and the amount is
    above 0. A refused request is a VALIDATION_ERROR and leaves the client
    as it was; an accepted one advances the counter by one and stores, under
    the id it returns, an INITIATED payment with the request's order id,
    amount and currency, whose expiry and fees are the ones answered. *)
Theorem initiatePayment_decides
    (h : Js.Host) (now : Z) (d : PaymentData.t) (st : state) :
  expiryInRange now d ->
  match initiatePayment h now d st with
  | (inl f, st') =>
      acceptable d = false /\ code f = "VALIDATION_ERROR" /\ st' = st
  | (inr resp, st') =>
      acceptable d = true
      /\ InitiateResponse.status resp = "INITIATED"
      /\ paymentCounter st' = paymentCounter st + 1
      /\ exists p,
           payments st' !! InitiateResponse.paymentId resp = Some p
           /\ Payment.status p = "INITIATED"
           /\ Some (Payment.orderId p) = PaymentData.orderId d
           /\ Some (Payment.amount p) = PaymentData.amount d
           /\ Some (Payment.currency p) = PaymentData.currency d
           /\ Payment.expiresAt p = InitiateResponse.expiresAt resp
           /\ Payment.fees p = InitiateResponse.fees resp
  end.
Proof.
  intros _.
  destruct (initiatePayment_cases h now d st)
    as [[Ha [f [-> Hf]]] | [Ha [resp [p [-> H]]]]].
  - auto.
  - destruct H as [Hid [Hst [He [Hfe [_ [Hs [Ho [Hamt [Hc Hi]]]]]]]]].
    split; [exact Ha |]. split; [exact Hst |]. split; [reflexivity |].
    exists p. cbn [payments]. rewrite Hid, lookup_insert_eq.
    repeat split; auto.
Qed.

Lemma initiatePayment_decides_witness :
  exists resp st',
    initiatePayment Sample.host Sample.now Sample.paymentData init = (inr resp, st')
    /\ paymentCounter st' = 5001.
Proof.
  pose proof (initiatePayment_decides Sample.host Sample.now Sample.paymentData init)
    as H.
  destruct (initiatePayment Sample.host Sample.now Sample.paymentData init)
    as [[f | resp] st'].
  - assert (Hr : expiryInRange Sample.now Sample.paymentData)
      by (vm_compute; discriminate).
    destruct (H Hr) as [Ha _]. vm_compute in Ha. discriminate Ha.
  - exists resp, st'. split; [reflexivity |].
    assert (Hr : expiryInRange Sample.now Sample.paymentData)
      by (vm_compute; discriminate).
    destruct (H Hr) as [_ [_ [Hc _]]]. exact Hc.
Defined.

(** *** What the calls keep *)

Lemma numbered_insert_old k p q st :
  numbered st -> payments st !! k = Some p -> numbered (setPayment k q st).
Proof.
  intros Hn Hk k' p' H. cbn [setPayment payments paymentCounter] in *.
  destruct (decide (k = k')) as [<- | Hne].
  - exact (Hn _ _ Hk).
  - rewrite lookup_insert_ne in H by exact Hne. exact (Hn _ _ H).
Qed.

Lemma getPaymentStatus_store now doneAt checkAt r k st :
  (getPaymentStatus now doneAt checkAt r k st).2
  = match payments st !! k with
    | Some p => setPayment k (advance now doneAt checkAt r p) st
    | None => st
    end.
Proof. unfold getPaymentStatus. destruct (payments st !! k); reflexivity. Qed.

Lemma cancelPayment_store now k reason st :
  (cancelPayment now k reason st).2
  = match payments st !! k with
    | Some p =>
        if pending p
        then setPayment k
               (Payment.withCancellation now (default defaultReason reason)
                  (Payment.withStatus "CANCELLED" p)) st
        else st
    | None => st
    end.
Proof.
  unfold cancelPayment, pending. destruct (payments st !! k) as [p |]; [| reflexivity].
  destruct (Js.includes _ _); reflexivity.
Qed.

Lemma numbered_perform c st : numbered st -> numbered (perform c st).
Proof.
  intros Hn. destruct c as [h now d | now doneAt checkAt r k | now k reason];
    cbn [perform].
  - destruct (initiatePayment_cases h now d st)
      as [[_ [f [-> _]]] | [_ [resp [p [-> _]]]]]; [exact Hn |].
    intros k' p' H. cbn [snd payments paymentCounter] in *.
    destruct (decide (generatePaymentId h now st = k')) as [<- | Hne].
    + eexists _, _. split; [reflexivity | lia].
    + rewrite lookup_insert_ne in H by exact Hne.
      destruct (Hn _ _ H) as [d' [n [-> Hle]]]. eexists _, _.
      split; [reflexivity | lia].
  - rewrite getPaymentStatus_store.
    destruct (payments st !! k) as [p |] eqn:E; [| exact Hn].
    exact (numbered_insert_old _ _ _ _ Hn E).
  - rewrite cancelPayment_store.
    destruct (payments st !! k) as [p |] eqn:E; [| exact Hn].
    destruct (pending p); [| exact Hn].
    exact (numbered_insert_old _ _ _ _ Hn E).
Qed.

Lemma reachable_numbered st : reachable st -> numbered st.
Proof.
  induction 1 as [| c st _ IH].
  - intros k p H. cbn in H. rewrite lookup_empty in H. discriminate.
  - apply numbered_perform. exact IH.
Qed.

Lemma reachable_performAll calls st : reachable st -> reachable (performAll calls st).
Proof.
  revert st. induction calls as [| c calls IH]; intros st H; [exact H |].
  cbn [performAll fold_left]. apply IH. apply reach_step. exact H.
Qed.

Lemma sameTerms_refl p : sameTerms p p.
Proof. repeat split. Qed.

Lemma sameTerms_trans p q r : sameTerms p q -> sameTerms q r -> sameTerms p r.
Proof. unfold sameTerms. intuition congruence. Qed.

Lemma advance_sameTerms now doneAt checkAt r p :
  sameTerms p (advance now doneAt checkAt r p).
Proof.
  unfold advance, stepExpired, stepCompleted, stepProcessing.
  repeat (destruct (_ && _); cbn); repeat split.
Qed.

Lemma advance_settled now doneAt checkAt r p :
  pending p = false -> advance now doneAt checkAt r p = p.
Proof.
  unfold pending, Js.includes. cbn [existsb]. intros H.
  apply orb_false_iff in H as [Hi H]. apply orb_false_iff in H as [Hp _].
  unfold advance, stepExpired, stepCompleted, stepProcessing.
  rewrite Hi. cbn [andb]. rewrite Hp. cbn [andb]. rewrite Hi, andb_false_r.
  reflexivity.
Qed.

(** One call, seen from a payment already stored. *)
Lemma perform_keeps c st k p :
  numbered st -> payments st !! k = Some p ->
  exists q, payments (perform c st) !! k = Some q
            /\ sameTerms p q
            /\ (pending p = false -> q = p).
Proof.
  intros Hn Hk. destruct c as [h now d | now doneAt checkAt r k' | now k' reason];
    cbn [perform].
  - destruct (initiatePayment_cases h now d st)
      as [[_ [f [-> _]]] | [_ [resp [p' [-> _]]]]]; cbn [snd payments].
    + exists p. auto using sameTerms_refl.
    + exists p. rewrite lookup_insert_ne.
      * auto using sameTerms_refl.
      * intros E. rewrite <- E, (generatePaymentId_fresh h now st Hn) in Hk.
        discriminate.
  - rewrite getPaymentStatus_store.
    destruct (payments st !! k') as [p' |] eqn:E;
      [| exists p; auto using sameTerms_refl].
    cbn [setPayment payments]. destruct (decide (k' = k)) as [-> | Hne].
    + rewrite lookup_insert_eq. rewrite Hk in E. injection E as <-.
      eexists. split; [reflexivity |].
      split; [apply advance_sameTerms | apply advance_settled].
    + rewrite lookup_insert_ne by exact Hne. exists p. auto using sameTerms_refl.
  - rewrite cancelPayment_store.
    destruct (payments st !! k') as [p' |] eqn:E;
      [| exists p; auto using sameTerms_refl].
    destruct (pending p') eqn:Hp; [| exists p; auto using sameTerms_refl].
    cbn [setPayment payments]. destruct (decide (k' = k)) as [-> | Hne].
    + rewrite lookup_insert_eq. rewrite Hk in E. injection E as <-.
      eexists. split; [reflexivity |]. split; [repeat split | congruence].
    + rewrite lookup_insert_ne by exact Hne. exists p. auto using sameTerms_refl.
Qed.

Lemma performAll_keeps calls st k p :
  numbered st -> payments st !! k = Some p ->
  exists q, payments (performAll calls st) !! k = Some q
            /\ sameTerms p q
            /\ (pending p = false -> q = p).
Proof.
  revert st p. induction calls as [| c calls IH]; intros st p Hn Hk.
  - exists p. auto using sameTerms_refl.
  - cbn [performAll fold_left].
    destruct (perform_keeps c st k p Hn Hk) as [q [Hq [Hs Hf]]].
    destruct (IH (perform c st) q (numbered_perform c st Hn) Hq) as [q' [Hq' [Hs' Hf']]].
    exists q'. split; [exact Hq' |]. split; [eapply sameTerms_trans; eassumption |].
    intros Hp. specialize (Hf Hp). subst q. auto.
Qed.

(** X22. Payment ids are never reused: in every client a run of calls can
    lead to, the id that [initiatePayment] hands out is not the id of a
    stored payment, whatever the calendar day the clock shows; so a stored
    payment is never replaced by a new one. *)
Theorem initiatePayment_fresh_id
    (h : Js.Host) (now : Z) (d : PaymentData.t) (st : state) :
  reachable st ->
  payments st !! generatePaymentId h now st = None
  /\ forall resp st',
       initiatePayment h now d st = (inr resp, st') ->
       payments st !! InitiateResponse.paymentId resp = None
       /\ forall k p, payments st !! k = Some p -> payments st' !! k = Some p.
Proof.
  intros Hr. pose proof (reachable_numbered st Hr) as Hn.
  pose proof (generatePaymentId_fresh h now st Hn) as Hfresh.
  split; [exact Hfresh |]. intros resp st' Hi.
  destruct (initiatePayment_cases h now d st)
    as [[_ [f [E _]]] | [_ [resp' [p' [E [Hid _]]]]]];
    rewrite E in Hi; [discriminate |].
  injection Hi as <- <-. rewrite Hid. split; [exact Hfresh |].
  intros k p Hk. cbn [payments]. rewrite lookup_insert_ne; [exact Hk |].
  intros Ek. rewrite <- Ek, Hfresh in Hk. discriminate.
Qed.

Lemma initiatePayment_fresh_id_witness :
  payments Sample.client !! "PAY_20251103_5002" = None
  /\ payments Sample.client !! Sample.paymentId <> None.
Proof.
  split.
  - apply (proj1 (initiatePayment_fresh_id Sample.host (Sample.now + 1000)
                    Sample.paymentData Sample.client
                    (reach_step (Initiate Sample.host Sample.now Sample.paymentData)
                       init reach_init))).
  - vm_compute. discriminate.
Defined.

(** X23. No call loses a payment or rewrites its terms: in every client a
    run of calls can lead to, a stored payment is still stored under its id
    after any further calls, with the same payment id, order id, amount,
    currency, fees, initiation time and expiry time; and a payment that is
    no longer INITIATED or PROCESSING (COMPLETED, EXPIRED or CANCELLED) is
    not changed at all, whatever is polled or cancelled. *)
Theorem stored_payment_kept
    (calls : list call) (st : state) (k : string) (p : Payment.t) :
  reachable st ->
  payments st !! k = Some p ->
  exists q,
    payments (performAll calls st) !! k = Some q
    /\ sameTerms p q
    /\ (pending p = false -> q = p).
Proof.
  intros Hr Hk. apply performAll_keeps; [apply reachable_numbered; exact Hr | exact Hk].
Qed.

Lemma stored_payment_kept_witness :
  exists q,
    payments (performAll
                [GetStatus (Sample.now + 40000) (Sample.now + 40001)
                   (Sample.now + 40002) Sample.draws Sample.paymentId;
                 Cancel (Sample.now + 50000) Sample.paymentId None;
                 Initiate Sample.host (Sample.now + 60000) Sample.paymentData]
                Sample.client) !! Sample.paymentId = Some q
    /\ Payment.amount q = 60.
Proof.
  assert (Hp : exists p, payments Sample.client !! Sample.paymentId = Some p
                         /\ Payment.amount p = 60)
    by (eexists; split; vm_compute; reflexivity).
  destruct Hp as [p [Hp Ha]].
  destruct (stored_payment_kept
              [GetStatus (Sample.now + 40000) (Sample.now + 40001)
                 (Sample.now + 40002) Sample.draws Sample.paymentId;
               Cancel (Sample.now + 50000) Sample.paymentId None;
               Initiate Sample.host (Sample.now + 60000) Sample.paymentData]
              Sample.client Sample.paymentId p
              (reach_step (Initiate Sample.host Sample.now Sample.paymentData)
                 init reach_init) Hp) as [q [Hq [Hs _]]].
  exists q. split; [exact Hq |].
  destruct Hs as [_ [_ [Hamt _]]]. rewrite Hamt. exact Ha.
Defined.

(** X24. A payment whose expiry lies at least 30 s, plus the time between the
    clock reads of one poll, after its initiation is never reported EXPIRED,
    however late it is polled: a poll that finds the expiry passed also finds
    the 30 s passed, and moves the payment to PROCESSING before it tests the
    expiry. The default expiry is 60 minutes after the initiation. *)
Theorem expiry_never_reported
    (polls : list PayDPISpec.Poll) (p : Payment.t) (skew : Z) :
  Payment.status p <> "EXPIRED" ->
  Payment.initiatedAt p + 30000 + skew <= Payment.expiresAt p ->
  Forall (fun k => PayDPISpec.readExpiry k <= PayDPISpec.readNow k + skew) polls ->
  Payment.status (PayDPISpec.pollAll polls p) <> "EXPIRED".
Proof.
  intros Hs He Hp. revert p Hs He.
  induction Hp as [| k polls Hk _ IH]; intros p Hs He; [exact Hs |].
  cbn [PayDPISpec.pollAll fold_left]. apply IH.
  - rewrite PayDPIFacts.advance_status.
    destruct (String.eqb_spec (Payment.status p) "INITIATED") as [_ | _].
    + destruct (60000 <? _); [discriminate |].
      destruct (Z.ltb_spec 30000 (PayDPISpec.readNow k - Payment.initiatedAt p));
        [discriminate |].
      destruct (Z.ltb_spec (Payment.expiresAt p) (PayDPISpec.readExpiry k));
        [lia | discriminate].
    + destruct (String.eqb (Payment.status p) "PROCESSING"); [| exact Hs].
      destruct (60000 <? _); discriminate.
  - destruct (PayDPIFacts.advance_times (PayDPISpec.readNow k)
                (PayDPISpec.readDone k) (PayDPISpec.readExpiry k)
                (PayDPISpec.drawn k) p) as [-> ->].
    exact He.
Qed.

Lemma expiry_never_reported_witness :
  exists p,
    payments Sample.client !! Sample.paymentId = Some p
    /\ Payment.expiresAt p < Sample.now + 7200000
    /\ Payment.status
         (PayDPISpec.pollAll
            [{| PayDPISpec.readNow := Sample.now + 7200000;
                PayDPISpec.readDone := Sample.now + 7200001;
                PayDPISpec.readExpiry := Sample.now + 7200002;
                PayDPISpec.drawn := Sample.draws |}] p) <> "EXPIRED".
Proof.
  assert (Hp : exists p, payments Sample.client !! Sample.paymentId = Some p
                         /\ Payment.status p = "INITIATED"
                         /\ Payment.initiatedAt p = Sample.now
                         /\ Payment.expiresAt p = Sample.now + 3600000)
    by (eexists; repeat split; vm_compute; reflexivity).
  destruct Hp as [p [Hp [Hs [Hi He]]]].
  exists p. split; [exact Hp |]. split; [rewrite He; lia |].
  apply (expiry_never_reported _ p 2).
  - rewrite Hs. discriminate.
  - rewrite Hi, He. lia.
  - constructor; [cbn; lia | constructor].
Defined.

End ClientFacts.

(** ** Refunds *)

Module RefundFacts.
Import PayDPIRefunds RefundSpec.

Lemma initiateRefund_cases h idAt now estAt d st :
  (refundable d st = false
   /\ exists f, initiateRefund h idAt now estAt d st = (inl f, st))
  \/ (refundable d st = true
      /\ exists resp r,
           initiateRefund h idAt now estAt d st
           = (inr resp,
              {| client := client st;
                 refunds := <[generateRefundId h idAt st := r]> (refunds st);
                 refundCounter := refundCounter st + 1 |})
           /\ RefundResponse.refundId resp = generateRefundId h idAt st
           /\ RefundResponse.status resp = "INITIATED"
           /\ Some (RefundResponse.amount resp) = RefundData.amount d
           /\ Some (Refund.paymentId r) = RefundData.paymentId d
           /\ Some (Refund.amount r) = RefundData.amount d
           /\ Refund.status r = "INITIATED"
           /\ Refund.completedAt r = None
           /\ Refund.initiatedAt r = now).
Proof.
  unfold refundable, initiateRefund.
  destruct (RefundData.paymentId d) as [pid |]; cbn [Js.truthyStr negb andb];
    [| left; eauto].
  destruct (negb (String.eqb pid "")); cbn [negb andb]; [| left; eauto].
  destruct (RefundData.amount d) as [amt |]; cbn [Js.truthyNum negb andb];
    [| left; eauto].
  destruct (negb (amt =? 0)); cbn [negb andb]; [| left; eauto].
  destruct (RefundData.reason d) as [reason |]; cbn [Js.truthyStr negb andb];
    [| left; eauto].
  destruct (negb (String.eqb reason "")); cbn [negb andb]; [| left; eauto].
  cbn [default from_option Datatypes.id].
  destruct (PayDPIClient.payments (client st) !! pid) as [p |]; [| left; eauto].
  destruct (String.eqb (Payment.status p) "COMPLETED"); cbn [negb andb];
    [| left; eauto].
  destruct (Z.ltb_spec (Payment.amount p) amt) as [Hlt | Hge].
  - left. split; [apply Z.leb_gt; exact Hlt | eauto].
  - right. split; [apply Z.leb_le; exact Hge |].
    eexists _, _. split; [reflexivity |]. cbn. repeat split.
Qed.

(** X25. [initiateRefund] accepts a request exactly when the payment id,
    amount and reason are present (an amount of 0 counts as absent), the
    payment is stored and COMPLETED, and the amount is not above the
    payment's; neither a lower bound on the amount nor the refunds already
    made are looked at. A refused request leaves the client as it was; an
    accepted one leaves the payments alone, advances the refund counter by
    one and stores an INITIATED refund of that amount under the id it
    returns. *)
Theorem initiateRefund_decides
    (h : Js.Host) (idAt now estAt : Z) (d : RefundData.t) (st : state) :
  match initiateRefund h idAt now estAt d st with
  | (inl _, st') => refundable d st = false /\ st' = st
  | (inr resp, st') =>
      refundable d st = true
      /\ client st' = client st
      /\ refundCounter st' = refundCounter st + 1
      /\ exists r,
           refunds st' !! RefundResponse.refundId resp = Some r
           /\ Refund.status r = "INITIATED"
           /\ Some (Refund.paymentId r) = RefundData.paymentId d
           /\ Some (Refund.amount r) = RefundData.amount d
           /\ RefundResponse.amount resp = Refund.amount r
  end.
Proof.
  destruct (initiateRefund_cases h idAt now estAt d st)
    as [[Ha [f ->]] | [Ha [resp [r [-> H]]]]]; [auto |].
  destruct H as [Hid [_ [Hamt [Hp [Ha' [Hs _]]]]]].
  split; [exact Ha |]. split; [reflexivity |]. split; [reflexivity |].
  exists r. cbn [refunds]. rewrite Hid, lookup_insert_eq.
  repeat split; auto. congruence.
Qed.

Lemma refund_id_counter_inj (a b : string) (n m : Z) :
  "REF_" +:+ a +:+ "_" +:+ Js.toString n = "REF_" +:+ b +:+ "_" +:+ Js.toString m ->
  n = m.
Proof.
  intros H. apply IdFacts.toString_inj.
  apply (ClientFacts.last_part "_" ("REF_" +:+ a) ("REF_" +:+ b));
    [apply ClientFacts.toString_lacks | apply ClientFacts.toString_lacks |].
  rewrite <- !ClientFacts.append_assoc. exact H.
Qed.

(** X26. A refund that was accepted once is accepted again: the same request,
    made after it at any clock reading, succeeds too, under a different
    refund id, and both refunds are then stored with the full amount. So the
    refunds of one payment can add up to more than the payment. *)
Theorem refund_accepted_again
    (h h' : Js.Host) (idAt now estAt idAt' now' estAt' : Z) (d : RefundData.t)
    (st st1 : state) (resp : RefundResponse.t) :
  initiateRefund h idAt now estAt d st = (inr resp, st1) ->
  exists resp' st2 r r',
    initiateRefund h' idAt' now' estAt' d st1 = (inr resp', st2)
    /\ RefundResponse.refundId resp' <> RefundResponse.refundId resp
    /\ refunds st2 !! RefundResponse.refundId resp = Some r
    /\ refunds st2 !! RefundResponse.refundId resp' = Some r'
    /\ Refund.paymentId r' = Refund.paymentId r
    /\ Some (Refund.amount r) = RefundData.amount d
    /\ Some (Refund.amount r') = RefundData.amount d.
Proof.
  intros H1.
  destruct (initiateRefund_cases h idAt now estAt d st)
    as [[_ [f E]] | [Ha [resp1 [r [E H]]]]]; rewrite E in H1; [discriminate |].
  injection H1 as <- <-.
  destruct H as [Hid [_ [_ [Hp [Hamt _]]]]].
  set (st1 := {| client := client st;
                 refunds := <[generateRefundId h idAt st := r]> (refunds st);
                 refundCounter := refundCounter st + 1 |}).
  assert (Ha1 : refundable d st1 = true) by exact Ha.
  destruct (initiateRefund_cases h' idAt' now' estAt' d st1)
    as [[Hn _] | [_ [resp2 [r' [E2 H2]]]]]; [congruence |].
  destruct H2 as [Hid2 [_ [_ [Hp2 [Hamt2 _]]]]].
  assert (Hne : generateRefundId h' idAt' st1 <> generateRefundId h idAt st).
  { unfold generateRefundId. intros Heq. apply refund_id_counter_inj in Heq.
    cbn [st1 refundCounter] in Heq. lia. }
  eexists resp2, _, r, r'. split; [exact E2 |].
  rewrite Hid, Hid2. split; [exact Hne |]. cbn [refunds st1].
  split; [rewrite lookup_insert_ne by exact Hne; apply lookup_insert_eq |].
  split; [apply lookup_insert_eq |].
  split; [congruence |]. split; assumption.
Qed.

Lemma refund_accepted_again_witness :
  exists resp st1 resp' st2,
    initiateRefund Sample.host (Sample.now + 80000) (Sample.now + 80001)
      (Sample.now + 80002) Sample.refundData Sample.refunding = (inr resp, st1)
    /\ initiateRefund Sample.host (Sample.now + 90000) (Sample.now + 90001)
         (Sample.now + 90002) Sample.refundData st1 = (inr resp', st2)
    /\ RefundResponse.refundId resp' <> RefundResponse.refundId resp.
Proof.
  assert (H1 : exists resp st1,
             initiateRefund Sample.host (Sample.now + 80000) (Sample.now + 80001)
               (Sample.now + 80002) Sample.refundData Sample.refunding
             = (inr resp, st1))
    by (eexists _, _; vm_compute; reflexivity).
  destruct H1 as [resp [st1 H1]].
  destruct (refund_accepted_again Sample.host Sample.host
              (Sample.now + 80000) (Sample.now + 80001) (Sample.now + 80002)
              (Sample.now + 90000) (Sample.now + 90001) (Sample.now + 90002)
              Sample.refundData Sample.refunding st1 resp H1)
    as [resp' [st2 [r [r' [H2 [Hne _]]]]]].
  exists resp, st1, resp', st2. auto.
Defined.

(** *** What every stored refund satisfies *)

Lemma advance_terms now doneAt r :
  Refund.paymentId (advance now doneAt r) = Refund.paymentId r
  /\ Refund.amount (advance now doneAt r) = Refund.amount r.
Proof.
  unfold advance, stepCompleted, stepProcessing.
  repeat (destruct (_ && _); cbn); split; reflexivity.
Qed.

Lemma advance_coherent now doneAt r : coherent r -> coherent (advance now doneAt r).
Proof.
  unfold coherent, advance, stepCompleted, stepProcessing.
  intros [[Hs Hc] | [[Hs Hc] | [Hs Hc]]]; rewrite Hs; cbn.
  - destruct (5000 <? _); cbn.
    + destruct (30000 <? _); cbn; [right; right; split; [reflexivity | discriminate] |].
      right; left. auto.
    + rewrite Hs. cbn. auto.
  - rewrite Hs. cbn. destruct (30000 <? _); cbn;
      [right; right; split; [reflexivity | discriminate] | auto].
  - rewrite Hs. cbn. auto.
Qed.

Lemma completed_not_pending p :
  Payment.status p = "COMPLETED" -> ClientSpec.pending p = false.
Proof. unfold ClientSpec.pending. intros ->. reflexivity. Qed.

Lemma reachable_backed st :
  reachable st ->
  ClientSpec.numbered (client st)
  /\ forall k r, refunds st !! k = Some r -> backed st r /\ coherent r.
Proof.
  induction 1 as [| c st _ [Hn IH]].
  - split; [exact (ClientFacts.reachable_numbered _ ClientSpec.reach_init) |].
    intros k r H. cbn in H. rewrite lookup_empty in H. discriminate.
  - destruct c as [c | h idAt now estAt d | now doneAt rid]; cbn [perform].
    + split; [apply ClientFacts.numbered_perform; exact Hn |].
      cbn [refunds]. intros k r Hk.
      destruct (IH k r Hk) as [[p [Hp [Hs Ha]]] Hc]. split; [| exact Hc].
      destruct (ClientFacts.perform_keeps c (client st) _ p Hn Hp) as [q [Hq [_ Hf]]].
      rewrite (Hf (completed_not_pending p Hs)) in Hq.
      exists p. auto.
    + destruct (initiateRefund_cases h idAt now estAt d st)
        as [[_ [f ->]] | [Ha [resp [r0 [-> H]]]]]; cbn [snd]; [auto |].
      split; [exact Hn |]. cbn [refunds]. intros k r Hk.
      destruct (decide (generateRefundId h idAt st = k)) as [<- | Hne].
      * rewrite lookup_insert_eq in Hk. injection Hk as <-.
        destruct H as [_ [_ [_ [Hp [Hamt [Hs [Hc _]]]]]]].
        split; [| left; auto].
        unfold refundable in Ha. rewrite <- Hp, <- Hamt in Ha.
        cbn [default from_option Datatypes.id] in Ha.
        apply andb_true_iff in Ha as [_ Ha]. unfold backed. cbn [client].
        destruct (PayDPIClient.payments (client st) !! Refund.paymentId r0)
          as [p |]; [| discriminate].
        apply andb_true_iff in Ha as [Hst Hle].
        exists p. split; [reflexivity |].
        split; [apply String.eqb_eq; exact Hst | apply Z.leb_le; exact Hle].
      * rewrite lookup_insert_ne in Hk by exact Hne. exact (IH k r Hk).
    + unfold getRefundStatus.
      destruct (refunds st !! rid) as [r0 |] eqn:Hr; cbn [snd]; [| auto].
      split; [exact Hn |]. cbn [refunds]. intros k r Hk.
      destruct (decide (rid = k)) as [<- | Hne].
      * rewrite lookup_insert_eq in Hk. injection Hk as <-.
        destruct (IH rid r0 Hr) as [[p [Hp [Hs Ha]]] Hc].
        destruct (advance_terms now doneAt r0) as [Eid Eamt].
        split; [| apply advance_coherent; exact Hc].
        exists p. unfold backed. cbn [client]. rewrite Eid, Eamt. auto.
      * rewrite lookup_insert_ne in Hk by exact Hne. exact (IH k r Hk).
Qed.

(** X27. In every client a run of calls can lead to, payments being
    initiated, polled and cancelled in between, each stored refund names a
    stored payment that is COMPLETED and whose amount is not below the
    refund's; the refund is INITIATED, PROCESSING or COMPLETED, and carries a
    completion time exactly when it is COMPLETED. *)
Theorem stored_refund_backed (st : state) (k : string) (r : Refund.t) :
  reachable st ->
  refunds st !! k = Some r ->
  backed st r /\ coherent r.
Proof. intros Hr Hk. exact (proj2 (reachable_backed st Hr) k r Hk). Qed.

Lemma stored_refund_backed_witness :
  exists st r,
    refunds st !! "REF_20251103_1001" = Some r
    /\ backed st r /\ coherent r.
Proof.
  set (st := perform
               (InitiateRefund Sample.host (Sample.now + 80000) (Sample.now + 80001)
                  (Sample.now + 80002) Sample.refundData)
               (perform
                  (OnPayments
                     (ClientSpec.GetStatus (Sample.now + 70000) (Sample.now + 70001)
                        (Sample.now + 70002) Sample.draws Sample.paymentId))
                  (perform
                     (OnPayments
                        (ClientSpec.Initiate Sample.host Sample.now Sample.paymentData))
                     init))).
  assert (Hk : exists r, refunds st !! "REF_20251103_1001" = Some r)
    by (eexists; vm_compute; reflexivity).
  destruct Hk as [r Hk]. exists st, r. split; [exact Hk |].
  apply (stored_refund_backed st "REF_20251103_1001" r); [| exact Hk].
  repeat apply reach_step. apply reach_init.
Defined.

End RefundFacts.
